(** * Optimisation notebooks: the models built by [solve_army] and by the
      CP-SAT cells

    The notebooks [2022-03-05-Integer_Programming] and
    [2022-05-02-Constraint_Programming] build linear models through the
    OR-Tools API, hand them to the engine and print what the engine
    answers.  The model construction (variables, constraints, objective,
    with Python's list indexing and its [IndexError]) and the reporting
    branches are embedded here; the engine itself is a parameter. *)

From Stdlib Require Import String ZArith List Bool Lia.
Import ListNotations.
Local Open Scope Z_scope.

(** ** Python lists and exceptions *)

Module Py.

(** The exception the notebooks' own expressions raise: indexing a list out
    of range.  The number conversions of the OR-Tools wrappers
    ([OverflowError], [TypeError]) are not embedded; statements about what
    a call raises are made for inputs on which they do not occur
    ([stored_as_given], [int32] below). *)
Inductive exn : Type := IndexError.

Inductive result (A : Type) : Type :=
  | Ok (a : A)
  | Raise (e : exn).
Arguments Ok {A} a.
Arguments Raise {A} e.

Definition bind {A B} (x : result A) (f : A -> result B) : result B :=
    match x with
    | Ok a => f a
    | Raise e => Raise e
    end.

  (** [l[i]]: a negative index counts from the end, anything outside the
      list raises [IndexError]. *)
Definition getitem {A} (l : list A) (i : Z) : result A :=
    let n := Z.of_nat (length l) in
    let j := if i <? 0 then i + n else i in
    if (0 <=? j) && (j <? n) then
      match nth_error l (Z.to_nat j) with
      | Some x => Ok x
      | None => Raise IndexError
      end
    else Raise IndexError.

  (** [enumerate(l)] *)
Definition enumerate {A} (l : list A) : list (Z * A) :=
    combine (map Z.of_nat (seq 0 (length l))) l.

  (** A generator or comprehension whose element expression may raise:
      elements are evaluated left to right and the first exception
      propagates. *)
Fixpoint mapM {A B} (f : A -> result B) (l : list A) : result (list B) :=
    match l with
    | [] => Ok []
    | x :: l' =>
        bind (f x) (fun y => bind (mapM f l') (fun ys => Ok (y :: ys)))
    end.

End Py.

Declare Scope py_scope.
Delimit Scope py_scope with py.
Notation "x <- c ;; k" := (Py.bind c (fun x => k))
  (at level 100, c at next level, right associativity) : py_scope.

(** ** Linear models, as the OR-Tools front ends hold them *)

Inductive ubound : Type :=
| Fin (z : Z)
| Infinity.                         (* [solver.infinity()] *)

Record variable : Type := {
  var_name : string;
  var_lb : Z;
  var_ub : ubound
}.

(** A variable handle is its position in the model. *)
Definition handle := nat.

(** [coef * x]; a sum of such products is the list of its terms. *)
Definition term : Type := (Z * handle)%type.
Definition linexpr : Type := list term.

Inductive constraint : Type :=
| LinLe (e : linexpr) (cap : Z)                      (* [e <= cap] *)
| LinGe (e : linexpr) (bound : Z)                    (* [e >= bound] *)
| ModEq (target : Z) (x : handle) (modulus : Z).     (* [x % modulus = target] *)

Inductive direction : Type := Maximize | Minimize.

Record model : Type := {
  variables : list variable;
  constraints : list constraint;
  objective : option (direction * linexpr)
}.

Definition empty_model : model :=
  {| variables := []; constraints := []; objective := None |}.

(** *** Meaning of a model: integer assignments, one value per variable *)

Definition assignment := list Z.

Definition value_of (a : assignment) (x : handle) : Z := nth x a 0.

Fixpoint eval (e : linexpr) (a : assignment) : Z :=
  match e with
  | [] => 0
  | (c, x) :: e' => c * value_of a x + eval e' a
  end.

Definition below (x : Z) (u : ubound) : Prop :=
  match u with
  | Fin z => x <= z
  | Infinity => True
  end.

Definition in_domain (v : variable) (x : Z) : Prop :=
  var_lb v <= x /\ below x (var_ub v).

Definition sat (a : assignment) (c : constraint) : Prop :=
  match c with
  | LinLe e cap => eval e a <= cap
  | LinGe e bound => eval e a >= bound
  | ModEq target x modulus => value_of a x mod modulus = target
  end.

Definition feasible (m : model) (a : assignment) : Prop :=
  Forall2 in_domain (variables m) a /\ Forall (sat a) (constraints m).

Definition objective_expr (m : model) : linexpr :=
  match objective m with
  | Some (_, e) => e
  | None => []
  end.

Definition objective_value (m : model) (a : assignment) : Z :=
  eval (objective_expr m) a.

(** [v] is the largest objective value a feasible assignment reaches. *)
Definition is_max (m : model) (v : Z) : Prop :=
  (exists a, feasible m a /\ objective_value m a = v) /\
  (forall a, feasible m a -> objective_value m a <= v).

(** [v] is the smallest objective value a feasible assignment reaches. *)
Definition is_min (m : model) (v : Z) : Prop :=
  (exists a, feasible m a /\ objective_value m a = v) /\
  (forall a, feasible m a -> v <= objective_value m a).

(** *** The same, decided *)

Definition belowb (x : Z) (u : ubound) : bool :=
  match u with
  | Fin z => x <=? z
  | Infinity => true
  end.

Definition in_domainb (v : variable) (x : Z) : bool :=
  (var_lb v <=? x) && belowb x (var_ub v).

Definition satb (a : assignment) (c : constraint) : bool :=
  match c with
  | LinLe e cap => eval e a <=? cap
  | LinGe e bound => eval e a >=? bound
  | ModEq target x modulus => value_of a x mod modulus =? target
  end.

Fixpoint forall2b {A B} (p : A -> B -> bool) (l : list A) (l' : list B) : bool :=
  match l, l' with
  | [], [] => true
  | x :: l, y :: l' => p x y && forall2b p l l'
  | _, _ => false
  end.

Definition feasibleb (m : model) (a : assignment) : bool :=
  forall2b in_domainb (variables m) a && forallb (satb a) (constraints m).

(** ** Statements that mutate an object and may raise

    [st S A] is a computation over a mutable object of type [S] (the solver
    or model under construction, or the standard output) that either
    yields an [A] or raises; the object keeps what was done to it before
    the exception. *)

Definition st (S A : Type) : Type := S -> S * Py.result A.

Definition ret {S A} (a : A) : st S A := fun s => (s, Py.Ok a).

Definition bind {S A B} (c : st S A) (k : A -> st S B) : st S B :=
  fun s =>
    match c s with
    | (s', Py.Ok a) => k a s'
    | (s', Py.Raise e) => (s', Py.Raise e)
    end.

Definition lift {S A} (x : Py.result A) : st S A := fun s => (s, x).

Declare Scope st_scope.
Delimit Scope st_scope with st.
Notation "x <- c ;; k" := (bind c (fun x => k))
  (at level 100, c at next level, right associativity) : st_scope.
Notation "c ;;; k" := (bind c (fun _ => k))
  (at level 100, right associativity) : st_scope.

(** [for x in l: body] *)
Fixpoint for_each {S A} (l : list A) (body : A -> st S unit) : st S unit :=
  match l with
  | [] => ret tt
  | x :: l' => (body x ;;; for_each l' body)%st
  end.

(** [[f(x) for x in l]] *)
Fixpoint collect {S A B} (f : A -> st S B) (l : list A) : st S (list B) :=
  match l with
  | [] => ret []
  | x :: l' => (y <- f x ;; ys <- collect f l' ;; ret (y :: ys))%st
  end.

(** *** The part of the OR-Tools API the notebooks call

    The model records the names and the integers it is handed.  That is
    what the solver holds as long as it keeps them as given
    ([stored_as_given] and [int32] below say when). *)

Definition new_var (lb : Z) (ub : ubound) (name : string) : st model handle :=
  fun m =>
    ({| variables := variables m ++ [{| var_name := name; var_lb := lb; var_ub := ub |}];
        constraints := constraints m;
        objective := objective m |},
     Py.Ok (length (variables m))).

(** [solver.IntVar(lb, ub, name)] of [pywraplp] *)
Definition IntVar (lb : Z) (ub : ubound) (name : string) : st model handle :=
  new_var lb ub name.

(** [model.NewIntVar(lb, ub, name)] of [cp_model] *)
Definition NewIntVar (lb ub : Z) (name : string) : st model handle :=
  new_var lb (Fin ub) name.

(** [solver.Add(c)], [model.Add(c)] *)
Definition Add (c : constraint) : st model unit :=
  fun m =>
    ({| variables := variables m;
        constraints := constraints m ++ [c];
        objective := objective m |},
     Py.Ok tt).

(** [model.AddModuloEquality(target, x, modulus)] *)
Definition AddModuloEquality (target : Z) (x : handle) (modulus : Z) : st model unit :=
  Add (ModEq target x modulus).

Definition set_objective (d : direction) (e : linexpr) : st model unit :=
  fun m =>
    ({| variables := variables m;
        constraints := constraints m;
        objective := Some (d, e) |},
     Py.Ok tt).

Definition SolverMaximize (e : linexpr) : st model unit := set_objective Maximize e.
Definition SolverMinimize (e : linexpr) : st model unit := set_objective Minimize e.

(** [sum(coef(u) * units[u] for u, _ in enumerate(units))]: the linear
    expression with one term per unit, in order.  With no unit at all
    Python's [sum] is the number 0 and the comparison built from it a
    plain boolean, which [Add] turns into a constraint that always or
    never holds: the meaning of the empty expression here. *)
Definition sum_terms (coef : Z -> Py.result Z) (units : list handle) : Py.result linexpr :=
  Py.mapM (fun '(u, _) =>
             (c <- coef u ;;
              x <- Py.getitem units u ;;
              Py.Ok (c, x))%py)
          (Py.enumerate units).

(** [DATA[u][r]] *)
Definition cell (DATA : list (list Z)) (u r : Z) : Py.result Z :=
  (row <- Py.getitem DATA u ;; Py.getitem row r)%py.

(** [10 * DATA[u][-2] + DATA[u][-1]] *)
Definition power_coef (DATA : list (list Z)) (u : Z) : Py.result Z :=
  (attack <- cell DATA u (-2) ;;
   health <- cell DATA u (-1) ;;
   Py.Ok (10 * attack + health))%py.

(** [DATA[u][0] + DATA[u][1] + DATA[u][2]] *)
Definition cost_coef (DATA : list (list Z)) (u : Z) : Py.result Z :=
  (food <- cell DATA u 0 ;;
   wood <- cell DATA u 1 ;;
   gold <- cell DATA u 2 ;;
   Py.Ok (food + wood + gold))%py.

(** *** What the engine answers, and what a cell prints *)

(** [pywraplp.Solver] result statuses (the cells name only [OPTIMAL]) *)
Inductive mp_status : Type :=
| MP_OPTIMAL | MP_FEASIBLE | MP_INFEASIBLE | MP_UNBOUNDED
| MP_ABNORMAL | MP_MODEL_INVALID | MP_NOT_SOLVED.

(** [cp_model] result statuses (the cells name [OPTIMAL] and [FEASIBLE]) *)
Inductive cp_status : Type :=
| CP_UNKNOWN | CP_MODEL_INVALID | CP_FEASIBLE | CP_INFEASIBLE | CP_OPTIMAL.

Definition mp_status_eqb (s t : mp_status) : bool :=
  match s, t with
  | MP_OPTIMAL, MP_OPTIMAL | MP_FEASIBLE, MP_FEASIBLE
  | MP_INFEASIBLE, MP_INFEASIBLE | MP_UNBOUNDED, MP_UNBOUNDED
  | MP_ABNORMAL, MP_ABNORMAL | MP_MODEL_INVALID, MP_MODEL_INVALID
  | MP_NOT_SOLVED, MP_NOT_SOLVED => true
  | _, _ => false
  end.

Definition cp_status_eqb (s t : cp_status) : bool :=
  match s, t with
  | CP_UNKNOWN, CP_UNKNOWN | CP_MODEL_INVALID, CP_MODEL_INVALID
  | CP_FEASIBLE, CP_FEASIBLE | CP_INFEASIBLE, CP_INFEASIBLE
  | CP_OPTIMAL, CP_OPTIMAL => true
  | _, _ => false
  end.

(** The numbers the MIP engine reports are Python floats; the cells only
    print them, or add and multiply them ([num_add], [num_mul]) after
    converting table entries ([num_of_int]).  Their type stays abstract. *)
Record numeric (num : Type) : Type := {
  num_of_int : Z -> num;
  num_add : num -> num -> num;
  num_mul : num -> num -> num
}.
Arguments num_of_int {num}.
Arguments num_add {num}.
Arguments num_mul {num}.

(** State of a [pywraplp.Solver] after [Solve()] *)
Record mp_answer (num : Type) : Type := {
  mp_result : mp_status;                (* value returned by [Solve()] *)
  wall_time : num;                      (* [solver.wall_time()] *)
  iterations : Z;                       (* [solver.iterations()] *)
  mp_objective : num;                   (* [solver.Objective().Value()] *)
  solution_value : handle -> num        (* [x.solution_value()] *)
}.
Arguments mp_result {num}.
Arguments wall_time {num}.
Arguments iterations {num}.
Arguments mp_objective {num}.
Arguments solution_value {num}.

(** State of a [cp_model.CpSolver] after [Solve(model)] *)
Record cp_answer (num : Type) : Type := {
  cp_result : cp_status;
  WallTime : num;                       (* [solver.WallTime()] *)
  Value : handle -> Z                   (* [solver.Value(x)] *)
}.
Arguments cp_result {num}.
Arguments WallTime {num}.
Arguments Value {num}.

(** A printed line is the sequence of pieces of its f-string: literal
    text, an interpolated float (with its format specification when it has
    one), or an interpolated integer. *)
Inductive piece (num : Type) : Type :=
| Lit (s : string)
| Num (x : num)
| NumFmt (spec : string) (x : num)
| Int (z : Z).
Arguments Lit {num}.
Arguments Num {num}.
Arguments NumFmt {num}.
Arguments Int {num}.

Definition line (num : Type) : Type := list (piece num).
Definition stdout (num : Type) : Type := list (line num).

(** [print(l)] *)
Definition print {num} (l : line num) : st (stdout num) unit :=
  fun out => (out ++ [l], Py.Ok tt).

(** [x.name()], for a variable created with a non-empty name *)
Definition name (m : model) (x : handle) : string :=
  match nth_error (variables m) x with
  | Some v => var_name v
  | None => EmptyString
  end.

(** Python values a function of the notebooks can hand back to its caller. *)
Inductive pyvalue (num : Type) : Type :=
| PyNone
| PyNum (x : num)
| PyDict (items : list (string * num))
| PyPair (x y : pyvalue num).
Arguments PyNone {num}.
Arguments PyNum {num}.
Arguments PyDict {num}.
Arguments PyPair {num}.

(** Lines that several cells print. *)
Definition banner {num} : line num :=
  [Lit "================= Solution ================="%string].

Definition solved_in {num} (a : mp_answer num) : line num :=
  [Lit "Solved in "%string; NumFmt ".2f"%string (wall_time a);
   Lit " milliseconds in "%string; Int (iterations a); Lit " iterations"%string].

Definition no_optimum {num} : line num :=
  [Lit "The solver could not find an optimal solution."%string].

Definition unit_line {num} (m : model) (a : mp_answer num) (x : handle) : line num :=
  [Lit " - "%string; Lit (name m x); Lit " = "%string; Num (solution_value a x)].

(** [for u, _ in enumerate(units): print(f' - {units[u].name()} = {units[u].solution_value()}')] *)
Definition print_units {num} (m : model) (a : mp_answer num) (units : list handle)
  : st (stdout num) unit :=
  for_each (Py.enumerate units) (fun '(u, _) =>
    (x <- lift (Py.getitem units u) ;;
     print (unit_line m a x))%st).

(** [sum(coef(u) * units[u].solution_value() for u, _ in enumerate(units))]:
    Python's [sum] starts from the integer 0 and adds from the left. *)
Definition sum_values {num} (ops : numeric num) (a : mp_answer num)
  (coef : Z -> Py.result Z) (units : list handle) : Py.result num :=
  (xs <- Py.mapM (fun '(u, _) =>
                    (c <- coef u ;;
                     x <- Py.getitem units u ;;
                     Py.Ok (num_mul ops (num_of_int ops c) (solution_value a x)))%py)
                 (Py.enumerate units) ;;
   Py.Ok (fold_left (num_add ops) xs (num_of_int ops 0)))%py.

(** ** Integer Programming notebook *)

(** *** The cell that writes the three-unit model out by hand *)
Module ArmyCell.

Definition build : st model (handle * handle * handle) :=
    (swordsmen <- IntVar 0 Infinity "swordsmen" ;;
     bowmen <- IntVar 0 Infinity "bowmen" ;;
     horsemen <- IntVar 0 Infinity "horsemen" ;;
     Add (LinLe [(60, swordsmen); (80, bowmen); (140, horsemen)] 1200) ;;;
     Add (LinLe [(20, swordsmen); (10, bowmen)] 800) ;;;
     Add (LinLe [(40, bowmen); (100, horsemen)] 600) ;;;
     SolverMaximize [(70, swordsmen); (95, bowmen); (230, horsemen)] ;;;
     ret (swordsmen, bowmen, horsemen))%st.

Section WithEngine.
Context {num : Type} (Solve : model -> mp_answer num).

    (** The printing half, shared with the notebook's first (hidden) cell,
        which differs only in the label of the objective line. *)
Definition report (label : string) (a : mp_answer num)
      (swordsmen bowmen horsemen : handle) : st (stdout num) unit :=
      if mp_status_eqb (mp_result a) MP_OPTIMAL then
        (print banner ;;;
         print (solved_in a) ;;;
         print [] ;;;
         print [Lit label; Num (mp_objective a); Lit " 💪power"%string] ;;;
         print [Lit "Army:"%string] ;;;
         print [Lit " - 🗡️Swordsmen = "%string; Num (solution_value a swordsmen)] ;;;
         print [Lit " - 🏹Bowmen = "%string; Num (solution_value a bowmen)] ;;;
         print [Lit " - 🐎Horsemen = "%string; Num (solution_value a horsemen)])%st
      else
        print no_optimum.

Definition run : st (stdout num) unit :=
      match build empty_model with
      | (solver, Py.Ok (swordsmen, bowmen, horsemen)) =>
          report "Optimal value = " (Solve solver) swordsmen bowmen horsemen
      | (_, Py.Raise e) => lift (Py.Raise e)
      end.

    (** First cell: the solver and the three variables come from a setup
        that the notebook does not show. *)
Definition first_cell (solver : model) (swordsmen bowmen horsemen : handle)
      : st (stdout num) unit :=
      report "Optimal power = " (Solve solver) swordsmen bowmen horsemen.
End WithEngine.

End ArmyCell.

(** *** [solve_army], first definition: maximise the value column *)
Module MaxPower.

Definition UNITS : list string := ["🗡️Swordsmen"; "🏹Bowmen"; "🐎Horsemen"]%string.

Definition DATA : list (list Z) :=
    [[60; 20; 0; 70];
     [80; 10; 40; 95];
     [140; 0; 100; 230]].

Definition RESOURCES : list Z := [1200; 800; 600].

  (** Steps 1 to 3 of the function: variables, constraints, objective. *)
Definition build (UNITS : list string) (DATA : list (list Z)) (RESOURCES : list Z)
    : st model (list handle) :=
    (units <- collect (fun unit => IntVar 0 Infinity unit) UNITS ;;
     for_each (Py.enumerate RESOURCES) (fun '(r, _) =>
       (lhs <- lift (sum_terms (fun u => cell DATA u r) units) ;;
        cap <- lift (Py.getitem RESOURCES r) ;;
        Add (LinLe lhs cap))%st) ;;;
     obj <- lift (sum_terms (fun u => cell DATA u (-1)) units) ;;
     SolverMaximize obj ;;;
     ret units)%st.

Section WithEngine.
Context {num : Type} (Solve : model -> mp_answer num).

Definition report (solver : model) (a : mp_answer num) (units : list handle)
      : st (stdout num) unit :=
      if mp_status_eqb (mp_result a) MP_OPTIMAL then
        (print banner ;;;
         print (solved_in a) ;;;
         print [] ;;;
         print [Lit "Optimal value = "%string; Num (mp_objective a); Lit " 💪power"%string] ;;;
         print [Lit "Army:"%string] ;;;
         print_units solver a units)%st
      else
        print no_optimum.

    (** The function has no [return] statement: a call that does not raise
        evaluates to [None]. *)
Definition solve_army (UNITS : list string) (DATA : list (list Z)) (RESOURCES : list Z)
      : st (stdout num) (pyvalue num) :=
      match build UNITS DATA RESOURCES empty_model with
      | (solver, Py.Ok units) =>
          (report solver (Solve solver) units ;;; ret PyNone)%st
      | (_, Py.Raise e) => lift (Py.Raise e)
      end.
End WithEngine.

End MaxPower.

(** Inputs of the ten-unit cells (columns: food, wood, gold, attack, health). *)
Module TenUnits.

Definition UNITS : list string :=
  ["🗡️Swordsmen"; "🛡️Men-at-arms"; "🏹Bowmen"; "❌Crossbowmen"; "🔫Handcannoneers";
   "🐎Horsemen"; "♞Knights"; "🐏Battering rams"; "🎯Springalds"; "🪨Mangonels"]%string.

Definition DATA : list (list Z) :=
  [[60; 20; 0; 6; 70];
   [100; 0; 20; 12; 155];
   [30; 50; 0; 5; 70];
   [80; 0; 40; 12; 80];
   [120; 0; 120; 35; 150];
   [100; 20; 0; 9; 125];
   [140; 0; 100; 24; 230];
   [0; 300; 0; 200; 700];
   [0; 250; 250; 30; 200];
   [0; 400; 200; 12 * 3; 240]].

Definition RESOURCES : list Z := [183000; 90512; 80150].

End TenUnits.

(** *** [solve_army], second definition: maximise [10 * attack + health] *)
Module MaxPowerAttack.

Definition build (UNITS : list string) (DATA : list (list Z)) (RESOURCES : list Z)
  : st model (list handle) :=
  (units <- collect (fun unit => IntVar 0 Infinity unit) UNITS ;;
   for_each (Py.enumerate RESOURCES) (fun '(r, _) =>
     (lhs <- lift (sum_terms (fun u => cell DATA u r) units) ;;
      cap <- lift (Py.getitem RESOURCES r) ;;
      Add (LinLe lhs cap))%st) ;;;
   obj <- lift (sum_terms (power_coef DATA) units) ;;
   SolverMaximize obj ;;;
   ret units)%st.

Section WithEngine.
Context {num : Type} (Solve : model -> mp_answer num).

Definition solve_army (UNITS : list string) (DATA : list (list Z)) (RESOURCES : list Z)
  : st (stdout num) (pyvalue num) :=
  match build UNITS DATA RESOURCES empty_model with
  | (solver, Py.Ok units) =>
      (MaxPower.report solver (Solve solver) units ;;; ret PyNone)%st
  | (_, Py.Raise e) => lift (Py.Raise e)
  end.
End WithEngine.

End MaxPowerAttack.

(** Printing half of the two resource-minimising definitions. *)
Section MinReport.
Context {num : Type} (ops : numeric num).

Definition resource_line (label : string) (x : num) : line num :=
  [Lit label; Num x].

Definition min_report (DATA : list (list Z)) (solver : model) (a : mp_answer num)
  (units : list handle) : st (stdout num) unit :=
  if mp_status_eqb (mp_result a) MP_OPTIMAL then
    (print banner ;;;
     print (solved_in a) ;;;
     print [] ;;;
     power <- lift (sum_values ops a (power_coef DATA) units) ;;
     print [Lit "Optimal value = "%string; Num (mp_objective a);
            Lit " 🌾🪵🪙resources"%string] ;;;
     print [Lit "Power = 💪"%string; Num power] ;;;
     print [Lit "Army:"%string] ;;;
     print_units solver a units ;;;
     print [] ;;;
     food <- lift (sum_values ops a (fun u => cell DATA u 0) units) ;;
     wood <- lift (sum_values ops a (fun u => cell DATA u 1) units) ;;
     gold <- lift (sum_values ops a (fun u => cell DATA u 2) units) ;;
     print [Lit "Resources:"%string] ;;;
     print (resource_line " - 🌾Food = " food) ;;;
     print (resource_line " - 🪵Wood = " wood) ;;;
     print (resource_line " - 🪙Gold = " gold))%st
  else
    print no_optimum.
End MinReport.

(** *** [solve_army], third definition: cheapest army above the power bound *)
Module MinResources.

Definition build (UNITS : list string) (DATA : list (list Z)) (RESOURCES : list Z)
  : st model (list handle) :=
  (units <- collect (fun unit => IntVar 0 Infinity unit) UNITS ;;
   lhs <- lift (sum_terms (power_coef DATA) units) ;;
   Add (LinGe lhs 1000001) ;;;
   obj <- lift (sum_terms (cost_coef DATA) units) ;;
   SolverMinimize obj ;;;
   ret units)%st.

Section WithEngine.
Context {num : Type} (ops : numeric num) (Solve : model -> mp_answer num).

Definition solve_army (UNITS : list string) (DATA : list (list Z)) (RESOURCES : list Z)
  : st (stdout num) (pyvalue num) :=
  match build UNITS DATA RESOURCES empty_model with
  | (solver, Py.Ok units) =>
      (min_report ops DATA solver (Solve solver) units ;;; ret PyNone)%st
  | (_, Py.Raise e) => lift (Py.Raise e)
  end.
End WithEngine.

End MinResources.

(** *** [solve_army], fourth definition: power bound and limited resources *)
Module Combined.

Definition build (UNITS : list string) (DATA : list (list Z)) (RESOURCES : list Z)
  : st model (list handle) :=
  (units <- collect (fun unit => IntVar 0 Infinity unit) UNITS ;;
   for_each (Py.enumerate RESOURCES) (fun '(r, _) =>
     (lhs <- lift (sum_terms (power_coef DATA) units) ;;
      Add (LinGe lhs 1000001))%st) ;;;
   for_each (Py.enumerate RESOURCES) (fun '(r, _) =>
     (lhs <- lift (sum_terms (fun u => cell DATA u r) units) ;;
      cap <- lift (Py.getitem RESOURCES r) ;;
      Add (LinLe lhs cap))%st) ;;;
   obj <- lift (sum_terms (cost_coef DATA) units) ;;
   SolverMinimize obj ;;;
   ret units)%st.

(** The model the combined cell is compared with: the same statements with
    the power constraint added once, outside any loop, as in the third
    definition. *)
Definition build_power_once (UNITS : list string) (DATA : list (list Z)) (RESOURCES : list Z)
  : st model (list handle) :=
  (units <- collect (fun unit => IntVar 0 Infinity unit) UNITS ;;
   lhs <- lift (sum_terms (power_coef DATA) units) ;;
   Add (LinGe lhs 1000001) ;;;
   for_each (Py.enumerate RESOURCES) (fun '(r, _) =>
     (lhs <- lift (sum_terms (fun u => cell DATA u r) units) ;;
      cap <- lift (Py.getitem RESOURCES r) ;;
      Add (LinLe lhs cap))%st) ;;;
   obj <- lift (sum_terms (cost_coef DATA) units) ;;
   SolverMinimize obj ;;;
   ret units)%st.

Section WithEngine.
Context {num : Type} (ops : numeric num) (Solve : model -> mp_answer num).

Definition solve_army (UNITS : list string) (DATA : list (list Z)) (RESOURCES : list Z)
  : st (stdout num) (pyvalue num) :=
  match build UNITS DATA RESOURCES empty_model with
  | (solver, Py.Ok units) =>
      (min_report ops DATA solver (Solve solver) units ;;; ret PyNone)%st
  | (_, Py.Raise e) => lift (Py.Raise e)
  end.
End WithEngine.

End Combined.

(** ** Constraint Programming notebook *)

Definition cp_solved_in {num} (a : cp_answer num) : line num :=
  [Lit "Solved in "%string; NumFmt ".2f"%string (WallTime a); Lit " milliseconds"%string].

(** *** Size of the enemy army: a satisfiability model *)
Module ArmySize.

Definition build : st model handle :=
  (army <- NewIntVar 1 10000 "army" ;;
   AddModuloEquality 0 army 13 ;;;
   AddModuloEquality 0 army 19 ;;;
   AddModuloEquality 0 army 37 ;;;
   ret army)%st.

Section WithEngine.
Context {num : Type} (Solve : model -> cp_answer num).

Definition report (a : cp_answer num) (army : handle) : st (stdout num) unit :=
  if cp_status_eqb (cp_result a) CP_OPTIMAL || cp_status_eqb (cp_result a) CP_FEASIBLE then
    (print banner ;;;
     print (cp_solved_in a) ;;;
     print [] ;;;
     print [Lit "🪖 Army = "%string; Int (Value a army)] ;;;
     print [] ;;;
     print [Lit "Check solution:"%string] ;;;
     print [Lit " - Constraint 1: "%string; Int (Value a army);
            Lit " % 13 = "%string; Int (Value a army mod 13)] ;;;
     print [Lit " - Constraint 2: "%string; Int (Value a army);
            Lit " % 19 = "%string; Int (Value a army mod 19)] ;;;
     print [Lit " - Constraint 3: "%string; Int (Value a army);
            Lit " % 37 = "%string; Int (Value a army mod 37)])%st
  else
    print [Lit "The solver could not find a solution."%string].

Definition run : st (stdout num) unit :=
  match build empty_model with
  | (m, Py.Ok army) => report (Solve m) army
  | (_, Py.Raise e) => lift (Py.Raise e)
  end.
End WithEngine.

End ArmySize.

(** *** Rations: an optimisation model *)
Module Rations.

Definition capacity : Z := 19.

Definition build (capacity : Z) : st model (handle * handle * handle) :=
  (bread <- NewIntVar 0 capacity "bread" ;;
   meat <- NewIntVar 0 capacity "meat" ;;
   beer <- NewIntVar 0 capacity "beer" ;;
   Add (LinLe [(1, bread); (3, meat); (7, beer)] capacity) ;;;
   SolverMaximize [(3, bread); (10, meat); (26, beer)] ;;;
   ret (bread, meat, beer))%st.

(** The model the cells leave in [model]. *)
Definition rations (capacity : Z) : model := fst (build capacity empty_model).

Section WithEngine.
Context {num : Type} (Solve : model -> cp_answer num).

Definition report (a : cp_answer num) (bread meat beer : handle) : st (stdout num) unit :=
  if cp_status_eqb (cp_result a) CP_OPTIMAL then
    (print banner ;;;
     print (cp_solved_in a) ;;;
     print [] ;;;
     print [Lit "Optimal value = "%string;
            Int (3 * Value a bread + 10 * Value a meat + 26 * Value a beer);
            Lit " popularity"%string] ;;;
     print [Lit "Food:"%string] ;;;
     print [Lit " - 🥖Bread = "%string; Int (Value a bread)] ;;;
     print [Lit " - 🥩Meat  = "%string; Int (Value a meat)] ;;;
     print [Lit " - 🍺Beer  = "%string; Int (Value a beer)])%st
  else
    print no_optimum.

Definition run : st (stdout num) unit :=
  match build capacity empty_model with
  | (m, Py.Ok (bread, meat, beer)) => report (Solve m) bread meat beer
  | (_, Py.Raise e) => lift (Py.Raise e)
  end.
End WithEngine.

End Rations.

(** *** Enumerating all solutions *)

(** The integers [lo, lo + 1, ..., hi]. *)
Definition interval (lo hi : Z) : list Z :=
  map (fun i => lo + Z.of_nat i) (seq 0 (Z.to_nat (hi - lo + 1))).

(** Every point of the variables' domains, when all of them are bounded. *)
Fixpoint box (vs : list variable) : option (list assignment) :=
  match vs with
  | [] => Some [[]]
  | v :: vs' =>
      match var_ub v, box vs' with
      | Fin hi, Some rest =>
          Some (flat_map (fun x => map (cons x) rest) (interval (var_lb v) hi))
      | _, _ => None
      end
  end.

(** What the engine visits under [enumerate_all_solutions = True]: each
    point of the domains that satisfies the constraints, once. *)
Definition all_solutions (m : model) : option (list assignment) :=
  option_map (filter (feasibleb m)) (box (variables m)).

Module CountRations.

(** [class CountSolutions]: the callback object is its counter. *)
Record CountSolutions : Type := { solution_count : Z }.

Definition init : CountSolutions := {| solution_count := 0 |}.

Definition on_solution_callback (self : CountSolutions) : CountSolutions :=
  {| solution_count := solution_count self + 1 |}.

Definition capacity : Z := 19.

Definition build (capacity : Z) : st model (handle * handle * handle) :=
  (bread <- NewIntVar 0 capacity "Bread" ;;
   meat <- NewIntVar 0 capacity "Meat" ;;
   beer <- NewIntVar 0 capacity "Beer" ;;
   Add (LinLe [(1, bread); (3, meat); (7, beer)] capacity) ;;;
   ret (bread, meat, beer))%st.

(** [solver.Solve(model, solution_printer)] with enumeration switched on,
    for a model the engine accepts: one call of [on_solution_callback] per
    solution. *)
Definition Solve_all (m : model) (callback : CountSolutions) : option CountSolutions :=
  option_map (fun sols => fold_left (fun self _ => on_solution_callback self) sols callback)
             (all_solutions m).

(** The number the cell prints. *)
Definition run : option Z :=
  match build capacity empty_model with
  | (m, Py.Ok _) => option_map solution_count (Solve_all m init)
  | (_, Py.Raise _) => None
  end.

End CountRations.

(** ** Closed forms used to state what the builders produce *)

(** The variable [solve_army] creates for a unit name. *)
Definition unit_var (unit : string) : variable :=
  {| var_name := unit; var_lb := 0; var_ub := Infinity |}.

(** [DATA[u][r]] for indices known to be in range. *)
Definition entry (DATA : list (list Z)) (u r : nat) : Z := nth r (nth u DATA []) 0.

(** [DATA[u][-1]] for a row known to be non-empty. *)
Definition trailing (DATA : list (list Z)) (u : nat) : Z := last (nth u DATA []) 0.

(** [sum(coef(u) * units[u] ...)] over the first [n] variables. *)
Definition terms (coef : nat -> Z) (n : nat) : linexpr :=
  map (fun u => (coef u, u)) (seq 0 n).

(** The constraint of resource [r]. *)
Definition resource_constraint (DATA : list (list Z)) (RESOURCES : list Z) (n r : nat)
  : constraint :=
  LinLe (terms (fun u => entry DATA u r) n) (nth r RESOURCES 0).

Definition resource_constraints (DATA : list (list Z)) (RESOURCES : list Z) (n : nat)
  : list constraint :=
  map (resource_constraint DATA RESOURCES n) (seq 0 (length RESOURCES)).

(** [10 * attack + health], the last two columns of a row with at least two. *)
Definition power (DATA : list (list Z)) (u : nat) : Z :=
  let row := nth u DATA [] in
  10 * nth (length row - 2) row 0 + last row 0.

Definition power_constraint (DATA : list (list Z)) (n : nat) : constraint :=
  LinGe (terms (power DATA) n) 1000001.

(** [food + wood + gold], the first three columns. *)
Definition cost (DATA : list (list Z)) (u : nat) : Z :=
  entry DATA u 0 + entry DATA u 1 + entry DATA u 2.

(** [sum(h(u) * units[u].solution_value() ...)] over the first [n]
    variables, once the look-ups are known to succeed: Python adds from
    the left, starting from the integer 0. *)
Definition weighted_sum {num} (ops : numeric num) (a : mp_answer num) (h : nat -> Z)
  (n : nat) : num :=
  fold_left (num_add ops)
    (map (fun u => num_mul ops (num_of_int ops (h u)) (solution_value a u)) (seq 0 n))
    (num_of_int ops 0).

(** Every index the first [solve_army] evaluates is in range: each of the
    first [n] units has a row, the row is not empty and has at least [k]
    columns. *)
Definition indexable (n : nat) (DATA : list (list Z)) (k : nat) : Prop :=
  forall u, (u < n)%nat ->
    exists row, nth_error DATA u = Some row /\ row <> [] /\ (k <= length row)%nat.

Definition is_le (c : constraint) : bool :=
  match c with
  | LinLe _ _ => true
  | _ => false
  end.

(** One model relaxes another: same variables up to larger upper bounds,
    same constraints up to larger capacities of the [<=] rows, same
    objective. *)
Definition ubound_le (u u' : ubound) : Prop :=
  match u, u' with
  | _, Infinity => True
  | Fin z, Fin z' => z <= z'
  | Infinity, Fin _ => False
  end.

Definition var_relaxes (v v' : variable) : Prop :=
  var_name v = var_name v' /\ var_lb v = var_lb v' /\ ubound_le (var_ub v) (var_ub v').

Definition constraint_relaxes (c c' : constraint) : Prop :=
  match c, c' with
  | LinLe e cap, LinLe e' cap' => e = e' /\ cap <= cap'
  | _, _ => c = c'
  end.

Definition relaxes (m m' : model) : Prop :=
  Forall2 var_relaxes (variables m) (variables m') /\
  Forall2 constraint_relaxes (constraints m) (constraints m') /\
  objective m = objective m'.

(** The solver after [solver.Add] was called on each of [cs]. *)
Definition add_constraints (m : model) (cs : list constraint) : model :=
  {| variables := variables m;
     constraints := constraints m ++ cs;
     objective := objective m |}.

(** What one turn of the resource loop hands to [solver.Add], when the
    variables are the first [n] ones. *)
Definition eval_resource_constraint (DATA : list (list Z)) (RESOURCES : list Z)
  (n r : nat) : Py.result constraint :=
  (lhs <- sum_terms (fun u => cell DATA u (Z.of_nat r)) (seq 0 n) ;;
   cap <- Py.getitem RESOURCES (Z.of_nat r) ;;
   Py.Ok (LinLe lhs cap))%py.

(** What the power statement hands to [solver.Add]. *)
Definition eval_power_constraint (DATA : list (list Z)) (n : nat) : Py.result constraint :=
  (lhs <- sum_terms (power_coef DATA) (seq 0 n) ;;
   Py.Ok (LinGe lhs 1000001))%py.

Definition indexableb (n : nat) (DATA : list (list Z)) (k : nat) : bool :=
  forallb (fun u =>
             match nth_error DATA u with
             | Some row =>
                 match row with
                 | [] => false
                 | _ :: _ => (k <=? length row)%nat
                 end
             | None => false
             end)
          (seq 0 n).

(** The shape the inputs are documented to have: one row per unit name,
    and in every row one column per capacity plus the trailing value. *)
Definition well_dimensioned (UNITS : list string) (DATA : list (list Z))
  (RESOURCES : list Z) : Prop :=
  length DATA = length UNITS /\
  Forall (fun row => length row = (length RESOURCES + 1)%nat) DATA.

(** *** The contract of [build_and_solve], in the words of its description

    On success the caller is handed the solution mapping and the objective
    value; otherwise an [Infeasible] or [Unbounded] outcome. *)
Inductive outcome : Type := Infeasible | Unbounded.

Inductive handed_back (num : Type) : Type :=
| Solved (mapping : list (string * num)) (objective_value : num)
| Failed (o : outcome).
Arguments Solved {num}.
Arguments Failed {num}.

(** The mapping from each unit name to the value the engine gave its variable. *)
Definition solution_mapping {num} (UNITS : list string) (a : mp_answer num)
  : list (string * num) :=
  map (fun p : nat * string => let '(u, unit) := p in (unit, solution_value a u))
      (combine (seq 0 (length UNITS)) UNITS).

Definition agrees {num} (UNITS : list string) (a : mp_answer num) (r : handed_back num)
  : Prop :=
  match r with
  | Solved mapping v =>
      mp_result a = MP_OPTIMAL /\ mapping = solution_mapping UNITS a /\ v = mp_objective a
  | Failed _ => mp_result a <> MP_OPTIMAL
  end.

(** [decode], some way of reading the Python value a call returns, meets the
    contract on given inputs when, whatever the engine answers, the call
    returns a value that reads as that answer. *)
Definition meets_contract {num} (decode : pyvalue num -> option (handed_back num))
  (UNITS : list string) (DATA : list (list Z)) (RESOURCES : list Z) : Prop :=
  forall (Solve : model -> mp_answer num) out,
  exists v r,
    snd (MaxPower.solve_army Solve UNITS DATA RESOURCES out) = Py.Ok v /\
    decode v = Some r /\
    agrees UNITS (Solve (fst (MaxPower.build UNITS DATA RESOURCES empty_model))) r.

(** *** The two branches of a reporting cell *)

(** The cell prints the solution banner and then exactly [lines] (the
    timing, the objective value and the assignments), and completes. *)
Definition takes_success {num} (lines : list (line num)) (run : st (stdout num) unit)
  : Prop :=
  forall out, run out = (out ++ banner :: lines, Py.Ok tt).

(** The cell prints the one line [msg] and nothing else. *)
Definition takes_failure {num} (msg : line num) (run : st (stdout num) unit) : Prop :=
  forall out, run out = (out ++ [msg], Py.Ok tt).

Definition no_solution {num} : line num :=
  [Lit "The solver could not find a solution."%string].

(** *** Sample engine answers, with integers for the reported numbers *)

Definition Z_numeric : numeric Z :=
  {| num_of_int := fun z => z; num_add := Z.add; num_mul := Z.mul |}.

Definition mp_sample (status : mp_status) (objective_value : Z) (values : list Z)
  : mp_answer Z :=
  {| mp_result := status;
     wall_time := 2;
     iterations := 0;
     mp_objective := objective_value;
     solution_value := fun x => nth x values 0 |}.

Definition cp_sample (status : cp_status) (values : list Z) : cp_answer Z :=
  {| cp_result := status;
     WallTime := 0;
     Value := fun x => nth x values 0 |}.

(** *** All army sizes up to 100000: the cell that prints every solution *)
Module PrintArmies.

Definition build : st model handle :=
  (army <- NewIntVar 1 100000 "army" ;;
   AddModuloEquality 0 army 13 ;;;
   AddModuloEquality 0 army 19 ;;;
   AddModuloEquality 0 army 37 ;;;
   ret army)%st.

(** [class PrintSolutions]: the callback object keeps the variable it was
    created with. *)
Record PrintSolutions : Type := { callback_variable : handle }.

Definition init (x : handle) : PrintSolutions := {| callback_variable := x |}.

(** [print(self.Value(self.__variable))], at the solution the engine found. *)
Definition on_solution_callback {num} (self : PrintSolutions) (solution : assignment)
  : st (stdout num) unit :=
  print [Int (value_of solution (callback_variable self))].

(** [solver.Solve(model, solution_printer)] with enumeration switched on:
    one call of [on_solution_callback] per solution. *)
Definition Solve_all {num} (m : model) (callback : PrintSolutions)
  : option (st (stdout num) unit) :=
  option_map (fun sols => for_each sols (on_solution_callback callback))
             (all_solutions m).

Definition run {num} : option (st (stdout num) unit) :=
  match build empty_model with
  | (m, Py.Ok army) => Solve_all m (init army)
  | (_, Py.Raise _) => None
  end.

End PrintArmies.

(** Each of the first [n] units has a row of at least [k] entries. *)
Definition rows_have (n : nat) (DATA : list (list Z)) (k : nat) : Prop :=
  forall u, (u < n)%nat ->
    exists row, nth_error DATA u = Some row /\ (k <= length row)%nat.

Definition rows_haveb (n : nat) (DATA : list (list Z)) (k : nat) : bool :=
  forallb (fun u =>
             match nth_error DATA u with
             | Some row => (k <=? length row)%nat
             | None => false
             end)
          (seq 0 n).

(** *** Inputs the solver keeps as they are given

    [pywraplp] hands every coefficient and every bound to the solver as a C
    double, and gives a variable created with the empty name a name of its
    own.  An integer of magnitude at most [2 ^ 53] is a double and is kept
    unchanged; a larger one is rounded or, beyond the range of a double,
    refused with [OverflowError].  With no unit at all the sums of
    [solve_army] are the number 0 and no linear expression reaches the
    solver.  [IntVar], [Add], [SolverMaximize], [SolverMinimize] and [name]
    above record what the solver holds for inputs it keeps as given:
    at least one unit, names that are non-empty and pairwise distinct,
    numbers of magnitude at most [bound].  The first [solve_army] hands
    table entries over unchanged, so that [bound] can be [2 ^ 53]; the
    later definitions hand over [10 * attack + health] and
    [food + wood + gold], which stay within [2 ^ 53] for entries of
    magnitude at most [2 ^ 49].  What a call builds, prints or raises is
    stated for such inputs. *)
Definition within (bound z : Z) : Prop := - bound <= z <= bound.

Definition stored_as_given (bound : Z) (UNITS : list string) (DATA : list (list Z))
  (RESOURCES : list Z) : Prop :=
  UNITS <> [] /\
  NoDup UNITS /\
  Forall (fun unit => unit <> EmptyString) UNITS /\
  Forall (Forall (within bound)) DATA /\
  Forall (within bound) RESOURCES.

(** Every handle of [units] is a variable of the solver [m], created with
    a non-empty name: the variables whose [name()] is the name given. *)
Definition named (m : model) (units : list handle) : Prop :=
  Forall (fun x => exists v, nth_error (variables m) x = Some v /\
                             var_name v <> EmptyString) units.

Fixpoint distinctb (l : list string) : bool :=
  match l with
  | [] => true
  | x :: l' => negb (existsb (String.eqb x) l') && distinctb l'
  end.

Definition withinb (bound z : Z) : bool := (- bound <=? z) && (z <=? bound).

Definition stored_as_givenb (bound : Z) (UNITS : list string) (DATA : list (list Z))
  (RESOURCES : list Z) : bool :=
  negb (length UNITS =? 0)%nat &&
  distinctb UNITS &&
  forallb (fun unit => negb (String.eqb unit EmptyString)) UNITS &&
  forallb (forallb (withinb bound)) DATA &&
  forallb (withinb bound) RESOURCES.

(** CP-SAT holds the bounds of a variable and the numbers of a constraint
    as 64-bit integers and refuses a model in which a sum could leave that
    range.  [NewIntVar], [Add] and the enumeration of [Solve_all] record
    what the engine holds and visits for capacities well inside it; what
    the ration cells do at any capacity is stated for 32-bit ones. *)
Definition int32 (z : Z) : Prop := - 2 ^ 31 <= z < 2 ^ 31.

(** *** What an engine is expected to answer

    The engines are not part of the notebooks.  These predicates say when
    an answer is a correct one for a model: the values it reports are an
    assignment of the model, feasible, and of largest objective value when
    the status is [OPTIMAL]. *)

(** The values a CP-SAT answer gives the variables of a model. *)
Definition cp_values {num} (m : model) (a : cp_answer num) : assignment :=
  map (Value a) (seq 0 (length (variables m))).

Definition cp_answers_solution {num} (m : model) (a : cp_answer num) : Prop :=
  (cp_result a = CP_OPTIMAL \/ cp_result a = CP_FEASIBLE) /\ feasible m (cp_values m a).

Definition cp_answers_optimum {num} (m : model) (a : cp_answer num) : Prop :=
  cp_result a = CP_OPTIMAL /\
  feasible m (cp_values m a) /\
  is_max m (objective_value m (cp_values m a)).

(** A MIP answer reports its numbers as floats: [of_int] is the float of an
    integer. *)
Definition mp_answers_optimum {num} (of_int : Z -> num) (m : model) (a : mp_answer num)
  : Prop :=
  mp_result a = MP_OPTIMAL /\
  exists x,
    feasible m x /\
    is_max m (objective_value m x) /\
    (forall i, solution_value a i = of_int (value_of x i)) /\
    mp_objective a = of_int (objective_value m x).

(** ** Facts about the semantics *)

Lemma below_iff x u : belowb x u = true <-> below x u.
Proof. destruct u; simpl; [apply Z.leb_le | tauto]. Qed.

Lemma in_domain_iff v x : in_domainb v x = true <-> in_domain v x.
Proof.
  unfold in_domainb, in_domain.
  rewrite andb_true_iff, Z.leb_le, below_iff. tauto.
Qed.

Lemma sat_iff a c : satb a c = true <-> sat a c.
Proof.
  destruct c; simpl.
  - apply Z.leb_le.
  - apply Z.geb_ge.
  - apply Z.eqb_eq.
Qed.

Lemma forall2b_iff {A B} (p : A -> B -> bool) (P : A -> B -> Prop) :
  (forall x y, p x y = true <-> P x y) ->
  forall l l', forall2b p l l' = true <-> Forall2 P l l'.
Proof.
  intros Hp l; induction l as [|x l IH]; intros [|y l']; simpl.
  - split; [constructor | reflexivity].
  - split; [discriminate | inversion 1].
  - split; [discriminate | inversion 1].
  - rewrite andb_true_iff, Hp, IH. split.
    + intros [? ?]; constructor; assumption.
    + inversion 1; subst; auto.
Qed.

Lemma feasible_iff m a : feasibleb m a = true <-> feasible m a.
Proof.
  unfold feasibleb, feasible.
  rewrite andb_true_iff, (forall2b_iff _ _ in_domain_iff), forallb_forall, Forall_forall.
  split; intros [Hd Hc]; split; auto; intros c Hin.
  - apply sat_iff, Hc, Hin.
  - apply sat_iff, Hc, Hin.
Qed.

(** Two largest values of one model coincide, and so do two smallest. *)
Lemma is_max_unique m v v' : is_max m v -> is_max m v' -> v = v'.
Proof.
  intros [[a [Ha Hv]] Hub] [[a' [Ha' Hv']] Hub'].
  specialize (Hub a' Ha'). specialize (Hub' a Ha). lia.
Qed.

Lemma is_min_unique m v v' : is_min m v -> is_min m v' -> v = v'.
Proof.
  intros [[a [Ha Hv]] Hlb] [[a' [Ha' Hv']] Hlb'].
  specialize (Hlb a' Ha'). specialize (Hlb' a Ha). lia.
Qed.

(** *** Enumeration of a bounded model *)

Lemma In_interval lo hi x : In x (interval lo hi) <-> lo <= x <= hi.
Proof.
  unfold interval. rewrite in_map_iff. split.
  - intros [i [<- Hi]]. apply in_seq in Hi. lia.
  - intros H. exists (Z.to_nat (x - lo)). split; [lia | apply in_seq; lia].
Qed.

Lemma interval_NoDup lo hi : NoDup (interval lo hi).
Proof.
  unfold interval. apply NoDup_map_NoDup_ForallPairs.
  - intros i j _ _ H. lia.
  - apply seq_NoDup.
Qed.

Lemma In_product (xs : list Z) (rest : list assignment) a :
  In a (flat_map (fun x => map (cons x) rest) xs) <->
  exists x t, a = x :: t /\ In x xs /\ In t rest.
Proof.
  rewrite in_flat_map. split.
  - intros [x [Hx Ha]]. apply in_map_iff in Ha. destruct Ha as [t [<- Ht]].
    exists x, t. auto.
  - intros [x [t [-> [Hx Ht]]]]. exists x. split; [assumption|].
    apply in_map_iff. exists t. auto.
Qed.

Lemma product_NoDup (xs : list Z) (rest : list assignment) :
  NoDup xs -> NoDup rest -> NoDup (flat_map (fun x => map (cons x) rest) xs).
Proof.
  intros Hxs Hrest. induction Hxs as [|x xs Hnotin Hxs IH]; simpl.
  - constructor.
  - apply NoDup_app.
    + apply NoDup_map_NoDup_ForallPairs; [|assumption].
      intros t t' _ _ H. congruence.
    + exact IH.
    + intros a Ha Ha'. apply in_map_iff in Ha. destruct Ha as [t [<- _]].
      apply In_product in Ha'. destruct Ha' as [x' [t' [E [Hx' _]]]].
      injection E as -> _. contradiction.
Qed.

Lemma box_spec vs :
  forall l, box vs = Some l ->
    NoDup l /\ forall a, In a l <-> Forall2 in_domain vs a.
Proof.
  induction vs as [|v vs IH]; simpl; intros l H.
  - injection H as <-. split.
    + repeat constructor. intros [].
    + intros a. simpl. split.
      * intros [<- | []]. constructor.
      * inversion 1. auto.
  - destruct (var_ub v) as [hi|] eqn:Hub; [|discriminate].
    destruct (box vs) as [rest|]; [|discriminate].
    injection H as <-. destruct (IH rest eq_refl) as [Hnd Hin]. split.
    + apply product_NoDup; [apply interval_NoDup | assumption].
    + intros a. rewrite In_product. split.
      * intros [x [t [-> [Hx Ht]]]]. constructor.
        -- apply In_interval in Hx. unfold in_domain. rewrite Hub. simpl. lia.
        -- apply Hin, Ht.
      * inversion 1 as [|v' x vs' t Hd Ht]; subst. exists x, t.
        split; [reflexivity|]. split.
        -- destruct Hd as [Hlo Hhi]. rewrite Hub in Hhi. simpl in Hhi.
           apply In_interval. lia.
        -- apply Hin, Ht.
Qed.

(** The enumeration visits exactly the feasible assignments, each once. *)
Lemma all_solutions_spec m sols :
  all_solutions m = Some sols ->
  NoDup sols /\ forall a, In a sols <-> feasible m a.
Proof.
  unfold all_solutions. destruct (box (variables m)) as [l|] eqn:Hbox; [|discriminate].
  simpl. intros H. injection H as <-.
  destruct (box_spec _ _ Hbox) as [Hnd Hin]. split.
  - apply NoDup_filter, Hnd.
  - intros a. rewrite filter_In, feasible_iff, Hin. unfold feasible. tauto.
Qed.

Lemma count_callbacks (sols : list assignment) (c : CountRations.CountSolutions) :
  CountRations.solution_count
    (fold_left (fun self _ => CountRations.on_solution_callback self) sols c)
  = CountRations.solution_count c + Z.of_nat (length sols).
Proof.
  revert c. induction sols as [|a sols IH]; intros c; simpl.
  - lia.
  - rewrite IH. simpl. lia.
Qed.

(** ** The CP-SAT models *)

Ltac invert_Forall2 :=
  repeat match goal with
         | H : Forall2 _ (_ :: _) _ |- _ => inversion H; subst; clear H
         | H : Forall2 _ [] _ |- _ => inversion H; subst; clear H
         | H : Forall _ (_ :: _) |- _ => inversion H; subst; clear H
         | H : Forall _ [] |- _ => clear H
         end.

Lemma army_size_feasible a :
  feasible (fst (ArmySize.build empty_model)) a <->
  exists army, a = [army] /\ 1 <= army <= 10000 /\
               army mod 13 = 0 /\ army mod 19 = 0 /\ army mod 37 = 0.
Proof.
  unfold feasible; simpl. split.
  - intros [Hd Hc]. invert_Forall2.
    match goal with H : in_domain _ ?y |- _ => exists y; destruct H as [? ?] end.
    simpl in *. unfold value_of in *; simpl in *. repeat split; auto.
  - intros [army [-> [Hb [H13 [H19 H37]]]]]. split.
    + repeat constructor; simpl; lia.
    + repeat constructor; simpl; assumption.
Qed.

Lemma rations_feasible c a :
  feasible (Rations.rations c) a <->
  exists bread meat beer, a = [bread; meat; beer] /\
    0 <= bread <= c /\ 0 <= meat <= c /\ 0 <= beer <= c /\
    1 * bread + 3 * meat + 7 * beer <= c.
Proof.
  unfold feasible; simpl. split.
  - intros [Hd Hc]. invert_Forall2.
    repeat match goal with H : in_domain _ _ |- _ => destruct H as [? ?] end.
    simpl in *. unfold value_of in *; simpl in *.
    eexists _, _, _. split; [reflexivity|]. lia.
  - intros [bread [meat [beer [-> H]]]]. split.
    + repeat constructor; simpl; lia.
    + repeat constructor; simpl. unfold value_of; simpl. lia.
Qed.

Lemma rations_objective c bread meat beer :
  objective_value (Rations.rations c) [bread; meat; beer]
  = 3 * bread + 10 * meat + 26 * beer.
Proof. unfold objective_value; simpl. unfold value_of; simpl. lia. Qed.

Lemma rations_max_19 : is_max (Rations.rations 19) 68.
Proof.
  split.
  - exists [2; 1; 2]. split; [|reflexivity].
    apply rations_feasible. exists 2, 1, 2. split; [reflexivity | lia].
  - intros a Ha. apply rations_feasible in Ha.
    destruct Ha as [bread [meat [beer [-> H]]]].
    rewrite rations_objective. lia.
Qed.

Lemma rations_max_20 : is_max (Rations.rations 20) 72.
Proof.
  split.
  - exists [0; 2; 2]. split; [|reflexivity].
    apply rations_feasible. exists 0, 2, 2. split; [reflexivity | lia].
  - intros a Ha. apply rations_feasible in Ha.
    destruct Ha as [bread [meat [beer [-> H]]]].
    rewrite rations_objective. lia.
Qed.

(** C3. The model of the enemy army (one integer variable in [1, 10000],
    [army % 13 = 0], [army % 19 = 0], [army % 37 = 0]) has exactly one
    feasible value, 9139. *)
Theorem army_size_unique :
  feasible (fst (ArmySize.build empty_model)) [9139] /\
  forall a, feasible (fst (ArmySize.build empty_model)) a -> a = [9139].
Proof.
  split.
  - apply army_size_feasible. exists 9139. repeat split; lia.
  - intros a Ha. apply army_size_feasible in Ha.
    destruct Ha as [army [-> [Hb [H13 [H19 H37]]]]]. f_equal.
    pose proof (Z.div_mod army 13 ltac:(lia)).
    pose proof (Z.div_mod army 19 ltac:(lia)).
    pose proof (Z.div_mod army 37 ltac:(lia)).
    lia.
Qed.

(** C4. In the ration model (bread, meat and beer non-negative integers,
    [1*bread + 3*meat + 7*beer <= 19], objective
    [3*bread + 10*meat + 26*beer] to maximise) the largest objective value
    over all feasible assignments is exactly 68. *)
Theorem rations_optimum_68 :
  objective (Rations.rations Rations.capacity)
    = Some (Maximize, [(3, 0%nat); (10, 1%nat); (26, 2%nat)]) /\
  (exists a, feasible (Rations.rations Rations.capacity) a /\
             objective_value (Rations.rations Rations.capacity) a = 68) /\
  (forall bread meat beer,
      0 <= bread -> 0 <= meat -> 0 <= beer ->
      1 * bread + 3 * meat + 7 * beer <= 19 ->
      feasible (Rations.rations Rations.capacity) [bread; meat; beer] /\
      3 * bread + 10 * meat + 26 * beer <= 68) /\
  is_max (Rations.rations Rations.capacity) 68.
Proof.
  split; [reflexivity|]. split; [apply rations_max_19|]. split.
  - intros bread meat beer Hb Hm Hr Hc. split; [|lia].
    apply rations_feasible. exists bread, meat, beer.
    unfold Rations.capacity. split; [reflexivity | lia].
  - apply rations_max_19.
Qed.

Lemma count_rations_feasible a :
  feasible (fst (CountRations.build 19 empty_model)) a <->
  exists bread meat beer, a = [bread; meat; beer] /\
    0 <= bread <= 19 /\ 0 <= meat <= 19 /\ 0 <= beer <= 19 /\
    1 * bread + 3 * meat + 7 * beer <= 19.
Proof.
  unfold feasible; simpl. split.
  - intros [Hd Hc]. invert_Forall2.
    repeat match goal with H : in_domain _ _ |- _ => destruct H as [? ?] end.
    simpl in *. unfold value_of in *; simpl in *.
    eexists _, _, _. split; [reflexivity|]. lia.
  - intros [bread [meat [beer [-> H]]]]. split.
    + repeat constructor; simpl; lia.
    + repeat constructor; simpl. unfold value_of; simpl. lia.
Qed.

(** C5. The triples [(bread, meat, beer)] of integers between 0 and 19 with
    [1*bread + 3*meat + 7*beer <= 19] are exactly 121: the enumeration lists
    each of them once, has 121 entries, and the counting cell prints 121. *)
Theorem rations_count_121 :
  exists sols,
    all_solutions (fst (CountRations.build CountRations.capacity empty_model)) = Some sols /\
    NoDup sols /\
    (forall a, In a sols <->
       exists bread meat beer, a = [bread; meat; beer] /\
         0 <= bread <= 19 /\ 0 <= meat <= 19 /\ 0 <= beer <= 19 /\
         1 * bread + 3 * meat + 7 * beer <= 19) /\
    length sols = 121%nat /\
    CountRations.run = Some 121.
Proof.
  destruct (all_solutions (fst (CountRations.build CountRations.capacity empty_model)))
    as [sols|] eqn:Hsols; [|vm_compute in Hsols; discriminate].
  exists sols. split; [reflexivity|].
  destruct (all_solutions_spec _ _ Hsols) as [Hnd Hin].
  assert (Hlen : length sols = 121%nat).
  { assert (H : option_map (@length _) (Some sols) = Some 121%nat)
      by (rewrite <- Hsols; vm_compute; reflexivity).
    simpl in H. congruence. }
  split; [exact Hnd|]. split; [|split; [exact Hlen | vm_compute; reflexivity]].
  intros a. rewrite Hin. apply count_rations_feasible.
Qed.

(** ** Python lists *)

Lemma exn_unique (e : Py.exn) : e = Py.IndexError.
Proof. destruct e; reflexivity. Qed.

Lemma getitem_nat {A} (l : list A) (i : nat) :
  Py.getitem l (Z.of_nat i) =
  match nth_error l i with
  | Some x => Py.Ok x
  | None => Py.Raise Py.IndexError
  end.
Proof.
  unfold Py.getitem.
  destruct (Z.ltb_spec (Z.of_nat i) 0) as [H|_]; [lia|].
  destruct (Z.leb_spec 0 (Z.of_nat i)) as [_|H]; [|lia].
  rewrite Nat2Z.id. simpl.
  destruct (Z.ltb_spec (Z.of_nat i) (Z.of_nat (length l))) as [H|H].
  - reflexivity.
  - assert (Hn : nth_error l i = None) by (apply nth_error_None; lia).
    rewrite Hn. reflexivity.
Qed.

(** [l[-k]] for [k > 0] is the [k]-th element from the end. *)
Lemma getitem_from_end {A} (l : list A) (k : nat) :
  (0 < k)%nat ->
  Py.getitem l (- Z.of_nat k) =
  if (k <=? length l)%nat then
    match nth_error l (length l - k) with
    | Some x => Py.Ok x
    | None => Py.Raise Py.IndexError
    end
  else Py.Raise Py.IndexError.
Proof.
  intros Hk. unfold Py.getitem.
  destruct (Z.ltb_spec (- Z.of_nat k) 0) as [_|H]; [|lia].
  destruct (Nat.leb_spec k (length l)) as [Hle|Hgt].
  - destruct (Z.leb_spec 0 (- Z.of_nat k + Z.of_nat (length l))) as [_|H]; [|lia].
    destruct (Z.ltb_spec (- Z.of_nat k + Z.of_nat (length l)) (Z.of_nat (length l)))
      as [_|H]; [|lia].
    simpl. replace (Z.to_nat (- Z.of_nat k + Z.of_nat (length l)))
      with (length l - k)%nat by lia.
    reflexivity.
  - destruct (Z.leb_spec 0 (- Z.of_nat k + Z.of_nat (length l))) as [H|_]; [lia|].
    reflexivity.
Qed.

Lemma last_nth {A} (l : list A) (d : A) : last l d = nth (length l - 1) l d.
Proof.
  induction l as [|x l IH]; [reflexivity|].
  destruct l as [|y l]; [reflexivity|].
  change (last (x :: y :: l) d) with (last (y :: l) d). rewrite IH. simpl.
  rewrite Nat.sub_0_r. reflexivity.
Qed.

Lemma getitem_last {A} (l : list A) (d : A) :
  Py.getitem l (-1) =
  match l with
  | [] => Py.Raise Py.IndexError
  | _ :: _ => Py.Ok (last l d)
  end.
Proof.
  change (-1) with (- Z.of_nat 1). rewrite getitem_from_end by lia.
  destruct l as [|x l]; [reflexivity|].
  destruct (Nat.leb_spec 1 (length (x :: l))) as [_|H]; [|simpl in H; lia].
  rewrite (nth_error_nth' (x :: l) d) by (simpl; lia).
  rewrite last_nth. reflexivity.
Qed.

Lemma mapM_ext {A B} (f g : A -> Py.result B) l :
  (forall x, In x l -> f x = g x) -> Py.mapM f l = Py.mapM g l.
Proof.
  induction l as [|x l IH]; intros H; simpl; [reflexivity|].
  rewrite H by (left; reflexivity). rewrite IH; [reflexivity|].
  intros y Hy. apply H. right. exact Hy.
Qed.

Lemma mapM_Ok_map {A B} (f : A -> Py.result B) (h : A -> B) l :
  (forall x, In x l -> f x = Py.Ok (h x)) -> Py.mapM f l = Py.Ok (map h l).
Proof.
  induction l as [|x l IH]; intros H; simpl; [reflexivity|].
  rewrite H by (left; reflexivity). simpl. rewrite IH; [reflexivity|].
  intros y Hy. apply H. right. exact Hy.
Qed.

Lemma mapM_Ok_inv {A B} (f : A -> Py.result B) l ys :
  Py.mapM f l = Py.Ok ys -> Forall2 (fun x y => f x = Py.Ok y) l ys.
Proof.
  revert ys. induction l as [|x l IH]; simpl; intros ys H.
  - injection H as <-. constructor.
  - destruct (f x) as [y|e] eqn:Hx; simpl in H; [|discriminate].
    destruct (Py.mapM f l) as [ys'|e]; simpl in H; [|discriminate].
    injection H as <-. constructor; [exact Hx | apply IH; reflexivity].
Qed.

Lemma mapM_Ok_all {A B} (f : A -> Py.result B) l ys :
  Py.mapM f l = Py.Ok ys -> forall x, In x l -> exists y, f x = Py.Ok y.
Proof.
  intros H. apply mapM_Ok_inv in H. induction H as [|x y l ys Hx _ IH].
  - intros x [].
  - intros x' [<- | Hin]; [exists y; exact Hx | apply IH, Hin].
Qed.

Lemma mapM_Ok_determined {A B} (f : A -> Py.result B) (h : A -> B) l ys :
  (forall x y, In x l -> f x = Py.Ok y -> y = h x) ->
  Py.mapM f l = Py.Ok ys -> ys = map h l.
Proof.
  intros Hh H. apply mapM_Ok_inv in H. induction H as [|x y l ys Hx _ IH]; simpl.
  - reflexivity.
  - f_equal.
    + apply Hh; [left; reflexivity | exact Hx].
    + apply IH. intros x' y' Hin. apply Hh. right. exact Hin.
Qed.

Lemma mapM_fst_combine {A C} (f : Z -> Py.result C) (l : list A) :
  forall start,
    Py.mapM (fun p : Z * A => let '(u, _) := p in f u)
            (combine (map Z.of_nat (seq start (length l))) l)
    = Py.mapM (fun i => f (Z.of_nat i)) (seq start (length l)).
Proof.
  induction l as [|x l IH]; intros start; simpl; [reflexivity|].
  rewrite IH. reflexivity.
Qed.

Lemma mapM_enumerate {A C} (f : Z -> Py.result C) (l : list A) :
  Py.mapM (fun p : Z * A => let '(u, _) := p in f u) (Py.enumerate l)
  = Py.mapM (fun i => f (Z.of_nat i)) (seq 0 (length l)).
Proof. unfold Py.enumerate. apply mapM_fst_combine. Qed.

(** ** Running the builders *)

Lemma bind_run {S A B} (c : st S A) (k : A -> st S B) s :
  bind c k s =
  match c s with
  | (s', Py.Ok a) => k a s'
  | (s', Py.Raise e) => (s', Py.Raise e)
  end.
Proof. reflexivity. Qed.

Lemma bind_lift {S A B} (x : Py.result A) (k : A -> st S B) s :
  bind (lift x) k s =
  match x with
  | Py.Ok a => k a s
  | Py.Raise e => (s, Py.Raise e)
  end.
Proof. reflexivity. Qed.

Lemma collect_IntVar lb ub (UNITS : list string) :
  forall m,
    collect (fun unit => IntVar lb ub unit) UNITS m =
    ({| variables := variables m ++
          map (fun unit => {| var_name := unit; var_lb := lb; var_ub := ub |}) UNITS;
        constraints := constraints m;
        objective := objective m |},
     Py.Ok (seq (length (variables m)) (length UNITS))).
Proof.
  induction UNITS as [|unit UNITS IH]; intros m.
  - simpl. rewrite app_nil_r. destruct m; reflexivity.
  - cbn [collect]. rewrite bind_run. unfold IntVar at 1, new_var at 1.
    rewrite bind_run, IH. cbn [variables constraints objective ret].
    rewrite <- app_assoc, length_app, Nat.add_comm. reflexivity.
Qed.

Lemma for_each_fst_combine {S A} (b : Z -> st S unit) (l : list A) :
  forall start s,
    for_each (combine (map Z.of_nat (seq start (length l))) l)
             (fun p : Z * A => let '(r, _) := p in b r) s
    = for_each (seq start (length l)) (fun i => b (Z.of_nat i)) s.
Proof.
  induction l as [|x l IH]; intros start s; [reflexivity|].
  cbn [length seq map combine for_each]. rewrite !bind_run.
  destruct (b (Z.of_nat start) s) as [s' [[]|e]]; [apply IH | reflexivity].
Qed.

Lemma for_each_enumerate {S A} (b : Z -> st S unit) (l : list A) s :
  for_each (Py.enumerate l) (fun p : Z * A => let '(r, _) := p in b r) s
  = for_each (seq 0 (length l)) (fun i => b (Z.of_nat i)) s.
Proof. apply for_each_fst_combine. Qed.

Lemma add_constraints_nil m : add_constraints m [] = m.
Proof. destruct m; unfold add_constraints; simpl. rewrite app_nil_r. reflexivity. Qed.

Lemma add_constraints_cons m c cs :
  add_constraints (add_constraints m [c]) cs = add_constraints m (c :: cs).
Proof. unfold add_constraints; simpl. rewrite <- app_assoc. reflexivity. Qed.

(** A loop whose turns each evaluate a constraint and add it. *)
Lemma for_each_add {X} (g : X -> Py.result constraint) (body : X -> st model unit) :
  (forall x m, body x m = bind (lift (g x)) Add m) ->
  forall l m,
    match Py.mapM g l with
    | Py.Ok cs => for_each l body m = (add_constraints m cs, Py.Ok tt)
    | Py.Raise e => snd (for_each l body m) = Py.Raise e
    end.
Proof.
  intros Hbody. induction l as [|x l IH]; intros m.
  - simpl. rewrite add_constraints_nil. reflexivity.
  - cbn [Py.mapM for_each]. rewrite bind_run, Hbody, bind_lift.
    destruct (g x) as [c|e]; [|reflexivity].
    change (Add c m) with (add_constraints m [c], @Py.Ok unit tt).
    specialize (IH (add_constraints m [c])). simpl.
    destruct (Py.mapM g l) as [cs|e]; simpl.
    + rewrite IH, add_constraints_cons. reflexivity.
    + exact IH.
Qed.

Lemma sum_terms_seq (coef : Z -> Py.result Z) (n : nat) :
  sum_terms coef (seq 0 n) =
  Py.mapM (fun u => (c <- coef (Z.of_nat u) ;; Py.Ok (c, u))%py) (seq 0 n).
Proof.
  unfold sum_terms.
  rewrite (mapM_enumerate
             (fun u => (c <- coef u ;; x <- Py.getitem (seq 0 n) u ;; Py.Ok (c, x))%py)).
  rewrite length_seq. apply mapM_ext. intros u Hu. apply in_seq in Hu.
  destruct (coef (Z.of_nat u)) as [c|e]; [|reflexivity]. simpl.
  rewrite getitem_nat, nth_error_seq.
  destruct (Nat.ltb_spec u n) as [_|H]; [reflexivity | lia].
Qed.

Lemma sum_terms_Ok (coef : Z -> Py.result Z) (h : nat -> Z) (n : nat) :
  (forall u, (u < n)%nat -> coef (Z.of_nat u) = Py.Ok (h u)) ->
  sum_terms coef (seq 0 n) = Py.Ok (terms h n).
Proof.
  intros H. rewrite sum_terms_seq. unfold terms. apply mapM_Ok_map.
  intros u Hu. apply in_seq in Hu. rewrite H by lia. reflexivity.
Qed.

Lemma sum_terms_Ok_all (coef : Z -> Py.result Z) (n : nat) e :
  sum_terms coef (seq 0 n) = Py.Ok e ->
  forall u, (u < n)%nat -> exists c, coef (Z.of_nat u) = Py.Ok c.
Proof.
  rewrite sum_terms_seq. intros H u Hu.
  destruct (mapM_Ok_all _ _ _ H u) as [y Hy]; [apply in_seq; lia|].
  destruct (coef (Z.of_nat u)) as [c|]; [exists c; reflexivity | discriminate].
Qed.

Lemma sum_terms_determined (coef : Z -> Py.result Z) (h : nat -> Z) (n : nat) e :
  (forall u c, (u < n)%nat -> coef (Z.of_nat u) = Py.Ok c -> c = h u) ->
  sum_terms coef (seq 0 n) = Py.Ok e -> e = terms h n.
Proof.
  intros Hh. rewrite sum_terms_seq. unfold terms. apply mapM_Ok_determined.
  intros u y Hu Hy. apply in_seq in Hu.
  destruct (coef (Z.of_nat u)) as [c|] eqn:Hc; [|discriminate].
  simpl in Hy. injection Hy as <-. f_equal. apply (Hh u c); [lia | exact Hc].
Qed.

(** [DATA[u][r]] with both indices counted from the front. *)
Lemma cell_front DATA (u r : nat) :
  cell DATA (Z.of_nat u) (Z.of_nat r) =
  match nth_error DATA u with
  | Some row =>
      match nth_error row r with
      | Some c => Py.Ok c
      | None => Py.Raise Py.IndexError
      end
  | None => Py.Raise Py.IndexError
  end.
Proof.
  unfold cell. rewrite getitem_nat.
  destruct (nth_error DATA u) as [row|]; [|reflexivity].
  simpl. apply getitem_nat.
Qed.

Lemma cell_front_Ok DATA (u r : nat) c :
  cell DATA (Z.of_nat u) (Z.of_nat r) = Py.Ok c ->
  c = entry DATA u r /\
  exists row, nth_error DATA u = Some row /\ (r < length row)%nat.
Proof.
  rewrite cell_front. unfold entry.
  destruct (nth_error DATA u) as [row|] eqn:Hrow; [|discriminate].
  destruct (nth_error row r) as [c'|] eqn:Hc; [|discriminate].
  intros H. injection H as <-. split.
  - rewrite (nth_error_nth _ _ [] Hrow). symmetry. apply nth_error_nth, Hc.
  - exists row. split; [reflexivity|]. apply nth_error_Some. congruence.
Qed.

(** [DATA[u][-1]] *)
Lemma cell_last DATA (u : nat) :
  cell DATA (Z.of_nat u) (-1) =
  match nth_error DATA u with
  | Some (_ :: _) => Py.Ok (trailing DATA u)
  | _ => Py.Raise Py.IndexError
  end.
Proof.
  unfold cell, trailing. rewrite getitem_nat.
  destruct (nth_error DATA u) as [row|] eqn:Hrow; [|reflexivity].
  simpl. rewrite (getitem_last row 0), (nth_error_nth _ _ [] Hrow).
  destruct row; reflexivity.
Qed.

Lemma max_power_body DATA RESOURCES n (r : nat) (m : model) :
  (lhs <- lift (sum_terms (fun u => cell DATA u (Z.of_nat r)) (seq 0 n)) ;;
   cap <- lift (Py.getitem RESOURCES (Z.of_nat r)) ;;
   Add (LinLe lhs cap))%st m
  = bind (lift (eval_resource_constraint DATA RESOURCES n r)) Add m.
Proof.
  unfold eval_resource_constraint. rewrite !bind_lift.
  destruct (sum_terms _ _) as [lhs|e]; [|reflexivity]. simpl.
  rewrite bind_lift. destruct (Py.getitem RESOURCES (Z.of_nat r)); reflexivity.
Qed.

(** The first [solve_army], steps 1 to 3, run on a fresh solver. *)
Lemma max_power_build_run UNITS DATA RESOURCES :
  match Py.mapM (eval_resource_constraint DATA RESOURCES (length UNITS))
                (seq 0 (length RESOURCES)),
        sum_terms (fun u => cell DATA u (-1)) (seq 0 (length UNITS)) with
  | Py.Ok cs, Py.Ok obj =>
      MaxPower.build UNITS DATA RESOURCES empty_model =
      ({| variables := map unit_var UNITS;
          constraints := cs;
          objective := Some (Maximize, obj) |},
       Py.Ok (seq 0 (length UNITS)))
  | _, _ => snd (MaxPower.build UNITS DATA RESOURCES empty_model) = Py.Raise Py.IndexError
  end.
Proof.
  unfold MaxPower.build. rewrite bind_run, collect_IntVar.
  cbn [variables constraints objective empty_model app length].
  rewrite bind_run.
  rewrite (for_each_enumerate
             (fun r => (lhs <- lift (sum_terms (fun u => cell DATA u r) (seq 0 (length UNITS))) ;;
                        cap <- lift (Py.getitem RESOURCES r) ;;
                        Add (LinLe lhs cap))%st)).
  match goal with
  | |- context [for_each ?l ?b ?m] =>
      pose proof (for_each_add (eval_resource_constraint DATA RESOURCES (length UNITS)) b
                    (fun x m' => max_power_body DATA RESOURCES (length UNITS) x m') l m) as Hloop
  end.
  destruct (Py.mapM _ (seq 0 (length RESOURCES))) as [cs|e].
  - rewrite Hloop. rewrite bind_lift.
    destruct (sum_terms _ _) as [obj|e]; [reflexivity|].
    simpl. f_equal. apply exn_unique.
  - match goal with
    | |- context [for_each ?l ?b ?m] => destruct (for_each l b m) as [s' res]
    end.
    simpl in Hloop. subst res. simpl. f_equal. apply exn_unique.
Qed.

(** ** When the first [solve_army] can index its tables *)

Lemma indexable_iff n DATA k : indexableb n DATA k = true <-> indexable n DATA k.
Proof.
  unfold indexableb, indexable. rewrite forallb_forall. split.
  - intros H u Hu. specialize (H u). rewrite in_seq in H. specialize (H ltac:(lia)).
    destruct (nth_error DATA u) as [[|x row]|]; try discriminate.
    exists (x :: row). split; [reflexivity|]. split; [discriminate|].
    apply Nat.leb_le, H.
  - intros H u Hu. apply in_seq in Hu. destruct (H u ltac:(lia)) as [row [-> [Hne Hlen]]].
    destruct row as [|x row]; [contradiction|]. apply Nat.leb_le, Hlen.
Qed.

Lemma indexable_resource_constraint DATA RESOURCES n r :
  indexable n DATA (length RESOURCES) -> (r < length RESOURCES)%nat ->
  eval_resource_constraint DATA RESOURCES n r
  = Py.Ok (resource_constraint DATA RESOURCES n r).
Proof.
  intros Hix Hr. unfold eval_resource_constraint, resource_constraint.
  rewrite (sum_terms_Ok _ (fun u => entry DATA u r)).
  - simpl. rewrite getitem_nat, (nth_error_nth' RESOURCES 0 Hr). reflexivity.
  - intros u Hu. destruct (Hix u Hu) as [row [Hrow [_ Hlen]]].
    rewrite cell_front, Hrow. unfold entry.
    rewrite (nth_error_nth _ _ [] Hrow), (nth_error_nth' row 0) by lia. reflexivity.
Qed.

Lemma indexable_objective DATA n k :
  indexable n DATA k ->
  sum_terms (fun u => cell DATA u (-1)) (seq 0 n) = Py.Ok (terms (trailing DATA) n).
Proof.
  intros Hix. apply sum_terms_Ok. intros u Hu.
  destruct (Hix u Hu) as [row [Hrow [Hne _]]].
  rewrite cell_last, Hrow. destruct row; [contradiction | reflexivity].
Qed.

Lemma evaluated_indexable DATA RESOURCES n cs obj :
  Py.mapM (eval_resource_constraint DATA RESOURCES n) (seq 0 (length RESOURCES)) = Py.Ok cs ->
  sum_terms (fun u => cell DATA u (-1)) (seq 0 n) = Py.Ok obj ->
  indexable n DATA (length RESOURCES).
Proof.
  intros Hcs Hobj u Hu.
  destruct (sum_terms_Ok_all _ _ _ Hobj u Hu) as [c Hc].
  rewrite cell_last in Hc.
  destruct (nth_error DATA u) as [[|x row]|] eqn:Hrow; try discriminate.
  exists (x :: row). split; [reflexivity|]. split; [discriminate|].
  destruct (length RESOURCES) as [|k] eqn:Hk; [lia|].
  destruct (mapM_Ok_all _ _ _ Hcs k) as [y Hy]; [apply in_seq; lia|].
  unfold eval_resource_constraint in Hy.
  destruct (sum_terms (fun u0 => cell DATA u0 (Z.of_nat k)) (seq 0 n))
    as [lhs|] eqn:Hlhs; [|discriminate].
  destruct (sum_terms_Ok_all _ _ _ Hlhs u Hu) as [c' Hc'].
  apply cell_front_Ok in Hc'. destruct Hc' as [_ [row' [Hrow' Hlt]]].
  rewrite Hrow in Hrow'. injection Hrow' as <-. lia.
Qed.

(** On indexable inputs the build completes, with this model. *)
Lemma max_power_build_ok UNITS DATA RESOURCES :
  indexable (length UNITS) DATA (length RESOURCES) ->
  MaxPower.build UNITS DATA RESOURCES empty_model =
  ({| variables := map unit_var UNITS;
      constraints := resource_constraints DATA RESOURCES (length UNITS);
      objective := Some (Maximize, terms (trailing DATA) (length UNITS)) |},
   Py.Ok (seq 0 (length UNITS))).
Proof.
  intros Hix. pose proof (max_power_build_run UNITS DATA RESOURCES) as Hrun.
  rewrite (indexable_objective _ _ _ Hix) in Hrun.
  unfold resource_constraints.
  rewrite (mapM_Ok_map _ (resource_constraint DATA RESOURCES (length UNITS))) in Hrun.
  - exact Hrun.
  - intros r Hr. apply in_seq in Hr. apply indexable_resource_constraint; [exact Hix | lia].
Qed.

(** On any other input it raises [IndexError]. *)
Lemma max_power_build_raises UNITS DATA RESOURCES :
  ~ indexable (length UNITS) DATA (length RESOURCES) ->
  snd (MaxPower.build UNITS DATA RESOURCES empty_model) = Py.Raise Py.IndexError.
Proof.
  intros Hnix. pose proof (max_power_build_run UNITS DATA RESOURCES) as Hrun.
  destruct (Py.mapM _ _) as [cs|e] eqn:Hcs; [|exact Hrun].
  destruct (sum_terms _ _) as [obj|e] eqn:Hobj; [|exact Hrun].
  exfalso. apply Hnix. eapply evaluated_indexable; eassumption.
Qed.

Lemma indexable_dec n DATA k : indexable n DATA k \/ ~ indexable n DATA k.
Proof.
  destruct (indexableb n DATA k) eqn:H.
  - left. apply indexable_iff, H.
  - right. intros Hix. apply indexable_iff in Hix. congruence.
Qed.

Lemma max_power_build_inv UNITS DATA RESOURCES m units :
  MaxPower.build UNITS DATA RESOURCES empty_model = (m, Py.Ok units) ->
  indexable (length UNITS) DATA (length RESOURCES) /\
  m = {| variables := map unit_var UNITS;
         constraints := resource_constraints DATA RESOURCES (length UNITS);
         objective := Some (Maximize, terms (trailing DATA) (length UNITS)) |} /\
  units = seq 0 (length UNITS).
Proof.
  intros H. destruct (indexable_dec (length UNITS) DATA (length RESOURCES)) as [Hix|Hnix].
  - split; [exact Hix|]. rewrite (max_power_build_ok _ _ _ Hix) in H.
    injection H as <- <-. split; reflexivity.
  - apply max_power_build_raises in Hnix. rewrite H in Hnix. discriminate.
Qed.

(** ** What the cells print *)

Lemma for_each_ext {S X} (b b' : X -> st S unit) l :
  (forall x s, In x l -> b x s = b' x s) ->
  forall s, for_each l b s = for_each l b' s.
Proof.
  induction l as [|x l IH]; intros H s; [reflexivity|].
  cbn [for_each]. rewrite !bind_run, H by (left; reflexivity).
  destruct (b' x s) as [s' [[]|e]]; [|reflexivity].
  apply IH. intros y s'' Hy. apply H. right. exact Hy.
Qed.

Lemma for_each_print {X num} (f : X -> line num) l :
  forall out, for_each l (fun x => print (f x)) out = (out ++ map f l, Py.Ok tt).
Proof.
  induction l as [|x l IH]; intros out; simpl.
  - rewrite app_nil_r. reflexivity.
  - rewrite bind_run. unfold print at 1. rewrite IH, <- app_assoc. reflexivity.
Qed.

Lemma map_nth_seq {A} (l : list A) (d : A) :
  map (fun i => nth i l d) (seq 0 (length l)) = l.
Proof.
  apply nth_ext with (d := d) (d' := d).
  - rewrite length_map, length_seq. reflexivity.
  - intros i Hi. rewrite length_map, length_seq in Hi.
    rewrite (nth_indep _ d (nth 0 l d)) by (rewrite length_map, length_seq; exact Hi).
    rewrite (map_nth (fun i => nth i l d)). rewrite seq_nth by exact Hi. reflexivity.
Qed.

Lemma print_units_run {num} m (a : mp_answer num) units out :
  print_units m a units out = (out ++ map (unit_line m a) units, Py.Ok tt).
Proof.
  unfold print_units.
  rewrite (for_each_enumerate
             (fun u => (x <- lift (Py.getitem units u) ;; print (unit_line m a x))%st)).
  rewrite (for_each_ext _ (fun i => print (unit_line m a (nth i units 0%nat)))).
  - rewrite (for_each_print (fun i => unit_line m a (nth i units 0%nat))).
    rewrite <- (map_map (fun i => nth i units 0%nat) (unit_line m a)), map_nth_seq.
    reflexivity.
  - intros i s Hi. apply in_seq in Hi. rewrite bind_lift, getitem_nat.
    rewrite (nth_error_nth' units 0%nat) by lia. reflexivity.
Qed.

Lemma mp_status_eqb_eq s t : mp_status_eqb s t = true <-> s = t.
Proof. destruct s, t; simpl; split; intros H; try reflexivity; discriminate. Qed.

Lemma cp_status_eqb_eq s t : cp_status_eqb s t = true <-> s = t.
Proof. destruct s, t; simpl; split; intros H; try reflexivity; discriminate. Qed.

Lemma max_power_report_run {num} m (a : mp_answer num) units out :
  MaxPower.report m a units out =
  (out ++
     (if mp_status_eqb (mp_result a) MP_OPTIMAL then
        [banner; solved_in a; [];
         [Lit "Optimal value = "%string; Num (mp_objective a); Lit " 💪power"%string];
         [Lit "Army:"%string]] ++ map (unit_line m a) units
      else [no_optimum]),
   Py.Ok tt).
Proof.
  unfold MaxPower.report. destruct (mp_status_eqb (mp_result a) MP_OPTIMAL).
  - unfold bind, print. cbv beta iota. rewrite print_units_run.
    rewrite <- !app_assoc. reflexivity.
  - reflexivity.
Qed.

(** The model the first [solve_army] hands to the engine. *)
Lemma max_power_solve_army_run {num} (Solve : model -> mp_answer num)
  UNITS DATA RESOURCES out :
  indexable (length UNITS) DATA (length RESOURCES) ->
  let solver :=
    {| variables := map unit_var UNITS;
       constraints := resource_constraints DATA RESOURCES (length UNITS);
       objective := Some (Maximize, terms (trailing DATA) (length UNITS)) |} in
  MaxPower.solve_army Solve UNITS DATA RESOURCES out =
  (fst (MaxPower.report solver (Solve solver) (seq 0 (length UNITS)) out), Py.Ok PyNone).
Proof.
  intros Hix solver. unfold MaxPower.solve_army.
  rewrite (max_power_build_ok _ _ _ Hix). fold solver.
  rewrite bind_run, max_power_report_run. reflexivity.
Qed.

Lemma max_power_solve_army_raises {num} (Solve : model -> mp_answer num)
  UNITS DATA RESOURCES out :
  ~ indexable (length UNITS) DATA (length RESOURCES) ->
  MaxPower.solve_army Solve UNITS DATA RESOURCES out = (out, Py.Raise Py.IndexError).
Proof.
  intros Hnix. apply max_power_build_raises in Hnix. unfold MaxPower.solve_army.
  destruct (MaxPower.build UNITS DATA RESOURCES empty_model) as [s r].
  simpl in Hnix. subst r. reflexivity.
Qed.

(** ** The combined [solve_army] and its single-constraint counterpart *)

Lemma power_body DATA n (m : model) :
  (lhs <- lift (sum_terms (power_coef DATA) (seq 0 n)) ;;
   Add (LinGe lhs 1000001))%st m
  = bind (lift (eval_power_constraint DATA n)) Add m.
Proof.
  unfold eval_power_constraint. rewrite !bind_lift.
  destruct (sum_terms _ _); reflexivity.
Qed.

Ltac raise_index :=
  simpl; try (f_equal; apply exn_unique).

Ltac run_loop g Hbody :=
  match goal with
  | |- context [for_each ?l ?b ?m] =>
      let Hloop := fresh "Hloop" in
      pose proof (for_each_add g b Hbody l m) as Hloop;
      let cs := fresh "cs" in
      let e := fresh "e" in
      destruct (Py.mapM g l) as [cs|e];
      [ rewrite Hloop; clear Hloop
      | let s' := fresh "s" in
        let res := fresh "res" in
        destruct (for_each l b m) as [s' res];
        simpl in Hloop; subst res; raise_index ]
  end.

Lemma combined_build_run UNITS DATA RESOURCES :
  match Py.mapM (fun _ : nat => eval_power_constraint DATA (length UNITS))
                (seq 0 (length RESOURCES)),
        Py.mapM (eval_resource_constraint DATA RESOURCES (length UNITS))
                (seq 0 (length RESOURCES)),
        sum_terms (cost_coef DATA) (seq 0 (length UNITS)) with
  | Py.Ok pcs, Py.Ok cs, Py.Ok obj =>
      Combined.build UNITS DATA RESOURCES empty_model =
      ({| variables := map unit_var UNITS;
          constraints := pcs ++ cs;
          objective := Some (Minimize, obj) |},
       Py.Ok (seq 0 (length UNITS)))
  | _, _, _ =>
      snd (Combined.build UNITS DATA RESOURCES empty_model) = Py.Raise Py.IndexError
  end.
Proof.
  unfold Combined.build. rewrite bind_run, collect_IntVar.
  cbn [variables constraints objective empty_model app length].
  rewrite bind_run.
  rewrite (for_each_enumerate
             (fun _ => (lhs <- lift (sum_terms (power_coef DATA) (seq 0 (length UNITS))) ;;
                        Add (LinGe lhs 1000001))%st)).
  run_loop (fun _ : nat => eval_power_constraint DATA (length UNITS))
           (fun (_ : nat) m' => power_body DATA (length UNITS) m').
  rewrite bind_run.
  rewrite (for_each_enumerate
             (fun r => (lhs <- lift (sum_terms (fun u => cell DATA u r) (seq 0 (length UNITS))) ;;
                        cap <- lift (Py.getitem RESOURCES r) ;;
                        Add (LinLe lhs cap))%st)).
  run_loop (eval_resource_constraint DATA RESOURCES (length UNITS))
           (fun x m' => max_power_body DATA RESOURCES (length UNITS) x m').
  rewrite bind_lift.
  destruct (sum_terms _ _) as [obj|e]; [|raise_index].
  unfold add_constraints. simpl. reflexivity.
Qed.

Lemma power_once_build_run UNITS DATA RESOURCES :
  match eval_power_constraint DATA (length UNITS),
        Py.mapM (eval_resource_constraint DATA RESOURCES (length UNITS))
                (seq 0 (length RESOURCES)),
        sum_terms (cost_coef DATA) (seq 0 (length UNITS)) with
  | Py.Ok pc, Py.Ok cs, Py.Ok obj =>
      Combined.build_power_once UNITS DATA RESOURCES empty_model =
      ({| variables := map unit_var UNITS;
          constraints := pc :: cs;
          objective := Some (Minimize, obj) |},
       Py.Ok (seq 0 (length UNITS)))
  | _, _, _ =>
      snd (Combined.build_power_once UNITS DATA RESOURCES empty_model)
      = Py.Raise Py.IndexError
  end.
Proof.
  unfold Combined.build_power_once. rewrite bind_run, collect_IntVar.
  cbn [variables constraints objective empty_model app length].
  rewrite bind_lift. unfold eval_power_constraint.
  destruct (sum_terms (power_coef DATA) _) as [lhs|e]; [|raise_index].
  cbn [Py.bind]. rewrite bind_run. cbn [Add variables constraints objective app].
  rewrite bind_run.
  rewrite (for_each_enumerate
             (fun r => (lhs <- lift (sum_terms (fun u => cell DATA u r) (seq 0 (length UNITS))) ;;
                        cap <- lift (Py.getitem RESOURCES r) ;;
                        Add (LinLe lhs cap))%st)).
  run_loop (eval_resource_constraint DATA RESOURCES (length UNITS))
           (fun x m' => max_power_body DATA RESOURCES (length UNITS) x m').
  rewrite bind_lift.
  destruct (sum_terms _ _) as [obj|e]; [|raise_index].
  reflexivity.
Qed.

(** *** The coefficients, once the indices are known to be in range *)

Lemma eval_resource_constraint_determined DATA RESOURCES n r c :
  eval_resource_constraint DATA RESOURCES n r = Py.Ok c ->
  c = resource_constraint DATA RESOURCES n r.
Proof.
  unfold eval_resource_constraint, resource_constraint.
  destruct (sum_terms _ _) as [lhs|] eqn:Hlhs; [|discriminate]. simpl.
  rewrite getitem_nat.
  destruct (nth_error RESOURCES r) as [cap|] eqn:Hcap; [|discriminate].
  intros H. injection H as <-. f_equal.
  - revert Hlhs. apply sum_terms_determined. intros u c _ Hc.
    apply cell_front_Ok in Hc. apply Hc.
  - symmetry. apply nth_error_nth, Hcap.
Qed.

Lemma power_coef_determined DATA u c :
  power_coef DATA (Z.of_nat u) = Py.Ok c -> c = power DATA u.
Proof.
  unfold power_coef, power, cell. rewrite getitem_nat.
  destruct (nth_error DATA u) as [row|] eqn:Hrow; [|discriminate].
  rewrite (nth_error_nth _ _ [] Hrow). simpl.
  change (-2) with (- Z.of_nat 2). rewrite getitem_from_end by lia.
  destruct (2 <=? length row)%nat; [|discriminate].
  destruct (nth_error row (length row - 2)) as [attack|] eqn:Ha; [|discriminate].
  simpl. rewrite (getitem_last row 0).
  destruct row as [|x row]; [discriminate|].
  simpl Py.bind. intros H. injection H as <-.
  rewrite (nth_error_nth _ _ 0 Ha). reflexivity.
Qed.

Lemma cost_coef_determined DATA u c :
  cost_coef DATA (Z.of_nat u) = Py.Ok c -> c = cost DATA u.
Proof.
  unfold cost_coef, cost.
  change 0 with (Z.of_nat 0) at 1. change 1 with (Z.of_nat 1). change 2 with (Z.of_nat 2).
  destruct (cell DATA (Z.of_nat u) (Z.of_nat 0)) as [food|] eqn:Hf; [|discriminate].
  destruct (cell DATA (Z.of_nat u) (Z.of_nat 1)) as [wood|] eqn:Hw; [|discriminate].
  destruct (cell DATA (Z.of_nat u) (Z.of_nat 2)) as [gold|] eqn:Hg; [|discriminate].
  simpl. intros H. injection H as <-.
  apply cell_front_Ok in Hf, Hw, Hg.
  destruct Hf as [-> _], Hw as [-> _], Hg as [-> _]. reflexivity.
Qed.

Lemma eval_power_constraint_determined DATA n c :
  eval_power_constraint DATA n = Py.Ok c -> c = power_constraint DATA n.
Proof.
  unfold eval_power_constraint, power_constraint.
  destruct (sum_terms _ _) as [lhs|] eqn:Hlhs; [|discriminate]. simpl.
  intros H. injection H as <-. f_equal.
  revert Hlhs. apply sum_terms_determined. intros u c _ Hc.
  apply power_coef_determined, Hc.
Qed.

Lemma combined_build_inv UNITS DATA RESOURCES m units :
  Combined.build UNITS DATA RESOURCES empty_model = (m, Py.Ok units) ->
  m = {| variables := map unit_var UNITS;
         constraints :=
           map (fun _ => power_constraint DATA (length UNITS)) (seq 0 (length RESOURCES))
           ++ resource_constraints DATA RESOURCES (length UNITS);
         objective := Some (Minimize, terms (cost DATA) (length UNITS)) |} /\
  units = seq 0 (length UNITS).
Proof.
  intros H. pose proof (combined_build_run UNITS DATA RESOURCES) as Hrun.
  destruct (Py.mapM (fun _ : nat => _) _) as [pcs|] eqn:Hpcs;
    [|rewrite H in Hrun; discriminate].
  destruct (Py.mapM (eval_resource_constraint _ _ _) _) as [cs|] eqn:Hcs;
    [|rewrite H in Hrun; discriminate].
  destruct (sum_terms _ _) as [obj|] eqn:Hobj; [|rewrite H in Hrun; discriminate].
  rewrite H in Hrun. injection Hrun as -> ->. split; [|reflexivity].
  f_equal.
  - f_equal.
    + revert Hpcs. apply mapM_Ok_determined. intros r c _.
      apply eval_power_constraint_determined.
    + revert Hcs. apply mapM_Ok_determined. intros r c _.
      apply eval_resource_constraint_determined.
  - f_equal. f_equal. revert Hobj. apply sum_terms_determined. intros u c _.
    apply cost_coef_determined.
Qed.

Lemma power_once_build_inv UNITS DATA RESOURCES m units :
  Combined.build_power_once UNITS DATA RESOURCES empty_model = (m, Py.Ok units) ->
  m = {| variables := map unit_var UNITS;
         constraints :=
           power_constraint DATA (length UNITS)
           :: resource_constraints DATA RESOURCES (length UNITS);
         objective := Some (Minimize, terms (cost DATA) (length UNITS)) |} /\
  units = seq 0 (length UNITS).
Proof.
  intros H. pose proof (power_once_build_run UNITS DATA RESOURCES) as Hrun.
  destruct (eval_power_constraint _ _) as [pc|] eqn:Hpc;
    [|rewrite H in Hrun; discriminate].
  destruct (Py.mapM (eval_resource_constraint _ _ _) _) as [cs|] eqn:Hcs;
    [|rewrite H in Hrun; discriminate].
  destruct (sum_terms _ _) as [obj|] eqn:Hobj; [|rewrite H in Hrun; discriminate].
  rewrite H in Hrun. injection Hrun as -> ->. split; [|reflexivity].
  f_equal.
  - f_equal.
    + apply eval_power_constraint_determined, Hpc.
    + revert Hcs. apply mapM_Ok_determined. intros r c _.
      apply eval_resource_constraint_determined.
  - f_equal. f_equal. revert Hobj. apply sum_terms_determined. intros u c _.
    apply cost_coef_determined.
Qed.

(** With at least one resource, repeating the power constraint changes
    neither the feasible set nor the smallest cost. *)
Lemma repeated_constraint_sat (a : assignment) (c : constraint) (cs : list constraint) k :
  (0 < k)%nat ->
  Forall (sat a) (map (fun _ : nat => c) (seq 0 k) ++ cs) <-> Forall (sat a) (c :: cs).
Proof.
  intros Hk. rewrite Forall_app. split.
  - intros [Hc Hcs]. constructor; [|exact Hcs].
    destruct k as [|k]; [lia|]. simpl in Hc. inversion Hc; assumption.
  - intros H. inversion H as [|c' cs' Hc Hcs]; subst. split; [|exact Hcs].
    apply Forall_forall. intros c' Hin. apply in_map_iff in Hin.
    destruct Hin as [_ [<- _]]. exact Hc.
Qed.

Lemma combined_same_feasible UNITS DATA RESOURCES m units m1 units1 :
  RESOURCES <> [] ->
  Combined.build UNITS DATA RESOURCES empty_model = (m, Py.Ok units) ->
  Combined.build_power_once UNITS DATA RESOURCES empty_model = (m1, Py.Ok units1) ->
  variables m = variables m1 /\
  objective m = objective m1 /\
  (forall a, feasible m a <-> feasible m1 a) /\
  (forall v, is_min m v <-> is_min m1 v).
Proof.
  intros Hne H H1.
  apply combined_build_inv in H. destruct H as [-> _].
  apply power_once_build_inv in H1. destruct H1 as [-> _].
  assert (Hk : (0 < length RESOURCES)%nat) by (destruct RESOURCES; [congruence | simpl; lia]).
  assert (Hfeas : forall a,
             feasible
               {| variables := map unit_var UNITS;
                  constraints :=
                    map (fun _ => power_constraint DATA (length UNITS))
                        (seq 0 (length RESOURCES))
                    ++ resource_constraints DATA RESOURCES (length UNITS);
                  objective := Some (Minimize, terms (cost DATA) (length UNITS)) |} a
             <->
             feasible
               {| variables := map unit_var UNITS;
                  constraints :=
                    power_constraint DATA (length UNITS)
                    :: resource_constraints DATA RESOURCES (length UNITS);
                  objective := Some (Minimize, terms (cost DATA) (length UNITS)) |} a).
  { intros a. unfold feasible. cbn [variables constraints].
    rewrite (repeated_constraint_sat a _ _ _ Hk). reflexivity. }
  split; [reflexivity|]. split; [reflexivity|]. split; [exact Hfeas|].
  intros v. unfold is_min. split; intros [[a [Ha Hv]] Hlb]; split.
  - exists a. split; [apply Hfeas, Ha | exact Hv].
  - intros a' Ha'. apply (Hlb a'), Hfeas, Ha'.
  - exists a. split; [apply Hfeas, Ha | exact Hv].
  - intros a' Ha'. apply (Hlb a'), Hfeas, Ha'.
Qed.

(** ** Relaxing a model *)

Lemma ubound_le_below x u u' : ubound_le u u' -> below x u -> below x u'.
Proof. destruct u, u'; simpl; intros; try lia; try tauto. Qed.

Lemma var_relaxes_in_domain v v' x : var_relaxes v v' -> in_domain v x -> in_domain v' x.
Proof.
  intros [_ [Hlb Hub]] [Hlo Hhi]. split; [rewrite <- Hlb; exact Hlo|].
  eapply ubound_le_below; eassumption.
Qed.

Lemma constraint_relaxes_sat a c c' : constraint_relaxes c c' -> sat a c -> sat a c'.
Proof.
  destruct c, c'; simpl; intros H Hs; try discriminate.
  - destruct H as [<- Hcap]. lia.
  - inversion H; subst; first [assumption | reflexivity].
  - inversion H; subst; first [assumption | reflexivity].
Qed.

Lemma relaxes_feasible m m' a : relaxes m m' -> feasible m a -> feasible m' a.
Proof.
  intros [Hv [Hc _]] [Hd Hs]. split.
  - clear Hc Hs. revert a Hd. induction Hv as [|v v' vs vs' Hr _ IH]; intros a Hd.
    + inversion Hd; constructor.
    + inversion Hd; subst. constructor.
      * eapply var_relaxes_in_domain; eassumption.
      * apply IH. assumption.
  - clear Hv Hd. induction Hc as [|c c' cs cs' Hr _ IH].
    + constructor.
    + inversion Hs; subst. constructor.
      * eapply constraint_relaxes_sat; eassumption.
      * apply IH. assumption.
Qed.

Lemma relaxes_objective m m' a :
  relaxes m m' -> objective_value m a = objective_value m' a.
Proof.
  intros [_ [_ Ho]]. unfold objective_value, objective_expr. rewrite Ho. reflexivity.
Qed.

Lemma relaxes_max m m' v v' : relaxes m m' -> is_max m v -> is_max m' v' -> v <= v'.
Proof.
  intros Hr [[a [Ha Hv]] _] [_ Hub].
  rewrite <- Hv, (relaxes_objective _ _ a Hr). apply Hub.
  eapply relaxes_feasible; eassumption.
Qed.

Lemma relaxes_min m m' v v' : relaxes m m' -> is_min m v -> is_min m' v' -> v' <= v.
Proof.
  intros Hr [[a [Ha Hv]] _] [_ Hlb].
  rewrite <- Hv, (relaxes_objective _ _ a Hr). apply Hlb.
  eapply relaxes_feasible; eassumption.
Qed.

Lemma Forall2_le_nth (R R' : list Z) :
  Forall2 Z.le R R' -> forall r, nth r R 0 <= nth r R' 0.
Proof.
  induction 1 as [|x y R R' Hxy _ IH]; intros [|r]; simpl; try lia. apply IH.
Qed.

Lemma Forall2_map_same {A B C} (P : B -> C -> Prop) (f : A -> B) (g : A -> C) l :
  (forall x, In x l -> P (f x) (g x)) -> Forall2 P (map f l) (map g l).
Proof.
  induction l as [|x l IH]; intros H; simpl; constructor.
  - apply H. left. reflexivity.
  - apply IH. intros y Hy. apply H. right. exact Hy.
Qed.

Lemma Forall2_refl {A} (P : A -> A -> Prop) l : (forall x, P x x) -> Forall2 P l l.
Proof. intros H. induction l; constructor; auto. Qed.

(** Larger capacities relax the model of the first [solve_army]. *)
Lemma max_power_relaxes UNITS DATA RESOURCES RESOURCES' m units m' units' :
  Forall2 Z.le RESOURCES RESOURCES' ->
  MaxPower.build UNITS DATA RESOURCES empty_model = (m, Py.Ok units) ->
  MaxPower.build UNITS DATA RESOURCES' empty_model = (m', Py.Ok units') ->
  relaxes m m'.
Proof.
  intros Hle H H'.
  apply max_power_build_inv in H. destruct H as [_ [-> _]].
  apply max_power_build_inv in H'. destruct H' as [_ [-> _]].
  unfold relaxes. cbn [variables constraints objective].
  split; [|split; [|reflexivity]].
  - apply Forall2_refl. intros v. unfold var_relaxes. destruct (var_ub v); simpl; repeat split; lia.
  - unfold resource_constraints. rewrite <- (Forall2_length Hle).
    apply Forall2_map_same. intros r _. simpl. split; [reflexivity|].
    apply Forall2_le_nth, Hle.
Qed.

(** A larger wagon relaxes the ration model. *)
Lemma rations_relaxes c c' : c <= c' -> relaxes (Rations.rations c) (Rations.rations c').
Proof.
  intros Hc. unfold relaxes. simpl. split; [|split; [|reflexivity]].
  - repeat constructor; simpl; lia.
  - repeat constructor; simpl; lia.
Qed.

(** ** Inputs the solver keeps as given *)

Lemma distinctb_NoDup l : distinctb l = true -> NoDup l.
Proof.
  induction l as [|x l IH]; simpl; intros H; [constructor|].
  apply andb_true_iff in H. destruct H as [Hx Hl].
  constructor; [|apply IH, Hl].
  intros Hin. apply negb_true_iff in Hx.
  assert (Hex : existsb (String.eqb x) l = true)
    by (apply existsb_exists; exists x; split; [exact Hin | apply String.eqb_refl]).
  congruence.
Qed.

Lemma within_iff bound z : withinb bound z = true <-> within bound z.
Proof. unfold withinb, within. rewrite andb_true_iff, !Z.leb_le. tauto. Qed.

Lemma stored_as_given_check bound UNITS DATA RESOURCES :
  stored_as_givenb bound UNITS DATA RESOURCES = true ->
  stored_as_given bound UNITS DATA RESOURCES.
Proof.
  unfold stored_as_givenb, stored_as_given. rewrite !andb_true_iff.
  intros [[[[Hne Hd] Hn] HD] HR].
  split; [|split; [|split; [|split]]].
  - intros ->. discriminate Hne.
  - apply distinctb_NoDup, Hd.
  - apply Forall_forall. intros unit Hu. rewrite forallb_forall in Hn.
    specialize (Hn unit Hu). intros ->. discriminate Hn.
  - apply Forall_forall. intros row Hrow. rewrite forallb_forall in HD.
    specialize (HD row Hrow). rewrite forallb_forall in HD.
    apply Forall_forall. intros z Hz. apply within_iff, HD, Hz.
  - apply Forall_forall. intros z Hz. rewrite forallb_forall in HR.
    apply within_iff, HR, Hz.
Qed.

Lemma notebook_inputs_stored :
  stored_as_given (2 ^ 53) MaxPower.UNITS MaxPower.DATA MaxPower.RESOURCES.
Proof. apply stored_as_given_check. vm_compute. reflexivity. Qed.

Lemma ten_units_stored :
  stored_as_given (2 ^ 49) TenUnits.UNITS TenUnits.DATA TenUnits.RESOURCES.
Proof. apply stored_as_given_check. vm_compute. reflexivity. Qed.

Lemma map_const_repeat {A B} (c : B) (l : list A) :
  map (fun _ => c) l = repeat c (length l).
Proof. induction l as [|x l IH]; simpl; [reflexivity | rewrite IH; reflexivity]. Qed.

(** ** The shape of the models [solve_army] builds *)

Lemma nth_error_map_seq {A} (f : nat -> A) k r :
  (r < k)%nat -> nth_error (map f (seq 0 k)) r = Some (f r).
Proof.
  intros Hr. rewrite nth_error_map, nth_error_seq.
  destruct (Nat.ltb_spec r k) as [_|H]; [reflexivity | lia].
Qed.

Lemma filter_none {A} (p : A -> bool) l :
  (forall x, In x l -> p x = false) -> filter p l = [].
Proof.
  induction l as [|x l IH]; intros H; simpl; [reflexivity|].
  rewrite H by (left; reflexivity). apply IH. intros y Hy. apply H. right. exact Hy.
Qed.

Lemma filter_all {A} (p : A -> bool) l :
  (forall x, In x l -> p x = true) -> filter p l = l.
Proof.
  induction l as [|x l IH]; intros H; simpl; [reflexivity|].
  rewrite H by (left; reflexivity). f_equal. apply IH. intros y Hy. apply H. right. exact Hy.
Qed.

Lemma resource_constraints_length DATA RESOURCES n :
  length (resource_constraints DATA RESOURCES n) = length RESOURCES.
Proof. unfold resource_constraints. rewrite length_map, length_seq. reflexivity. Qed.

(** C1, as amended.  On inputs the solver keeps as given (at least one
    unit, names non-empty and distinct, numbers of magnitude at most
    [2 ^ 53]): whenever the first [solve_army] gets as far as building its
    model, the model has one variable per unit name with domain
    [0, +infinity), one [<=]-constraint per resource (the [r]-th being
    [sum over u of DATA[u][r] * units[u] <= RESOURCES[r]]) and the
    objective in which every variable carries the last entry of its row;
    on indexable inputs it does build it.  The combined definition (numbers
    of magnitude at most [2 ^ 49]) builds the same variables and the same
    [<=]-constraints, preceded by one copy per resource of the constraint
    [sum over u of (10 * DATA[u][-2] + DATA[u][-1]) * units[u] >= 1000001]
    (none when [RESOURCES] is empty), and its objective minimises
    [DATA[u][0] + DATA[u][1] + DATA[u][2]] per unit. *)
Theorem solve_army_model_shape UNITS DATA RESOURCES :
  (stored_as_given (2 ^ 53) UNITS DATA RESOURCES ->
   (forall m units,
       MaxPower.build UNITS DATA RESOURCES empty_model = (m, Py.Ok units) ->
       variables m = map unit_var UNITS /\
       length (constraints m) = length RESOURCES /\
       (forall r, (r < length RESOURCES)%nat ->
          nth_error (constraints m) r =
          Some (LinLe (terms (fun u => entry DATA u r) (length UNITS)) (nth r RESOURCES 0))) /\
       objective m = Some (Maximize, terms (trailing DATA) (length UNITS))) /\
   (indexable (length UNITS) DATA (length RESOURCES) ->
    exists m, MaxPower.build UNITS DATA RESOURCES empty_model
              = (m, Py.Ok (seq 0 (length UNITS))))) /\
  (stored_as_given (2 ^ 49) UNITS DATA RESOURCES ->
   forall m units,
     Combined.build UNITS DATA RESOURCES empty_model = (m, Py.Ok units) ->
     variables m = map unit_var UNITS /\
     constraints m =
       repeat (LinGe (terms (power DATA) (length UNITS)) 1000001) (length RESOURCES)
       ++ filter is_le (constraints m) /\
     length (filter is_le (constraints m)) = length RESOURCES /\
     (forall r, (r < length RESOURCES)%nat ->
        nth_error (filter is_le (constraints m)) r =
        Some (LinLe (terms (fun u => entry DATA u r) (length UNITS)) (nth r RESOURCES 0))) /\
     objective m = Some (Minimize, terms (cost DATA) (length UNITS))).
Proof.
  split.
  - intros _. split.
    + intros m units H. apply max_power_build_inv in H. destruct H as [_ [-> _]].
      cbn [variables constraints objective].
      split; [reflexivity|]. split; [apply resource_constraints_length|].
      split; [|reflexivity].
      intros r Hr. unfold resource_constraints.
      rewrite nth_error_map_seq by exact Hr. reflexivity.
    + intros Hix. eexists. apply max_power_build_ok, Hix.
  - intros _ m units H. apply combined_build_inv in H. destruct H as [-> _].
    cbn [variables constraints objective].
    assert (Hle : filter is_le
                    (map (fun _ : nat => power_constraint DATA (length UNITS))
                         (seq 0 (length RESOURCES))
                     ++ resource_constraints DATA RESOURCES (length UNITS))
                  = resource_constraints DATA RESOURCES (length UNITS)).
    { rewrite filter_app, filter_none, filter_all; [reflexivity | |].
      - intros c Hc. apply in_map_iff in Hc. destruct Hc as [r [<- _]]. reflexivity.
      - intros c Hc. apply in_map_iff in Hc. destruct Hc as [r [<- _]]. reflexivity. }
    rewrite Hle.
    split; [reflexivity|].
    split; [rewrite map_const_repeat, length_seq; reflexivity|].
    split; [apply resource_constraints_length|].
    split; [|reflexivity].
    intros r Hr. unfold resource_constraints.
    rewrite nth_error_map_seq by exact Hr. reflexivity.
Qed.

Lemma ten_units_combined_builds :
  Combined.build TenUnits.UNITS TenUnits.DATA TenUnits.RESOURCES empty_model
  = (fst (Combined.build TenUnits.UNITS TenUnits.DATA TenUnits.RESOURCES empty_model),
     Py.Ok (seq 0 10)).
Proof. vm_compute. reflexivity. Qed.

Lemma solve_army_model_shape_witness :
  (exists m,
      MaxPower.build MaxPower.UNITS MaxPower.DATA MaxPower.RESOURCES empty_model
      = (m, Py.Ok [0; 1; 2]%nat) /\
      length (constraints m) = 3%nat /\
      objective m = Some (Maximize, [(70, 0%nat); (95, 1%nat); (230, 2%nat)])) /\
  (exists m,
      Combined.build TenUnits.UNITS TenUnits.DATA TenUnits.RESOURCES empty_model
      = (m, Py.Ok (seq 0 10)) /\
      constraints m =
        repeat (LinGe (terms (power TenUnits.DATA) 10) 1000001) 3
        ++ filter is_le (constraints m) /\
      length (filter is_le (constraints m)) = 3%nat /\
      objective m = Some (Minimize, terms (cost TenUnits.DATA) 10)).
Proof.
  split.
  - eexists. split; [reflexivity|].
    destruct (proj1 (proj1 (solve_army_model_shape MaxPower.UNITS MaxPower.DATA
                                                   MaxPower.RESOURCES)
                           notebook_inputs_stored)
                _ _ eq_refl) as [_ [Hlen [_ Hobj]]].
    split; [exact Hlen | exact Hobj].
  - eexists. split; [exact ten_units_combined_builds|].
    destruct (proj2 (solve_army_model_shape TenUnits.UNITS TenUnits.DATA TenUnits.RESOURCES)
                ten_units_stored _ _ ten_units_combined_builds) as [_ [Hcs [Hlen [_ Hobj]]]].
    split; [exact Hcs|]. split; [exact Hlen | exact Hobj].
Defined.

(** C1 as stated fails on the combined definition: with the notebook's
    ten units the objective gives Swordsmen the coefficient 80
    (food + wood + gold), not the 70 of the row's last column, and the model
    has six constraints for three resources. *)
Lemma combined_objective_is_not_the_value_column :
  exists m,
    Combined.build TenUnits.UNITS TenUnits.DATA TenUnits.RESOURCES empty_model
    = (m, Py.Ok (seq 0 10)) /\
    nth_error (objective_expr m) 0 = Some (80, 0%nat) /\
    trailing TenUnits.DATA 0 = 70 /\
    nth_error (terms (trailing TenUnits.DATA) (length TenUnits.UNITS)) 0 = Some (70, 0%nat) /\
    objective_expr m <> terms (trailing TenUnits.DATA) (length TenUnits.UNITS) /\
    length (constraints m) = 6%nat /\
    length TenUnits.RESOURCES = 3%nat.
Proof.
  eexists. split; [exact ten_units_combined_builds|].
  split; [vm_compute; reflexivity|]. split; [reflexivity|].
  split; [vm_compute; reflexivity|].
  split; [|split; [vm_compute; reflexivity | reflexivity]].
  intros H. apply (f_equal (fun e => nth_error e 0)) in H.
  vm_compute in H. discriminate.
Qed.

(** ** What a call of the first [solve_army] does *)

Lemma name_unit_var m UNITS u :
  variables m = map unit_var UNITS -> name m u = nth u UNITS EmptyString.
Proof.
  intros Hm. unfold name. rewrite Hm, nth_error_map.
  destruct (nth_error UNITS u) as [unit|] eqn:H; simpl.
  - symmetry. apply nth_error_nth, H.
  - symmetry. apply nth_error_nth_None, H.
Qed.

Lemma map_combine_seq {A B} (F : nat -> A -> B) (d : A) (l : list A) :
  forall start,
    map (fun p : nat * A => let '(i, x) := p in F i x) (combine (seq start (length l)) l)
    = map (fun i => F (start + i)%nat (nth i l d)) (seq 0 (length l)).
Proof.
  induction l as [|x l IH]; intros start; [reflexivity|].
  cbn [length seq combine map]. rewrite Nat.add_0_r. f_equal.
  rewrite IH, <- seq_shift, map_map. apply map_ext. intros i.
  rewrite Nat.add_succ_r. reflexivity.
Qed.

(** The unit lines are the solution mapping, one line per entry. *)
Lemma unit_lines_mapping {num} m (a : mp_answer num) UNITS :
  variables m = map unit_var UNITS ->
  map (unit_line m a) (seq 0 (length UNITS))
  = map (fun p : string * num =>
           let '(unit, v) := p in [Lit " - "%string; Lit unit; Lit " = "%string; Num v])
        (solution_mapping UNITS a).
Proof.
  intros Hm. unfold solution_mapping. rewrite map_map.
  rewrite (map_ext _
             (fun p : nat * string =>
                let '(u, unit) := p in
                [Lit " - "%string; Lit unit; Lit " = "%string; Num (solution_value a u)]))
    by (intros [u unit]; reflexivity).
  rewrite (map_combine_seq
             (fun u unit => [Lit " - "%string; Lit unit; Lit " = "%string;
                             Num (solution_value a u)])
             EmptyString UNITS 0).
  apply map_ext. intros u. unfold unit_line. rewrite (name_unit_var m UNITS u Hm).
  reflexivity.
Qed.

(** C2, as amended.  On inputs the solver keeps as given (at least one
    unit, names non-empty and distinct, numbers of magnitude at most
    [2 ^ 53]) whose tables can be indexed, the first [solve_army] builds
    its model, never raises and always returns [None].  When the engine
    reports [OPTIMAL] it prints the banner, the timing, the objective value
    and one line per entry of the solution mapping (unit name, value); on
    every other status it prints the single line "The solver could not find
    an optimal solution.", the same for infeasible, unbounded or merely
    feasible. *)
Theorem solve_army_prints_and_returns_none {num} (Solve : model -> mp_answer num)
  UNITS DATA RESOURCES out :
  stored_as_given (2 ^ 53) UNITS DATA RESOURCES ->
  indexable (length UNITS) DATA (length RESOURCES) ->
  exists solver units,
    MaxPower.build UNITS DATA RESOURCES empty_model = (solver, Py.Ok units) /\
    (mp_result (Solve solver) = MP_OPTIMAL ->
     MaxPower.solve_army Solve UNITS DATA RESOURCES out =
     (out ++
        [banner; solved_in (Solve solver); [];
         [Lit "Optimal value = "%string; Num (mp_objective (Solve solver));
          Lit " 💪power"%string];
         [Lit "Army:"%string]] ++
        map (fun p : string * num =>
               let '(unit, v) := p in
               [Lit " - "%string; Lit unit; Lit " = "%string; Num v])
            (solution_mapping UNITS (Solve solver)),
      Py.Ok PyNone)) /\
    (mp_result (Solve solver) <> MP_OPTIMAL ->
     MaxPower.solve_army Solve UNITS DATA RESOURCES out =
     (out ++ [no_optimum], Py.Ok PyNone)).
Proof.
  intros _ Hix. eexists _, _. split; [apply max_power_build_ok, Hix|].
  split; intros Hst.
  - rewrite (max_power_solve_army_run Solve _ _ _ out Hix). cbv zeta.
    rewrite max_power_report_run. cbn [fst].
    rewrite (proj2 (mp_status_eqb_eq _ _) Hst).
    match goal with
    | |- context [unit_line ?m ?a] => rewrite (unit_lines_mapping m a UNITS eq_refl)
    end.
    reflexivity.
  - rewrite (max_power_solve_army_run Solve _ _ _ out Hix). cbv zeta.
    rewrite max_power_report_run. cbn [fst].
    destruct (mp_status_eqb _ MP_OPTIMAL) eqn:E; [|reflexivity].
    apply mp_status_eqb_eq in E. contradiction.
Qed.

Lemma notebook_inputs_indexable :
  indexable (length MaxPower.UNITS) MaxPower.DATA (length MaxPower.RESOURCES).
Proof. apply indexable_iff. reflexivity. Qed.

Lemma solve_army_prints_and_returns_none_witness :
  (exists solver units,
     MaxPower.build MaxPower.UNITS MaxPower.DATA MaxPower.RESOURCES empty_model
     = (solver, Py.Ok units) /\
     (mp_result (mp_sample MP_OPTIMAL 1800 [6; 0; 6]) = MP_OPTIMAL ->
      snd (MaxPower.solve_army (fun _ => mp_sample MP_OPTIMAL 1800 [6; 0; 6])
             MaxPower.UNITS MaxPower.DATA MaxPower.RESOURCES [])
      = Py.Ok PyNone)) /\
  (exists solver units,
     MaxPower.build MaxPower.UNITS MaxPower.DATA MaxPower.RESOURCES empty_model
     = (solver, Py.Ok units) /\
     (mp_result (mp_sample MP_UNBOUNDED 0 []) <> MP_OPTIMAL ->
      MaxPower.solve_army (fun _ => mp_sample MP_UNBOUNDED 0 [])
        MaxPower.UNITS MaxPower.DATA MaxPower.RESOURCES []
      = ([no_optimum], Py.Ok PyNone))).
Proof.
  split.
  - destruct (solve_army_prints_and_returns_none
                (fun _ => mp_sample MP_OPTIMAL 1800 [6; 0; 6])
                MaxPower.UNITS MaxPower.DATA MaxPower.RESOURCES []
                notebook_inputs_stored notebook_inputs_indexable)
      as [solver [units [Hb [Hopt _]]]].
    exists solver, units. split; [exact Hb|].
    intros Hst. rewrite (Hopt Hst). reflexivity.
  - destruct (solve_army_prints_and_returns_none
                (fun _ => mp_sample MP_UNBOUNDED 0 [])
                MaxPower.UNITS MaxPower.DATA MaxPower.RESOURCES []
                notebook_inputs_stored notebook_inputs_indexable)
      as [solver [units [Hb [_ Hno]]]].
    exists solver, units. split; [exact Hb|].
    intros Hst. exact (Hno Hst).
Defined.

(** C2 as stated fails: with the notebook's inputs the call returns the same
    value, [None], whether the engine reports an optimum or infeasibility,
    so no reading of the returned value yields the solution on success and
    an outcome otherwise. *)
Lemma solve_army_hands_nothing_back :
  snd (MaxPower.solve_army (fun _ => mp_sample MP_OPTIMAL 1800 [6; 0; 6])
         MaxPower.UNITS MaxPower.DATA MaxPower.RESOURCES [])
  = Py.Ok PyNone /\
  snd (MaxPower.solve_army (fun _ => mp_sample MP_INFEASIBLE 0 [])
         MaxPower.UNITS MaxPower.DATA MaxPower.RESOURCES [])
  = Py.Ok PyNone /\
  forall decode : pyvalue Z -> option (handed_back Z),
    ~ meets_contract decode MaxPower.UNITS MaxPower.DATA MaxPower.RESOURCES.
Proof.
  split; [reflexivity|]. split; [reflexivity|].
  intros decode H.
  destruct (H (fun _ => mp_sample MP_OPTIMAL 1800 [6; 0; 6]) []) as [v [r [Hv [Hd Ha]]]].
  destruct (H (fun _ => mp_sample MP_INFEASIBLE 0 []) []) as [v' [r' [Hv' [Hd' Ha']]]].
  change (Py.Ok (@PyNone Z) = Py.Ok v) in Hv. injection Hv as <-.
  change (Py.Ok (@PyNone Z) = Py.Ok v') in Hv'. injection Hv' as <-.
  rewrite Hd in Hd'. injection Hd' as <-.
  destruct r as [mapping value|o].
  - destruct Ha' as [Hst _]. discriminate Hst.
  - apply Ha. reflexivity.
Qed.

(** ** Malformed dimensions *)

(** C8, as amended.  The first [solve_army] checks no dimension itself.
    On inputs the solver keeps as given (at least one unit, names non-empty
    and distinct, numbers of magnitude at most [2 ^ 53]) it raises Python's
    [IndexError], before printing anything, exactly when one of the first
    [len(UNITS)] rows of [DATA] is missing, empty, or has fewer than
    [len(RESOURCES)] entries.  Every other such input is accepted: the call
    completes, returns [None], and the model has one constraint per entry
    of [RESOURCES], whatever else the tables contain. *)
Theorem solve_army_index_errors {num} (Solve : model -> mp_answer num)
  UNITS DATA RESOURCES out :
  stored_as_given (2 ^ 53) UNITS DATA RESOURCES ->
  (~ indexable (length UNITS) DATA (length RESOURCES) ->
   MaxPower.solve_army Solve UNITS DATA RESOURCES out = (out, Py.Raise Py.IndexError)) /\
  (indexable (length UNITS) DATA (length RESOURCES) ->
   snd (MaxPower.solve_army Solve UNITS DATA RESOURCES out) = Py.Ok PyNone /\
   exists m,
     MaxPower.build UNITS DATA RESOURCES empty_model = (m, Py.Ok (seq 0 (length UNITS))) /\
     length (constraints m) = length RESOURCES).
Proof.
  intros _. split.
  - apply max_power_solve_army_raises.
  - intros Hix. split.
    + rewrite (max_power_solve_army_run Solve _ _ _ out Hix). reflexivity.
    + eexists. split; [apply max_power_build_ok, Hix|].
      apply resource_constraints_length.
Qed.

Lemma short_row_stored :
  stored_as_given (2 ^ 53) MaxPower.UNITS
    [[60; 20]; [80; 10; 40; 95]; [140; 0; 100; 230]] MaxPower.RESOURCES.
Proof. apply stored_as_given_check. vm_compute. reflexivity. Qed.

Lemma short_row_not_indexable :
  ~ indexable (length MaxPower.UNITS)
      [[60; 20]; [80; 10; 40; 95]; [140; 0; 100; 230]] (length MaxPower.RESOURCES).
Proof. intros H. apply indexable_iff in H. discriminate H. Qed.

Lemma solve_army_index_errors_witness :
  MaxPower.solve_army (fun _ => mp_sample MP_OPTIMAL 0 [])
    MaxPower.UNITS [[60; 20]; [80; 10; 40; 95]; [140; 0; 100; 230]] MaxPower.RESOURCES []
  = ([], Py.Raise Py.IndexError) /\
  snd (MaxPower.solve_army (fun _ => mp_sample MP_OPTIMAL 1800 [6; 0; 6])
         MaxPower.UNITS MaxPower.DATA MaxPower.RESOURCES [])
  = Py.Ok PyNone.
Proof.
  split.
  - exact (proj1 (solve_army_index_errors (fun _ => mp_sample MP_OPTIMAL 0 [])
                    MaxPower.UNITS [[60; 20]; [80; 10; 40; 95]; [140; 0; 100; 230]]
                    MaxPower.RESOURCES [] short_row_stored)
                 short_row_not_indexable).
  - exact (proj1 (proj2 (solve_army_index_errors (fun _ => mp_sample MP_OPTIMAL 1800 [6; 0; 6])
                           MaxPower.UNITS MaxPower.DATA MaxPower.RESOURCES []
                           notebook_inputs_stored)
                        notebook_inputs_indexable)).
Defined.

(** C8 as stated fails: a capacity list shorter than the rows' resource
    columns, and a row that lacks its value column, are both accepted
    without any error.  In the first case the gold column is ignored (two
    constraints are built); in the second the row's gold entry, 0, is taken
    as the unit's value. *)
Lemma malformed_dimensions_are_accepted :
  ~ well_dimensioned MaxPower.UNITS MaxPower.DATA [1200; 800] /\
  MaxPower.solve_army (fun _ => mp_sample MP_INFEASIBLE 0 [])
    MaxPower.UNITS MaxPower.DATA [1200; 800] []
  = ([no_optimum], Py.Ok PyNone) /\
  (exists m,
     MaxPower.build MaxPower.UNITS MaxPower.DATA [1200; 800] empty_model
     = (m, Py.Ok [0; 1; 2]%nat) /\
     constraints m = [LinLe [(60, 0%nat); (80, 1%nat); (140, 2%nat)] 1200;
                      LinLe [(20, 0%nat); (10, 1%nat); (0, 2%nat)] 800]) /\
  ~ well_dimensioned MaxPower.UNITS
      [[60; 20; 0]; [80; 10; 40; 95]; [140; 0; 100; 230]] MaxPower.RESOURCES /\
  MaxPower.solve_army (fun _ => mp_sample MP_INFEASIBLE 0 [])
    MaxPower.UNITS [[60; 20; 0]; [80; 10; 40; 95]; [140; 0; 100; 230]] MaxPower.RESOURCES []
  = ([no_optimum], Py.Ok PyNone) /\
  (exists m,
     MaxPower.build MaxPower.UNITS
       [[60; 20; 0]; [80; 10; 40; 95]; [140; 0; 100; 230]] MaxPower.RESOURCES empty_model
     = (m, Py.Ok [0; 1; 2]%nat) /\
     objective m = Some (Maximize, [(0, 0%nat); (95, 1%nat); (230, 2%nat)])).
Proof.
  split.
  { intros [_ H]. inversion H as [|row rows Hlen _]. simpl in Hlen. discriminate Hlen. }
  split; [reflexivity|].
  split; [eexists; split; reflexivity|].
  split.
  { intros [_ H]. inversion H as [|row rows Hlen _]. simpl in Hlen. discriminate Hlen. }
  split; [reflexivity|].
  eexists; split; reflexivity.
Qed.

(** ** Larger capacities never lower the best value *)

Lemma three_units_feasible wood a :
  feasible (fst (MaxPower.build MaxPower.UNITS MaxPower.DATA [1200; wood; 600] empty_model)) a
  <->
  exists swordsmen bowmen horsemen, a = [swordsmen; bowmen; horsemen] /\
    0 <= swordsmen /\ 0 <= bowmen /\ 0 <= horsemen /\
    60 * swordsmen + 80 * bowmen + 140 * horsemen <= 1200 /\
    20 * swordsmen + 10 * bowmen + 0 * horsemen <= wood /\
    0 * swordsmen + 40 * bowmen + 100 * horsemen <= 600.
Proof.
  unfold feasible; simpl. split.
  - intros [Hd Hc]. invert_Forall2.
    repeat match goal with H : in_domain _ _ |- _ => destruct H as [? _] end.
    simpl in *. unfold value_of in *; simpl in *.
    eexists _, _, _. split; [reflexivity|]. lia.
  - intros [s [b [h [-> H]]]]. split.
    + repeat constructor; simpl; lia.
    + repeat constructor; simpl; unfold value_of; simpl; lia.
Qed.

Lemma three_units_max wood :
  120 <= wood ->
  is_max (fst (MaxPower.build MaxPower.UNITS MaxPower.DATA [1200; wood; 600] empty_model))
         1800.
Proof.
  intros Hw. split.
  - exists [6; 0; 6]. split; [|reflexivity].
    apply three_units_feasible. exists 6, 0, 6. split; [reflexivity | lia].
  - intros a Ha. apply three_units_feasible in Ha.
    destruct Ha as [s [b [h [-> H]]]].
    change (70 * s + (95 * b + (230 * h + 0)) <= 1800). lia.
Qed.

(** C6. Raising capacities or upper bounds of variables, all else unchanged,
    never lowers the largest objective value: in general for a maximised
    model, for the models of the first [solve_army] when [RESOURCES] grows
    componentwise, and for the ration model when its capacity (which is
    also the upper bound of its three variables) grows. *)
Theorem relaxing_never_lowers_the_maximum :
  (forall m m' v v', relaxes m m' -> is_max m v -> is_max m' v' -> v <= v') /\
  (forall UNITS DATA RESOURCES RESOURCES' m units m' units' v v',
      Forall2 Z.le RESOURCES RESOURCES' ->
      MaxPower.build UNITS DATA RESOURCES empty_model = (m, Py.Ok units) ->
      MaxPower.build UNITS DATA RESOURCES' empty_model = (m', Py.Ok units') ->
      is_max m v -> is_max m' v' -> v <= v') /\
  (forall c c' v v',
      c <= c' ->
      is_max (Rations.rations c) v -> is_max (Rations.rations c') v' -> v <= v').
Proof.
  split; [|split].
  - exact relaxes_max.
  - intros UNITS DATA RESOURCES RESOURCES' m units m' units' v v' Hle H H'.
    apply relaxes_max. eapply max_power_relaxes; eassumption.
  - intros c c' v v' Hc. apply relaxes_max, rations_relaxes, Hc.
Qed.

Lemma relaxing_never_lowers_the_maximum_witness :
  (relaxes (Rations.rations 19) (Rations.rations 20) /\
   is_max (Rations.rations 19) 68 /\ is_max (Rations.rations 20) 72 /\ 68 <= 72) /\
  (Forall2 Z.le [1200; 800; 600] [1200; 900; 600] /\
   is_max (fst (MaxPower.build MaxPower.UNITS MaxPower.DATA [1200; 800; 600] empty_model))
          1800 /\
   is_max (fst (MaxPower.build MaxPower.UNITS MaxPower.DATA [1200; 900; 600] empty_model))
          1800 /\
   1800 <= 1800) /\
  (19 <= 20 /\ 68 <= 72).
Proof.
  assert (Hr : relaxes (Rations.rations 19) (Rations.rations 20))
    by (apply rations_relaxes; lia).
  assert (Hle : Forall2 Z.le [1200; 800; 600] [1200; 900; 600])
    by (repeat constructor; lia).
  assert (H800 : is_max (fst (MaxPower.build MaxPower.UNITS MaxPower.DATA
                                [1200; 800; 600] empty_model)) 1800)
    by (apply three_units_max; lia).
  assert (H900 : is_max (fst (MaxPower.build MaxPower.UNITS MaxPower.DATA
                                [1200; 900; 600] empty_model)) 1800)
    by (apply three_units_max; lia).
  split; [|split].
  - split; [exact Hr|]. split; [exact rations_max_19|]. split; [exact rations_max_20|].
    exact (proj1 relaxing_never_lowers_the_maximum _ _ 68 72 Hr
             rations_max_19 rations_max_20).
  - split; [exact Hle|]. split; [exact H800|]. split; [exact H900|].
    exact (proj1 (proj2 relaxing_never_lowers_the_maximum)
             MaxPower.UNITS MaxPower.DATA [1200; 800; 600] [1200; 900; 600]
             _ [0; 1; 2]%nat _ [0; 1; 2]%nat 1800 1800
             Hle eq_refl eq_refl H800 H900).
  - split; [lia|].
    exact (proj2 (proj2 relaxing_never_lowers_the_maximum) 19 20 68 72
             ltac:(lia) rations_max_19 rations_max_20).
Defined.

(** ** The combined definition called without resources *)

Lemma ten_units_no_resources_builds :
  Combined.build TenUnits.UNITS TenUnits.DATA [] empty_model
  = ({| variables := map unit_var TenUnits.UNITS;
        constraints := [];
        objective := Some (Minimize, terms (cost TenUnits.DATA) 10) |},
     Py.Ok (seq 0 10)).
Proof. vm_compute. reflexivity. Qed.

Lemma ten_units_power_once_builds :
  Combined.build_power_once TenUnits.UNITS TenUnits.DATA [] empty_model
  = ({| variables := map unit_var TenUnits.UNITS;
        constraints := [power_constraint TenUnits.DATA 10];
        objective := Some (Minimize, terms (cost TenUnits.DATA) 10) |},
     Py.Ok (seq 0 10)).
Proof. vm_compute. reflexivity. Qed.

Lemma ten_units_domain a :
  Forall2 in_domain (map unit_var TenUnits.UNITS) a ->
  exists x0 x1 x2 x3 x4 x5 x6 x7 x8 x9,
    a = [x0; x1; x2; x3; x4; x5; x6; x7; x8; x9] /\
    0 <= x0 /\ 0 <= x1 /\ 0 <= x2 /\ 0 <= x3 /\ 0 <= x4 /\
    0 <= x5 /\ 0 <= x6 /\ 0 <= x7 /\ 0 <= x8 /\ 0 <= x9.
Proof.
  simpl. intros H. invert_Forall2.
  repeat match goal with H : in_domain _ _ |- _ => destruct H as [? _] end.
  simpl in *. eexists _, _, _, _, _, _, _, _, _, _. split; [reflexivity|].
  repeat split; assumption.
Qed.

Lemma ten_units_cost x0 x1 x2 x3 x4 x5 x6 x7 x8 x9 :
  eval (terms (cost TenUnits.DATA) 10) [x0; x1; x2; x3; x4; x5; x6; x7; x8; x9]
  = 80 * x0 + 120 * x1 + 80 * x2 + 120 * x3 + 240 * x4
    + 120 * x5 + 240 * x6 + 300 * x7 + 500 * x8 + 600 * x9.
Proof.
  change (80 * x0 + (120 * x1 + (80 * x2 + (120 * x3 + (240 * x4 +
          (120 * x5 + (240 * x6 + (300 * x7 + (500 * x8 + (600 * x9 + 0)))))))))
          = 80 * x0 + 120 * x1 + 80 * x2 + 120 * x3 + 240 * x4
            + 120 * x5 + 240 * x6 + 300 * x7 + 500 * x8 + 600 * x9).
  lia.
Qed.

Lemma ten_units_power x0 x1 x2 x3 x4 x5 x6 x7 x8 x9 :
  eval (terms (power TenUnits.DATA) 10) [x0; x1; x2; x3; x4; x5; x6; x7; x8; x9]
  = 130 * x0 + 275 * x1 + 120 * x2 + 200 * x3 + 500 * x4
    + 215 * x5 + 470 * x6 + 2700 * x7 + 500 * x8 + 600 * x9.
Proof.
  change (130 * x0 + (275 * x1 + (120 * x2 + (200 * x3 + (500 * x4 +
          (215 * x5 + (470 * x6 + (2700 * x7 + (500 * x8 + (600 * x9 + 0)))))))))
          = 130 * x0 + 275 * x1 + 120 * x2 + 200 * x3 + 500 * x4
            + 215 * x5 + 470 * x6 + 2700 * x7 + 500 * x8 + 600 * x9).
  lia.
Qed.

(** C9, evaluated where it fails.  Called with the notebook's ten units and
    an empty [RESOURCES], the combined definition adds the power
    constraint zero times: its model has no constraint at all, the empty
    army is feasible and the smallest cost is 0.  The model with the power
    constraint added once rejects the empty army and has no cost-0
    solution.  The same happens with no unit and no resource at all. *)
Theorem combined_without_resources_drops_power_constraint :
  (exists m m1,
      Combined.build TenUnits.UNITS TenUnits.DATA [] empty_model
      = (m, Py.Ok (seq 0 10)) /\
      Combined.build_power_once TenUnits.UNITS TenUnits.DATA [] empty_model
      = (m1, Py.Ok (seq 0 10)) /\
      constraints m = [] /\
      constraints m1 = [power_constraint TenUnits.DATA 10] /\
      feasible m (repeat 0 10) /\
      ~ feasible m1 (repeat 0 10) /\
      is_min m 0 /\
      ~ is_min m1 0) /\
  (exists m m1,
      Combined.build [] [] [] empty_model = (m, Py.Ok []) /\
      Combined.build_power_once [] [] [] empty_model = (m1, Py.Ok []) /\
      feasible m [] /\ ~ feasible m1 []).
Proof.
  split.
  - eexists _, _.
    split; [exact ten_units_no_resources_builds|].
    split; [exact ten_units_power_once_builds|].
    split; [reflexivity|]. split; [reflexivity|].
    assert (Hzero : feasible
                      {| variables := map unit_var TenUnits.UNITS;
                         constraints := [];
                         objective := Some (Minimize, terms (cost TenUnits.DATA) 10) |}
                      (repeat 0 10)).
    { apply feasible_iff. vm_compute. reflexivity. }
    split; [exact Hzero|]. split; [|split].
    + intros H. apply feasible_iff in H. vm_compute in H. discriminate H.
    + split.
      * exists (repeat 0 10). split; [exact Hzero | vm_compute; reflexivity].
      * intros a [Hd _]. cbn [variables] in Hd. apply ten_units_domain in Hd.
        destruct Hd as [x0 [x1 [x2 [x3 [x4 [x5 [x6 [x7 [x8 [x9 [-> H]]]]]]]]]]].
        unfold objective_value, objective_expr. cbn [objective].
        rewrite ten_units_cost. lia.
    + intros [[a [[Hd Hc] Hv]] _]. cbn [variables constraints] in Hd, Hc.
      apply ten_units_domain in Hd.
      destruct Hd as [x0 [x1 [x2 [x3 [x4 [x5 [x6 [x7 [x8 [x9 [-> H]]]]]]]]]]].
      inversion Hc as [|c cs Hp _]; subst.
      unfold power_constraint, sat in Hp. rewrite ten_units_power in Hp.
      unfold objective_value, objective_expr in Hv. cbn [objective] in Hv.
      rewrite ten_units_cost in Hv. lia.
  - eexists _, _.
    split; [reflexivity|]. split; [reflexivity|].
    split.
    + apply feasible_iff. reflexivity.
    + intros H. apply feasible_iff in H. vm_compute in H. discriminate H.
Qed.

(** ** The other definitions of [solve_army]: when they can index their tables *)

Lemma rows_have_iff n DATA k : rows_haveb n DATA k = true <-> rows_have n DATA k.
Proof.
  unfold rows_haveb, rows_have. rewrite forallb_forall. split.
  - intros H u Hu. specialize (H u). rewrite in_seq in H. specialize (H ltac:(lia)).
    destruct (nth_error DATA u) as [row|]; [|discriminate].
    exists row. split; [reflexivity | apply Nat.leb_le, H].
  - intros H u Hu. apply in_seq in Hu. destruct (H u ltac:(lia)) as [row [-> Hlen]].
    apply Nat.leb_le, Hlen.
Qed.

Lemma rows_have_dec n DATA k : rows_have n DATA k \/ ~ rows_have n DATA k.
Proof.
  destruct (rows_haveb n DATA k) eqn:H.
  - left. apply rows_have_iff, H.
  - right. intros Hr. apply rows_have_iff in Hr. congruence.
Qed.

Lemma rows_have_le n DATA k k' :
  (k' <= k)%nat -> rows_have n DATA k -> rows_have n DATA k'.
Proof.
  intros Hk H u Hu. destruct (H u Hu) as [row [Hrow Hlen]].
  exists row. split; [exact Hrow | lia].
Qed.

Lemma rows_have_max n DATA k k' :
  rows_have n DATA k -> rows_have n DATA k' -> rows_have n DATA (Nat.max k k').
Proof.
  intros H H' u Hu. destruct (H u Hu) as [row [Hrow Hlen]].
  destruct (H' u Hu) as [row' [Hrow' Hlen']].
  rewrite Hrow in Hrow'. injection Hrow' as <-.
  exists row. split; [exact Hrow | lia].
Qed.

Lemma rows_have_indexable n DATA k :
  (0 < k)%nat -> rows_have n DATA k -> indexable n DATA k.
Proof.
  intros Hk H u Hu. destruct (H u Hu) as [row [Hrow Hlen]].
  exists row. split; [exact Hrow|]. split; [|exact Hlen].
  destruct row; [simpl in Hlen; lia | discriminate].
Qed.

Lemma power_coef_Ok DATA u row :
  nth_error DATA u = Some row -> (2 <= length row)%nat ->
  power_coef DATA (Z.of_nat u) = Py.Ok (power DATA u).
Proof.
  intros Hrow Hlen. unfold power_coef, power, cell. rewrite getitem_nat, Hrow.
  rewrite (nth_error_nth _ _ [] Hrow). simpl.
  change (-2) with (- Z.of_nat 2). rewrite getitem_from_end by lia.
  destruct (Nat.leb_spec 2 (length row)) as [_|H]; [|lia].
  rewrite (nth_error_nth' row 0) by lia. simpl.
  rewrite (getitem_last row 0). destruct row; [simpl in Hlen; lia | reflexivity].
Qed.

Lemma power_coef_Ok_inv DATA u c :
  power_coef DATA (Z.of_nat u) = Py.Ok c ->
  exists row, nth_error DATA u = Some row /\ (2 <= length row)%nat.
Proof.
  unfold power_coef, cell. rewrite getitem_nat.
  destruct (nth_error DATA u) as [row|]; [|discriminate]. simpl.
  change (-2) with (- Z.of_nat 2). rewrite getitem_from_end by lia.
  destruct (Nat.leb_spec 2 (length row)) as [H|_]; [|discriminate].
  intros _. exists row. split; [reflexivity | exact H].
Qed.

Lemma cost_coef_Ok DATA u row :
  nth_error DATA u = Some row -> (3 <= length row)%nat ->
  cost_coef DATA (Z.of_nat u) = Py.Ok (cost DATA u).
Proof.
  intros Hrow Hlen. unfold cost_coef, cost, entry.
  change 0 with (Z.of_nat 0) at 1. change 1 with (Z.of_nat 1). change 2 with (Z.of_nat 2).
  rewrite !cell_front, Hrow, (nth_error_nth _ _ [] Hrow).
  destruct row as [|food [|wood [|gold row]]]; simpl in Hlen; try lia.
  reflexivity.
Qed.

Lemma cost_coef_Ok_inv DATA u c :
  cost_coef DATA (Z.of_nat u) = Py.Ok c ->
  exists row, nth_error DATA u = Some row /\ (3 <= length row)%nat.
Proof.
  unfold cost_coef.
  change 0 with (Z.of_nat 0) at 1. change 1 with (Z.of_nat 1). change 2 with (Z.of_nat 2).
  destruct (cell DATA (Z.of_nat u) (Z.of_nat 0)) as [food|]; [|discriminate].
  destruct (cell DATA (Z.of_nat u) (Z.of_nat 1)) as [wood|]; [|discriminate].
  destruct (cell DATA (Z.of_nat u) (Z.of_nat 2)) as [gold|] eqn:Hg; [|discriminate].
  intros _. apply cell_front_Ok in Hg. destruct Hg as [_ [row [Hrow Hlt]]].
  exists row. split; [exact Hrow | lia].
Qed.

Lemma sum_power_Ok DATA n :
  rows_have n DATA 2 ->
  sum_terms (power_coef DATA) (seq 0 n) = Py.Ok (terms (power DATA) n).
Proof.
  intros H. apply sum_terms_Ok. intros u Hu.
  destruct (H u Hu) as [row [Hrow Hlen]]. eapply power_coef_Ok; eassumption.
Qed.

Lemma sum_power_Ok_inv DATA n e :
  sum_terms (power_coef DATA) (seq 0 n) = Py.Ok e -> rows_have n DATA 2.
Proof.
  intros H u Hu. destruct (sum_terms_Ok_all _ _ _ H u Hu) as [c Hc].
  eapply power_coef_Ok_inv, Hc.
Qed.

Lemma sum_cost_Ok DATA n :
  rows_have n DATA 3 ->
  sum_terms (cost_coef DATA) (seq 0 n) = Py.Ok (terms (cost DATA) n).
Proof.
  intros H. apply sum_terms_Ok. intros u Hu.
  destruct (H u Hu) as [row [Hrow Hlen]]. eapply cost_coef_Ok; eassumption.
Qed.

Lemma sum_cost_Ok_inv DATA n e :
  sum_terms (cost_coef DATA) (seq 0 n) = Py.Ok e -> rows_have n DATA 3.
Proof.
  intros H u Hu. destruct (sum_terms_Ok_all _ _ _ H u Hu) as [c Hc].
  eapply cost_coef_Ok_inv, Hc.
Qed.

Lemma resource_loop_Ok DATA RESOURCES n :
  rows_have n DATA (length RESOURCES) ->
  Py.mapM (eval_resource_constraint DATA RESOURCES n) (seq 0 (length RESOURCES))
  = Py.Ok (resource_constraints DATA RESOURCES n).
Proof.
  intros H. unfold resource_constraints. apply mapM_Ok_map.
  intros r Hr. apply in_seq in Hr.
  apply indexable_resource_constraint; [|lia].
  apply rows_have_indexable; [lia | exact H].
Qed.

(** A resource loop that ran through only tells about rows when there is a
    resource to look up. *)
Lemma resource_loop_Ok_inv DATA RESOURCES n cs :
  Py.mapM (eval_resource_constraint DATA RESOURCES n) (seq 0 (length RESOURCES)) = Py.Ok cs ->
  forall u, (u < n)%nat -> (0 < length RESOURCES)%nat ->
    exists row, nth_error DATA u = Some row /\ (length RESOURCES <= length row)%nat.
Proof.
  intros Hcs u Hu Hk.
  destruct (length RESOURCES) as [|k] eqn:Hlen; [lia|].
  destruct (mapM_Ok_all _ _ _ Hcs k) as [y Hy]; [apply in_seq; lia|].
  unfold eval_resource_constraint in Hy.
  destruct (sum_terms (fun u0 => cell DATA u0 (Z.of_nat k)) (seq 0 n))
    as [lhs|] eqn:Hlhs; [|discriminate].
  destruct (sum_terms_Ok_all _ _ _ Hlhs u Hu) as [c Hc].
  apply cell_front_Ok in Hc. destruct Hc as [_ [row [Hrow Hlt]]].
  exists row. split; [exact Hrow | lia].
Qed.

Lemma rows_have_with_resources DATA RESOURCES n k cs :
  rows_have n DATA k ->
  Py.mapM (eval_resource_constraint DATA RESOURCES n) (seq 0 (length RESOURCES)) = Py.Ok cs ->
  rows_have n DATA (Nat.max k (length RESOURCES)).
Proof.
  intros Hk Hcs u Hu. destruct (Hk u Hu) as [row [Hrow Hlen]].
  exists row. split; [exact Hrow|].
  destruct (Nat.eq_dec (length RESOURCES) 0) as [HR|HR]; [lia|].
  destruct (resource_loop_Ok_inv _ _ _ _ Hcs u Hu ltac:(lia)) as [row' [Hrow' Hlen']].
  rewrite Hrow in Hrow'. injection Hrow' as <-. lia.
Qed.

(** *** Second definition *)

Lemma max_power_attack_build_run UNITS DATA RESOURCES :
  match Py.mapM (eval_resource_constraint DATA RESOURCES (length UNITS))
                (seq 0 (length RESOURCES)),
        sum_terms (power_coef DATA) (seq 0 (length UNITS)) with
  | Py.Ok cs, Py.Ok obj =>
      MaxPowerAttack.build UNITS DATA RESOURCES empty_model =
      ({| variables := map unit_var UNITS;
          constraints := cs;
          objective := Some (Maximize, obj) |},
       Py.Ok (seq 0 (length UNITS)))
  | _, _ =>
      snd (MaxPowerAttack.build UNITS DATA RESOURCES empty_model) = Py.Raise Py.IndexError
  end.
Proof.
  unfold MaxPowerAttack.build. rewrite bind_run, collect_IntVar.
  cbn [variables constraints objective empty_model app length].
  rewrite bind_run.
  rewrite (for_each_enumerate
             (fun r => (lhs <- lift (sum_terms (fun u => cell DATA u r) (seq 0 (length UNITS))) ;;
                        cap <- lift (Py.getitem RESOURCES r) ;;
                        Add (LinLe lhs cap))%st)).
  run_loop (eval_resource_constraint DATA RESOURCES (length UNITS))
           (fun x m' => max_power_body DATA RESOURCES (length UNITS) x m').
  rewrite bind_lift.
  destruct (sum_terms _ _) as [obj|e]; [reflexivity | raise_index].
Qed.

Lemma max_power_attack_build_ok UNITS DATA RESOURCES :
  rows_have (length UNITS) DATA (Nat.max 2 (length RESOURCES)) ->
  MaxPowerAttack.build UNITS DATA RESOURCES empty_model =
  ({| variables := map unit_var UNITS;
      constraints := resource_constraints DATA RESOURCES (length UNITS);
      objective := Some (Maximize, terms (power DATA) (length UNITS)) |},
   Py.Ok (seq 0 (length UNITS))).
Proof.
  intros H. pose proof (max_power_attack_build_run UNITS DATA RESOURCES) as Hrun.
  rewrite resource_loop_Ok in Hrun by (eapply rows_have_le; [|exact H]; lia).
  rewrite sum_power_Ok in Hrun by (eapply rows_have_le; [|exact H]; lia).
  exact Hrun.
Qed.

Lemma max_power_attack_build_raises UNITS DATA RESOURCES :
  ~ rows_have (length UNITS) DATA (Nat.max 2 (length RESOURCES)) ->
  snd (MaxPowerAttack.build UNITS DATA RESOURCES empty_model) = Py.Raise Py.IndexError.
Proof.
  intros Hn. pose proof (max_power_attack_build_run UNITS DATA RESOURCES) as Hrun.
  destruct (Py.mapM _ _) as [cs|e] eqn:Hcs; [|exact Hrun].
  destruct (sum_terms _ _) as [obj|e] eqn:Hobj; [|exact Hrun].
  exfalso. apply Hn. eapply rows_have_with_resources; [|exact Hcs].
  eapply sum_power_Ok_inv, Hobj.
Qed.

(** *** Third definition *)

Lemma min_resources_build_run UNITS DATA RESOURCES :
  match sum_terms (power_coef DATA) (seq 0 (length UNITS)),
        sum_terms (cost_coef DATA) (seq 0 (length UNITS)) with
  | Py.Ok lhs, Py.Ok obj =>
      MinResources.build UNITS DATA RESOURCES empty_model =
      ({| variables := map unit_var UNITS;
          constraints := [LinGe lhs 1000001];
          objective := Some (Minimize, obj) |},
       Py.Ok (seq 0 (length UNITS)))
  | _, _ =>
      snd (MinResources.build UNITS DATA RESOURCES empty_model) = Py.Raise Py.IndexError
  end.
Proof.
  unfold MinResources.build. rewrite bind_run, collect_IntVar.
  cbn [variables constraints objective empty_model app length].
  rewrite bind_lift.
  destruct (sum_terms (power_coef DATA) _) as [lhs|e]; [|raise_index].
  rewrite bind_run. cbn [Add variables constraints objective app].
  rewrite bind_lift.
  destruct (sum_terms _ _) as [obj|e]; [reflexivity | raise_index].
Qed.

Lemma min_resources_build_ok UNITS DATA RESOURCES :
  rows_have (length UNITS) DATA 3 ->
  MinResources.build UNITS DATA RESOURCES empty_model =
  ({| variables := map unit_var UNITS;
      constraints := [power_constraint DATA (length UNITS)];
      objective := Some (Minimize, terms (cost DATA) (length UNITS)) |},
   Py.Ok (seq 0 (length UNITS))).
Proof.
  intros H. pose proof (min_resources_build_run UNITS DATA RESOURCES) as Hrun.
  rewrite sum_power_Ok in Hrun by (eapply rows_have_le; [|exact H]; lia).
  rewrite sum_cost_Ok in Hrun by exact H.
  exact Hrun.
Qed.

Lemma min_resources_build_raises UNITS DATA RESOURCES :
  ~ rows_have (length UNITS) DATA 3 ->
  snd (MinResources.build UNITS DATA RESOURCES empty_model) = Py.Raise Py.IndexError.
Proof.
  intros Hn. pose proof (min_resources_build_run UNITS DATA RESOURCES) as Hrun.
  destruct (sum_terms (power_coef DATA) _) as [lhs|e] eqn:Hlhs; [|exact Hrun].
  destruct (sum_terms (cost_coef DATA) _) as [obj|e] eqn:Hobj; [|exact Hrun].
  exfalso. apply Hn. eapply sum_cost_Ok_inv, Hobj.
Qed.

(** *** Fourth definition *)

Lemma repeated_power_Ok DATA n k :
  rows_have n DATA 2 ->
  Py.mapM (fun _ : nat => eval_power_constraint DATA n) (seq 0 k)
  = Py.Ok (map (fun _ => power_constraint DATA n) (seq 0 k)).
Proof.
  intros H. apply mapM_Ok_map. intros r _.
  unfold eval_power_constraint. rewrite (sum_power_Ok _ _ H). reflexivity.
Qed.

Lemma combined_build_ok UNITS DATA RESOURCES :
  rows_have (length UNITS) DATA (Nat.max 3 (length RESOURCES)) ->
  Combined.build UNITS DATA RESOURCES empty_model =
  ({| variables := map unit_var UNITS;
      constraints :=
        map (fun _ => power_constraint DATA (length UNITS)) (seq 0 (length RESOURCES))
        ++ resource_constraints DATA RESOURCES (length UNITS);
      objective := Some (Minimize, terms (cost DATA) (length UNITS)) |},
   Py.Ok (seq 0 (length UNITS))).
Proof.
  intros H. pose proof (combined_build_run UNITS DATA RESOURCES) as Hrun.
  rewrite repeated_power_Ok in Hrun by (eapply rows_have_le; [|exact H]; lia).
  rewrite resource_loop_Ok in Hrun by (eapply rows_have_le; [|exact H]; lia).
  rewrite sum_cost_Ok in Hrun by (eapply rows_have_le; [|exact H]; lia).
  exact Hrun.
Qed.

Lemma combined_build_raises UNITS DATA RESOURCES :
  ~ rows_have (length UNITS) DATA (Nat.max 3 (length RESOURCES)) ->
  snd (Combined.build UNITS DATA RESOURCES empty_model) = Py.Raise Py.IndexError.
Proof.
  intros Hn. pose proof (combined_build_run UNITS DATA RESOURCES) as Hrun.
  destruct (Py.mapM (fun _ : nat => _) _) as [pcs|e] eqn:Hpcs; [|exact Hrun].
  destruct (Py.mapM (eval_resource_constraint _ _ _) _) as [cs|e] eqn:Hcs; [|exact Hrun].
  destruct (sum_terms _ _) as [obj|e] eqn:Hobj; [|exact Hrun].
  exfalso. apply Hn. eapply rows_have_with_resources; [|exact Hcs].
  eapply sum_cost_Ok_inv, Hobj.
Qed.

(** *** Calls of the second, third and fourth definitions *)

Lemma solve_army_raises_when_build_does {num} {A} (b : model * Py.result A)
  (k : model -> A -> st (stdout num) (pyvalue num)) out :
  snd b = Py.Raise Py.IndexError ->
  match b with
  | (solver, Py.Ok units) => k solver units
  | (_, Py.Raise e) => lift (Py.Raise e)
  end out = (out, Py.Raise Py.IndexError).
Proof. destruct b as [s r]. simpl. intros ->. reflexivity. Qed.

Lemma sum_values_Ok {num} (ops : numeric num) (a : mp_answer num)
  (coef : Z -> Py.result Z) (h : nat -> Z) n :
  (forall u, (u < n)%nat -> coef (Z.of_nat u) = Py.Ok (h u)) ->
  sum_values ops a coef (seq 0 n) =
  Py.Ok (fold_left (num_add ops)
           (map (fun u => num_mul ops (num_of_int ops (h u)) (solution_value a u)) (seq 0 n))
           (num_of_int ops 0)).
Proof.
  intros H. unfold sum_values.
  rewrite (mapM_enumerate
             (fun u => (c <- coef u ;;
                        x <- Py.getitem (seq 0 n) u ;;
                        Py.Ok (num_mul ops (num_of_int ops c) (solution_value a x)))%py)).
  rewrite length_seq.
  rewrite (mapM_Ok_map _
             (fun u => num_mul ops (num_of_int ops (h u)) (solution_value a u))).
  - reflexivity.
  - intros u Hu. apply in_seq in Hu. rewrite H by lia. simpl.
    rewrite getitem_nat, nth_error_seq.
    destruct (Nat.ltb_spec u n) as [_|Hge]; [reflexivity | lia].
Qed.

Lemma cell_column_Ok DATA n k (r : nat) :
  rows_have n DATA k -> (r < k)%nat ->
  forall u, (u < n)%nat -> cell DATA (Z.of_nat u) (Z.of_nat r) = Py.Ok (entry DATA u r).
Proof.
  intros H Hr u Hu. destruct (H u Hu) as [row [Hrow Hlen]].
  rewrite cell_front, Hrow. unfold entry.
  rewrite (nth_error_nth _ _ [] Hrow), (nth_error_nth' row 0) by lia. reflexivity.
Qed.

(** The look-ups of the printing half repeat those of the build: with rows
    of three entries or more none of them can fail. *)
Lemma min_report_never_raises {num} (ops : numeric num) DATA solver (a : mp_answer num) n out :
  rows_have n DATA 3 ->
  snd (min_report ops DATA solver a (seq 0 n) out) = Py.Ok tt.
Proof.
  intros H. unfold min_report.
  destruct (mp_status_eqb (mp_result a) MP_OPTIMAL); [|reflexivity].
  unfold bind, print, lift. cbv beta iota.
  rewrite (sum_values_Ok ops a (power_coef DATA) (power DATA)).
  2:{ intros u Hu. destruct (H u Hu) as [row [Hrow Hlen]].
      apply (power_coef_Ok DATA u row Hrow). lia. }
  rewrite print_units_run.
  change 0 with (Z.of_nat 0) at 1. change 1 with (Z.of_nat 1). change 2 with (Z.of_nat 2).
  rewrite (sum_values_Ok ops a (fun u => cell DATA u (Z.of_nat 0)) (fun u => entry DATA u 0))
    by (apply (cell_column_Ok DATA n 3 0 H); lia).
  rewrite (sum_values_Ok ops a (fun u => cell DATA u (Z.of_nat 1)) (fun u => entry DATA u 1))
    by (apply (cell_column_Ok DATA n 3 1 H); lia).
  rewrite (sum_values_Ok ops a (fun u => cell DATA u (Z.of_nat 2)) (fun u => entry DATA u 2))
    by (apply (cell_column_Ok DATA n 3 2 H); lia).
  reflexivity.
Qed.

(** X1. On inputs the solver keeps as given (at least one unit, names
    non-empty and distinct, numbers of magnitude at most [2 ^ 49]) the
    second [solve_army] (objective [10 * attack + health]) completes,
    returning [None], exactly when each of the first [len(UNITS)] rows of
    [DATA] exists and has at least two and at least [len(RESOURCES)]
    entries; its model then has the resource constraints of the first
    definition and the objective coefficient [10 * DATA[u][-2] + DATA[u][-1]]
    for each unit.  Otherwise the call raises [IndexError] and prints
    nothing. *)
Theorem max_power_attack_solve_army {num} (Solve : model -> mp_answer num)
  UNITS DATA RESOURCES out :
  stored_as_given (2 ^ 49) UNITS DATA RESOURCES ->
  (rows_have (length UNITS) DATA (Nat.max 2 (length RESOURCES)) ->
   MaxPowerAttack.build UNITS DATA RESOURCES empty_model =
   ({| variables := map unit_var UNITS;
       constraints := resource_constraints DATA RESOURCES (length UNITS);
       objective := Some (Maximize, terms (power DATA) (length UNITS)) |},
    Py.Ok (seq 0 (length UNITS))) /\
   snd (MaxPowerAttack.solve_army Solve UNITS DATA RESOURCES out) = Py.Ok PyNone) /\
  (~ rows_have (length UNITS) DATA (Nat.max 2 (length RESOURCES)) ->
   MaxPowerAttack.solve_army Solve UNITS DATA RESOURCES out = (out, Py.Raise Py.IndexError)).
Proof.
  intros _. split.
  - intros H. split; [apply max_power_attack_build_ok, H|].
    unfold MaxPowerAttack.solve_army. rewrite (max_power_attack_build_ok _ _ _ H).
    rewrite bind_run, max_power_report_run. reflexivity.
  - intros Hn. apply solve_army_raises_when_build_does.
    apply max_power_attack_build_raises, Hn.
Qed.

Lemma ten_units_rows : rows_have (length TenUnits.UNITS) TenUnits.DATA 5.
Proof. apply rows_have_iff. reflexivity. Qed.

Lemma max_power_attack_solve_army_witness :
  snd (MaxPowerAttack.solve_army (fun _ => mp_sample MP_INFEASIBLE 0 [])
         TenUnits.UNITS TenUnits.DATA TenUnits.RESOURCES [])
  = Py.Ok PyNone /\
  MaxPowerAttack.solve_army (fun _ => mp_sample MP_INFEASIBLE 0 [])
    ["a"%string] [[5]] [] []
  = ([], Py.Raise Py.IndexError).
Proof.
  split.
  - refine (proj2 (proj1 (max_power_attack_solve_army _ TenUnits.UNITS TenUnits.DATA
                            TenUnits.RESOURCES [] ten_units_stored) _)).
    eapply rows_have_le; [|exact ten_units_rows]. simpl. lia.
  - refine (proj2 (max_power_attack_solve_army _ ["a"%string] [[5]] [] [] _) _).
    + apply stored_as_given_check. vm_compute. reflexivity.
    + intros H. apply rows_have_iff in H. discriminate H.
Defined.

(** X2. The third [solve_army] (cheapest army above the power bound) never
    looks at [RESOURCES].  On inputs the solver keeps as given (at least
    one unit, names non-empty and distinct, numbers of magnitude at most
    [2 ^ 49]) it completes, returning [None], exactly when each of the
    first [len(UNITS)] rows of [DATA] exists and has at least three
    entries; its model then has the single constraint
    [sum (10 * DATA[u][-2] + DATA[u][-1]) * units[u] >= 1000001] and
    minimises [DATA[u][0] + DATA[u][1] + DATA[u][2]] per unit, and the
    look-ups of its printing half cannot fail.  Otherwise the call raises
    [IndexError] and prints nothing. *)
Theorem min_resources_solve_army {num} (ops : numeric num) (Solve : model -> mp_answer num)
  UNITS DATA RESOURCES out :
  stored_as_given (2 ^ 49) UNITS DATA RESOURCES ->
  (rows_have (length UNITS) DATA 3 ->
   MinResources.build UNITS DATA RESOURCES empty_model =
   ({| variables := map unit_var UNITS;
       constraints := [power_constraint DATA (length UNITS)];
       objective := Some (Minimize, terms (cost DATA) (length UNITS)) |},
    Py.Ok (seq 0 (length UNITS))) /\
   snd (MinResources.solve_army ops Solve UNITS DATA RESOURCES out) = Py.Ok PyNone) /\
  (~ rows_have (length UNITS) DATA 3 ->
   MinResources.solve_army ops Solve UNITS DATA RESOURCES out
   = (out, Py.Raise Py.IndexError)).
Proof.
  intros _. split.
  - intros H. split; [apply min_resources_build_ok, H|].
    unfold MinResources.solve_army. rewrite (min_resources_build_ok _ _ _ H).
    rewrite bind_run.
    match goal with
    | |- context [min_report ops DATA ?s ?a ?us out] =>
        pose proof (min_report_never_raises ops DATA s a (length UNITS) out H) as Hrep;
        destruct (min_report ops DATA s a us out) as [out' res]
    end.
    simpl in Hrep. subst res. reflexivity.
  - intros Hn. apply solve_army_raises_when_build_does.
    apply min_resources_build_raises, Hn.
Qed.

Lemma min_resources_solve_army_witness :
  snd (MinResources.solve_army Z_numeric (fun _ => mp_sample MP_OPTIMAL 111300 [0; 0; 0; 0; 0; 0; 0; 371])
         TenUnits.UNITS TenUnits.DATA TenUnits.RESOURCES [])
  = Py.Ok PyNone /\
  MinResources.solve_army Z_numeric (fun _ => mp_sample MP_OPTIMAL 0 [])
    MaxPower.UNITS [[60; 20; 0; 70]; [80; 10]] MaxPower.RESOURCES []
  = ([], Py.Raise Py.IndexError).
Proof.
  split.
  - refine (proj2 (proj1 (min_resources_solve_army Z_numeric _ TenUnits.UNITS TenUnits.DATA
                            TenUnits.RESOURCES [] ten_units_stored) _)).
    eapply rows_have_le; [|exact ten_units_rows]. lia.
  - refine (proj2 (min_resources_solve_army Z_numeric _ MaxPower.UNITS
                     [[60; 20; 0; 70]; [80; 10]] MaxPower.RESOURCES [] _) _).
    + apply stored_as_given_check. vm_compute. reflexivity.
    + intros H. apply rows_have_iff in H. discriminate H.
Defined.

(** X3. On inputs the solver keeps as given (at least one unit, names
    non-empty and distinct, numbers of magnitude at most [2 ^ 49]) the
    combined [solve_army] completes, returning [None], exactly when each of
    the first [len(UNITS)] rows of [DATA] exists and has at least three and
    at least [len(RESOURCES)] entries; the look-ups of its printing half
    then cannot fail.  Otherwise the call raises [IndexError] and prints
    nothing. *)
Theorem combined_solve_army {num} (ops : numeric num) (Solve : model -> mp_answer num)
  UNITS DATA RESOURCES out :
  stored_as_given (2 ^ 49) UNITS DATA RESOURCES ->
  (rows_have (length UNITS) DATA (Nat.max 3 (length RESOURCES)) ->
   (exists m, Combined.build UNITS DATA RESOURCES empty_model
              = (m, Py.Ok (seq 0 (length UNITS)))) /\
   snd (Combined.solve_army ops Solve UNITS DATA RESOURCES out) = Py.Ok PyNone) /\
  (~ rows_have (length UNITS) DATA (Nat.max 3 (length RESOURCES)) ->
   Combined.solve_army ops Solve UNITS DATA RESOURCES out
   = (out, Py.Raise Py.IndexError)).
Proof.
  intros _. split.
  - intros H. split; [eexists; apply combined_build_ok, H|].
    unfold Combined.solve_army. rewrite (combined_build_ok _ _ _ H).
    rewrite bind_run.
    assert (H3 : rows_have (length UNITS) DATA 3)
      by (eapply rows_have_le; [|exact H]; lia).
    match goal with
    | |- context [min_report ops DATA ?s ?a ?us out] =>
        pose proof (min_report_never_raises ops DATA s a (length UNITS) out H3) as Hrep;
        destruct (min_report ops DATA s a us out) as [out' res]
    end.
    simpl in Hrep. subst res. reflexivity.
  - intros Hn. apply solve_army_raises_when_build_does.
    apply combined_build_raises, Hn.
Qed.

Lemma combined_solve_army_witness :
  snd (Combined.solve_army Z_numeric (fun _ => mp_sample MP_OPTIMAL 172100 [1; 681; 0; 0; 0; 0; 0; 301])
         TenUnits.UNITS TenUnits.DATA TenUnits.RESOURCES [])
  = Py.Ok PyNone /\
  Combined.solve_army Z_numeric (fun _ => mp_sample MP_OPTIMAL 0 [])
    MaxPower.UNITS MaxPower.DATA [1; 2; 3; 4; 5] []
  = ([], Py.Raise Py.IndexError).
Proof.
  split.
  - refine (proj2 (proj1 (combined_solve_army Z_numeric _ TenUnits.UNITS TenUnits.DATA
                            TenUnits.RESOURCES [] ten_units_stored) _)).
    eapply rows_have_le; [|exact ten_units_rows]. simpl. lia.
  - refine (proj2 (combined_solve_army Z_numeric _ MaxPower.UNITS MaxPower.DATA
                     [1; 2; 3; 4; 5] [] _) _).
    + apply stored_as_given_check. vm_compute. reflexivity.
    + intros H. apply rows_have_iff in H. discriminate H.
Defined.

(** ** Which statuses count as success *)

Lemma success_excludes_failure {num} (lines : list (line num)) (msg : line num)
  (run : st (stdout num) unit) :
  msg <> banner -> takes_success lines run -> takes_failure msg run -> False.
Proof.
  intros Hmsg Hs Hf. pose proof (Hs []) as H. rewrite (Hf []) in H.
  simpl in H. apply Hmsg. congruence.
Qed.

(** A cell that prints [banner :: lines] when [b] holds and the line [msg]
    otherwise takes its success branch exactly when [b] holds. *)
Lemma branch_iff {num} (lines : list (line num)) (msg : line num)
  (run : st (stdout num) unit) (b : bool) :
  msg <> banner ->
  (forall out, run out = (out ++ (if b then banner :: lines else [msg]), Py.Ok tt)) ->
  (takes_success lines run <-> b = true) /\ (takes_failure msg run <-> b = false).
Proof.
  intros Hmsg Hrun. destruct b.
  - split; split.
    + reflexivity.
    + intros _. exact Hrun.
    + intros Hf. exfalso. exact (success_excludes_failure lines msg run Hmsg Hrun Hf).
    + discriminate.
  - split; split.
    + intros Hs. exfalso. exact (success_excludes_failure lines msg run Hmsg Hs Hrun).
    + discriminate.
    + reflexivity.
    + intros _. exact Hrun.
Qed.

Lemma no_optimum_not_banner {num} : @no_optimum num <> banner.
Proof. discriminate. Qed.

Lemma no_solution_not_banner {num} : @no_solution num <> banner.
Proof. discriminate. Qed.

Lemma mp_status_neq s t : mp_status_eqb s t = false <-> s <> t.
Proof.
  split.
  - intros H Heq. apply mp_status_eqb_eq in Heq. congruence.
  - intros H. destruct (mp_status_eqb s t) eqn:E; [|reflexivity].
    apply mp_status_eqb_eq in E. contradiction.
Qed.

Lemma cp_status_neq s t : cp_status_eqb s t = false <-> s <> t.
Proof.
  split.
  - intros H Heq. apply cp_status_eqb_eq in Heq. congruence.
  - intros H. destruct (cp_status_eqb s t) eqn:E; [|reflexivity].
    apply cp_status_eqb_eq in E. contradiction.
Qed.

Lemma army_cell_report_run {num} label (a : mp_answer num) s b h out :
  ArmyCell.report label a s b h out =
  (out ++
     (if mp_status_eqb (mp_result a) MP_OPTIMAL then
        banner ::
        [solved_in a; [];
         [Lit label; Num (mp_objective a); Lit " 💪power"%string];
         [Lit "Army:"%string];
         [Lit " - 🗡️Swordsmen = "%string; Num (solution_value a s)];
         [Lit " - 🏹Bowmen = "%string; Num (solution_value a b)];
         [Lit " - 🐎Horsemen = "%string; Num (solution_value a h)]]
      else [no_optimum]),
   Py.Ok tt).
Proof.
  unfold ArmyCell.report. destruct (mp_status_eqb (mp_result a) MP_OPTIMAL).
  - unfold bind, print. cbv beta iota. rewrite <- !app_assoc. reflexivity.
  - reflexivity.
Qed.

Lemma min_report_run {num} (ops : numeric num) DATA solver (a : mp_answer num) n out :
  rows_have n DATA 3 ->
  min_report ops DATA solver a (seq 0 n) out =
  (out ++
     (if mp_status_eqb (mp_result a) MP_OPTIMAL then
        banner ::
        [solved_in a; [];
         [Lit "Optimal value = "%string; Num (mp_objective a);
          Lit " 🌾🪵🪙resources"%string];
         [Lit "Power = 💪"%string; Num (weighted_sum ops a (power DATA) n)];
         [Lit "Army:"%string]] ++
        map (fun x => [Lit " - "%string; Lit (name solver x); Lit " = "%string;
                       Num (solution_value a x)]) (seq 0 n) ++
        [[]; [Lit "Resources:"%string];
         [Lit " - 🌾Food = "%string; Num (weighted_sum ops a (fun u => entry DATA u 0) n)];
         [Lit " - 🪵Wood = "%string; Num (weighted_sum ops a (fun u => entry DATA u 1) n)];
         [Lit " - 🪙Gold = "%string; Num (weighted_sum ops a (fun u => entry DATA u 2) n)]]
      else [no_optimum]),
   Py.Ok tt).
Proof.
  intros H. unfold min_report.
  destruct (mp_status_eqb (mp_result a) MP_OPTIMAL); [|reflexivity].
  unfold bind, print, lift. cbv beta iota.
  rewrite (sum_values_Ok ops a (power_coef DATA) (power DATA)).
  2:{ intros u Hu. destruct (H u Hu) as [row [Hrow Hlen]].
      apply (power_coef_Ok DATA u row Hrow). lia. }
  rewrite print_units_run.
  change 0 with (Z.of_nat 0) at 1. change 1 with (Z.of_nat 1). change 2 with (Z.of_nat 2).
  rewrite (sum_values_Ok ops a (fun u => cell DATA u (Z.of_nat 0)) (fun u => entry DATA u 0))
    by (apply (cell_column_Ok DATA n 3 0 H); lia).
  rewrite (sum_values_Ok ops a (fun u => cell DATA u (Z.of_nat 1)) (fun u => entry DATA u 1))
    by (apply (cell_column_Ok DATA n 3 1 H); lia).
  rewrite (sum_values_Ok ops a (fun u => cell DATA u (Z.of_nat 2)) (fun u => entry DATA u 2))
    by (apply (cell_column_Ok DATA n 3 2 H); lia).
  unfold resource_line, weighted_sum, unit_line.
  rewrite <- !app_assoc. reflexivity.
Qed.

Lemma rations_report_run {num} (a : cp_answer num) bread meat beer out :
  Rations.report a bread meat beer out =
  (out ++
     (if cp_status_eqb (cp_result a) CP_OPTIMAL then
        banner ::
        [cp_solved_in a; [];
         [Lit "Optimal value = "%string;
          Int (3 * Value a bread + 10 * Value a meat + 26 * Value a beer);
          Lit " popularity"%string];
         [Lit "Food:"%string];
         [Lit " - 🥖Bread = "%string; Int (Value a bread)];
         [Lit " - 🥩Meat  = "%string; Int (Value a meat)];
         [Lit " - 🍺Beer  = "%string; Int (Value a beer)]]
      else [no_optimum]),
   Py.Ok tt).
Proof.
  unfold Rations.report. destruct (cp_status_eqb (cp_result a) CP_OPTIMAL).
  - unfold bind, print. cbv beta iota. rewrite <- !app_assoc. reflexivity.
  - reflexivity.
Qed.

Lemma army_size_report_run {num} (a : cp_answer num) army out :
  ArmySize.report a army out =
  (out ++
     (if cp_status_eqb (cp_result a) CP_OPTIMAL || cp_status_eqb (cp_result a) CP_FEASIBLE then
        banner ::
        [cp_solved_in a; [];
         [Lit "🪖 Army = "%string; Int (Value a army)];
         [];
         [Lit "Check solution:"%string];
         [Lit " - Constraint 1: "%string; Int (Value a army);
          Lit " % 13 = "%string; Int (Value a army mod 13)];
         [Lit " - Constraint 2: "%string; Int (Value a army);
          Lit " % 19 = "%string; Int (Value a army mod 19)];
         [Lit " - Constraint 3: "%string; Int (Value a army);
          Lit " % 37 = "%string; Int (Value a army mod 37)]]
      else [no_solution]),
   Py.Ok tt).
Proof.
  unfold ArmySize.report.
  destruct (cp_status_eqb (cp_result a) CP_OPTIMAL || cp_status_eqb (cp_result a) CP_FEASIBLE).
  - unfold bind, print. cbv beta iota. rewrite <- !app_assoc. reflexivity.
  - reflexivity.
Qed.

Lemma sat_statuses s :
  (cp_status_eqb s CP_OPTIMAL || cp_status_eqb s CP_FEASIBLE = true
   <-> s = CP_OPTIMAL \/ s = CP_FEASIBLE) /\
  (cp_status_eqb s CP_OPTIMAL || cp_status_eqb s CP_FEASIBLE = false
   <-> s <> CP_OPTIMAL /\ s <> CP_FEASIBLE).
Proof.
  rewrite orb_true_iff, orb_false_iff, !cp_status_eqb_eq, !cp_status_neq. tauto.
Qed.

(** C10. Every optimisation cell (the hand-written army cell and the
    hidden first cell, the four definitions of [solve_army], the ration
    cell) prints its solution (the banner, the timing, the objective value
    and one line per variable, and for the minimising definitions the power
    and the resources spent) and completes exactly when the status is
    [OPTIMAL]; on every other status, [FEASIBLE] included, it prints the
    failure line and nothing else.  The satisfiability cell prints its
    solution exactly when the status is [OPTIMAL] or [FEASIBLE].  The
    printing halves of [solve_army] are taken as the function runs them:
    on variables of the solver created with non-empty names and, in the
    minimising definitions, on a table whose rows have the three entries
    the build has already read, of magnitude at most [2 ^ 49]. *)
Theorem success_branch_statuses {num} (ops : numeric num) :
  (forall label (a : mp_answer num) s b h,
      (takes_success
         [solved_in a; [];
          [Lit label; Num (mp_objective a); Lit " 💪power"%string];
          [Lit "Army:"%string];
          [Lit " - 🗡️Swordsmen = "%string; Num (solution_value a s)];
          [Lit " - 🏹Bowmen = "%string; Num (solution_value a b)];
          [Lit " - 🐎Horsemen = "%string; Num (solution_value a h)]]
         (ArmyCell.report label a s b h)
       <-> mp_result a = MP_OPTIMAL) /\
      (takes_failure no_optimum (ArmyCell.report label a s b h)
       <-> mp_result a <> MP_OPTIMAL)) /\
  (forall solver (a : mp_answer num) units,
      named solver units ->
      (takes_success
         ([solved_in a; [];
           [Lit "Optimal value = "%string; Num (mp_objective a); Lit " 💪power"%string];
           [Lit "Army:"%string]] ++
          map (fun x => [Lit " - "%string; Lit (name solver x); Lit " = "%string;
                         Num (solution_value a x)]) units)
         (MaxPower.report solver a units)
       <-> mp_result a = MP_OPTIMAL) /\
      (takes_failure no_optimum (MaxPower.report solver a units)
       <-> mp_result a <> MP_OPTIMAL)) /\
  (forall DATA solver (a : mp_answer num) n,
      rows_have n DATA 3 ->
      Forall (Forall (within (2 ^ 49))) DATA ->
      named solver (seq 0 n) ->
      (takes_success
         ([solved_in a; [];
           [Lit "Optimal value = "%string; Num (mp_objective a);
            Lit " 🌾🪵🪙resources"%string];
           [Lit "Power = 💪"%string; Num (weighted_sum ops a (power DATA) n)];
           [Lit "Army:"%string]] ++
          map (fun x => [Lit " - "%string; Lit (name solver x); Lit " = "%string;
                         Num (solution_value a x)]) (seq 0 n) ++
          [[]; [Lit "Resources:"%string];
           [Lit " - 🌾Food = "%string;
            Num (weighted_sum ops a (fun u => entry DATA u 0) n)];
           [Lit " - 🪵Wood = "%string;
            Num (weighted_sum ops a (fun u => entry DATA u 1) n)];
           [Lit " - 🪙Gold = "%string;
            Num (weighted_sum ops a (fun u => entry DATA u 2) n)]])
         (min_report ops DATA solver a (seq 0 n))
       <-> mp_result a = MP_OPTIMAL) /\
      (takes_failure no_optimum (min_report ops DATA solver a (seq 0 n))
       <-> mp_result a <> MP_OPTIMAL)) /\
  (forall (a : cp_answer num) bread meat beer,
      (takes_success
         [cp_solved_in a; [];
          [Lit "Optimal value = "%string;
           Int (3 * Value a bread + 10 * Value a meat + 26 * Value a beer);
           Lit " popularity"%string];
          [Lit "Food:"%string];
          [Lit " - 🥖Bread = "%string; Int (Value a bread)];
          [Lit " - 🥩Meat  = "%string; Int (Value a meat)];
          [Lit " - 🍺Beer  = "%string; Int (Value a beer)]]
         (Rations.report a bread meat beer)
       <-> cp_result a = CP_OPTIMAL) /\
      (takes_failure no_optimum (Rations.report a bread meat beer)
       <-> cp_result a <> CP_OPTIMAL)) /\
  (forall (a : cp_answer num) army,
      (takes_success
         [cp_solved_in a; [];
          [Lit "🪖 Army = "%string; Int (Value a army)];
          [];
          [Lit "Check solution:"%string];
          [Lit " - Constraint 1: "%string; Int (Value a army);
           Lit " % 13 = "%string; Int (Value a army mod 13)];
          [Lit " - Constraint 2: "%string; Int (Value a army);
           Lit " % 19 = "%string; Int (Value a army mod 19)];
          [Lit " - Constraint 3: "%string; Int (Value a army);
           Lit " % 37 = "%string; Int (Value a army mod 37)]]
         (ArmySize.report a army)
       <-> cp_result a = CP_OPTIMAL \/ cp_result a = CP_FEASIBLE) /\
      (takes_failure no_solution (ArmySize.report a army)
       <-> cp_result a <> CP_OPTIMAL /\ cp_result a <> CP_FEASIBLE)).
Proof.
  split; [|split; [|split; [|split]]].
  - intros label a s b h.
    rewrite <- mp_status_neq, <- mp_status_eqb_eq.
    apply branch_iff; [exact no_optimum_not_banner|].
    intros out. apply army_cell_report_run.
  - intros solver a units _.
    rewrite <- mp_status_neq, <- mp_status_eqb_eq.
    apply branch_iff; [exact no_optimum_not_banner|].
    intros out. rewrite max_power_report_run.
    destruct (mp_status_eqb (mp_result a) MP_OPTIMAL); reflexivity.
  - intros DATA solver a n Hrows _ _.
    rewrite <- mp_status_neq, <- mp_status_eqb_eq.
    apply branch_iff; [exact no_optimum_not_banner|].
    intros out. apply min_report_run, Hrows.
  - intros a bread meat beer.
    rewrite <- cp_status_neq, <- cp_status_eqb_eq.
    apply branch_iff; [exact no_optimum_not_banner|].
    intros out. apply rations_report_run.
  - intros a army.
    destruct (sat_statuses (cp_result a)) as [Ht Hf]. rewrite <- Ht, <- Hf.
    apply branch_iff; [exact no_solution_not_banner|].
    intros out. apply army_size_report_run.
Qed.

Lemma ten_units_named :
  named (fst (MinResources.build TenUnits.UNITS TenUnits.DATA TenUnits.RESOURCES empty_model))
        (seq 0 10).
Proof.
  apply Forall_forall. intros x Hx. apply in_seq in Hx.
  do 10 (destruct x as [|x]; [eexists; split; [reflexivity | discriminate]|]).
  lia.
Qed.

Lemma ten_units_within : Forall (Forall (within (2 ^ 49))) TenUnits.DATA.
Proof. exact (proj1 (proj2 (proj2 (proj2 ten_units_stored)))). Qed.

Lemma success_branch_statuses_witness :
  (mp_result (mp_sample MP_FEASIBLE 0 []) <> MP_OPTIMAL /\
   takes_failure no_optimum (MaxPower.report empty_model (mp_sample MP_FEASIBLE 0 []) [])) /\
  (cp_result (cp_sample CP_FEASIBLE [19; 0; 0]) <> CP_OPTIMAL /\
   takes_failure no_optimum
     (Rations.report (cp_sample CP_FEASIBLE [19; 0; 0]) 0%nat 1%nat 2%nat)) /\
  (cp_result (cp_sample CP_FEASIBLE [9139]) = CP_FEASIBLE /\
   forall out : stdout Z,
     ArmySize.report (cp_sample CP_FEASIBLE [9139]) 0%nat out =
     (out ++
        [banner; cp_solved_in (cp_sample CP_FEASIBLE [9139]); [];
         [Lit "🪖 Army = "%string; Int 9139];
         [];
         [Lit "Check solution:"%string];
         [Lit " - Constraint 1: "%string; Int 9139; Lit " % 13 = "%string; Int 0];
         [Lit " - Constraint 2: "%string; Int 9139; Lit " % 19 = "%string; Int 0];
         [Lit " - Constraint 3: "%string; Int 9139; Lit " % 37 = "%string; Int 0]],
      Py.Ok tt)) /\
  (rows_have 10 TenUnits.DATA 3 /\
   forall out : stdout Z,
     min_report Z_numeric TenUnits.DATA
       (fst (MinResources.build TenUnits.UNITS TenUnits.DATA TenUnits.RESOURCES empty_model))
       (mp_sample MP_FEASIBLE 111300 [0; 0; 0; 0; 0; 0; 0; 371]) (seq 0 10) out
     = (out ++ [no_optimum], Py.Ok tt)).
Proof.
  split; [|split; [|split]].
  - assert (H : mp_result (mp_sample MP_FEASIBLE 0 []) <> MP_OPTIMAL) by discriminate.
    split; [exact H|].
    exact (proj2 (proj2 (proj1 (proj2 (success_branch_statuses Z_numeric))
                           empty_model (mp_sample MP_FEASIBLE 0 []) []
                           (Forall_nil _)))
                 H).
  - assert (H : cp_result (cp_sample CP_FEASIBLE [19; 0; 0]) <> CP_OPTIMAL) by discriminate.
    split; [exact H|].
    exact (proj2 (proj2 (proj1 (proj2 (proj2 (proj2 (success_branch_statuses Z_numeric))))
                           (cp_sample CP_FEASIBLE [19; 0; 0]) 0%nat 1%nat 2%nat))
                 H).
  - split; [reflexivity|].
    exact (proj2 (proj1 (proj2 (proj2 (proj2 (proj2 (success_branch_statuses Z_numeric))))
                           (cp_sample CP_FEASIBLE [9139]) 0%nat))
                 (or_intror eq_refl)).
  - assert (Hrows : rows_have 10 TenUnits.DATA 3)
      by (apply rows_have_iff; reflexivity).
    split; [exact Hrows|].
    assert (H : mp_result (mp_sample MP_FEASIBLE 111300 [0; 0; 0; 0; 0; 0; 0; 371])
                <> MP_OPTIMAL) by discriminate.
    exact (proj2 (proj2 (proj1 (proj2 (proj2 (success_branch_statuses Z_numeric)))
                           TenUnits.DATA _
                           (mp_sample MP_FEASIBLE 111300 [0; 0; 0; 0; 0; 0; 0; 371]) 10%nat
                           Hrows ten_units_within ten_units_named))
                 H).
Defined.

(** ** Only the first [len(UNITS)] rows of [DATA] are read *)

Lemma cell_firstn DATA n u r :
  (u < n)%nat -> cell (firstn n DATA) (Z.of_nat u) r = cell DATA (Z.of_nat u) r.
Proof.
  intros Hu. unfold cell. rewrite !getitem_nat, nth_error_firstn.
  destruct (Nat.ltb_spec u n) as [_|H]; [reflexivity | lia].
Qed.

Lemma power_coef_firstn DATA n u :
  (u < n)%nat -> power_coef (firstn n DATA) (Z.of_nat u) = power_coef DATA (Z.of_nat u).
Proof. intros Hu. unfold power_coef. rewrite !cell_firstn by exact Hu. reflexivity. Qed.

Lemma cost_coef_firstn DATA n u :
  (u < n)%nat -> cost_coef (firstn n DATA) (Z.of_nat u) = cost_coef DATA (Z.of_nat u).
Proof. intros Hu. unfold cost_coef. rewrite !cell_firstn by exact Hu. reflexivity. Qed.

Lemma sum_terms_ext (coef coef' : Z -> Py.result Z) n :
  (forall u, (u < n)%nat -> coef (Z.of_nat u) = coef' (Z.of_nat u)) ->
  sum_terms coef (seq 0 n) = sum_terms coef' (seq 0 n).
Proof.
  intros H. rewrite !sum_terms_seq. apply mapM_ext.
  intros u Hu. apply in_seq in Hu. rewrite H by lia. reflexivity.
Qed.

Lemma sum_values_ext {num} (ops : numeric num) (a : mp_answer num)
  (coef coef' : Z -> Py.result Z) n :
  (forall u, (u < n)%nat -> coef (Z.of_nat u) = coef' (Z.of_nat u)) ->
  sum_values ops a coef (seq 0 n) = sum_values ops a coef' (seq 0 n).
Proof.
  intros H. unfold sum_values.
  rewrite (mapM_enumerate
             (fun u => (c <- coef u ;;
                        x <- Py.getitem (seq 0 n) u ;;
                        Py.Ok (num_mul ops (num_of_int ops c) (solution_value a x)))%py)).
  rewrite (mapM_enumerate
             (fun u => (c <- coef' u ;;
                        x <- Py.getitem (seq 0 n) u ;;
                        Py.Ok (num_mul ops (num_of_int ops c) (solution_value a x)))%py)).
  rewrite length_seq.
  rewrite (mapM_ext _ (fun i =>
                         (c <- coef' (Z.of_nat i) ;;
                          x <- Py.getitem (seq 0 n) (Z.of_nat i) ;;
                          Py.Ok (num_mul ops (num_of_int ops c) (solution_value a x)))%py)).
  - reflexivity.
  - intros u Hu. apply in_seq in Hu. rewrite H by lia. reflexivity.
Qed.

Lemma resource_loop_firstn DATA RESOURCES n :
  Py.mapM (eval_resource_constraint (firstn n DATA) RESOURCES n) (seq 0 (length RESOURCES))
  = Py.mapM (eval_resource_constraint DATA RESOURCES n) (seq 0 (length RESOURCES)).
Proof.
  apply mapM_ext. intros r _. unfold eval_resource_constraint.
  rewrite (sum_terms_ext (fun u => cell (firstn n DATA) u (Z.of_nat r))
                         (fun u => cell DATA u (Z.of_nat r)))
    by (intros u Hu; apply cell_firstn, Hu).
  reflexivity.
Qed.

Lemma eval_power_constraint_firstn DATA n :
  eval_power_constraint (firstn n DATA) n = eval_power_constraint DATA n.
Proof.
  unfold eval_power_constraint.
  rewrite (sum_terms_ext (power_coef (firstn n DATA)) (power_coef DATA))
    by (intros u Hu; apply power_coef_firstn, Hu).
  reflexivity.
Qed.

Lemma min_report_firstn {num} (ops : numeric num) DATA solver (a : mp_answer num) n out :
  min_report ops (firstn n DATA) solver a (seq 0 n) out
  = min_report ops DATA solver a (seq 0 n) out.
Proof.
  unfold min_report.
  rewrite (sum_values_ext ops a (power_coef (firstn n DATA)) (power_coef DATA))
    by (intros u Hu; apply power_coef_firstn, Hu).
  rewrite (sum_values_ext ops a (fun u => cell (firstn n DATA) u 0) (fun u => cell DATA u 0))
    by (intros u Hu; apply cell_firstn, Hu).
  rewrite (sum_values_ext ops a (fun u => cell (firstn n DATA) u 1) (fun u => cell DATA u 1))
    by (intros u Hu; apply cell_firstn, Hu).
  rewrite (sum_values_ext ops a (fun u => cell (firstn n DATA) u 2) (fun u => cell DATA u 2))
    by (intros u Hu; apply cell_firstn, Hu).
  reflexivity.
Qed.

Ltac same_outcome Hrun Hrun' :=
  repeat match type of Hrun with
         | match ?x with _ => _ end => destruct x
         end;
  first [ rewrite Hrun, Hrun'; reflexivity
        | rewrite !solve_army_raises_when_build_does by assumption; reflexivity ].

(** X4. In all four definitions of [solve_army] the rows of [DATA] beyond
    the first [len(UNITS)] are never read: a call behaves (output, result
    and exception alike) as the call on the table cut down to that many
    rows. *)
Theorem solve_army_reads_first_rows_only {num} (ops : numeric num)
  (Solve : model -> mp_answer num) UNITS DATA RESOURCES out :
  MaxPower.solve_army Solve UNITS (firstn (length UNITS) DATA) RESOURCES out
  = MaxPower.solve_army Solve UNITS DATA RESOURCES out /\
  MaxPowerAttack.solve_army Solve UNITS (firstn (length UNITS) DATA) RESOURCES out
  = MaxPowerAttack.solve_army Solve UNITS DATA RESOURCES out /\
  MinResources.solve_army ops Solve UNITS (firstn (length UNITS) DATA) RESOURCES out
  = MinResources.solve_army ops Solve UNITS DATA RESOURCES out /\
  Combined.solve_army ops Solve UNITS (firstn (length UNITS) DATA) RESOURCES out
  = Combined.solve_army ops Solve UNITS DATA RESOURCES out.
Proof.
  split; [|split; [|split]].
  - unfold MaxPower.solve_army.
    pose proof (max_power_build_run UNITS DATA RESOURCES) as Hrun.
    pose proof (max_power_build_run UNITS (firstn (length UNITS) DATA) RESOURCES) as Hrun'.
    rewrite resource_loop_firstn in Hrun'.
    rewrite (sum_terms_ext (fun u => cell (firstn (length UNITS) DATA) u (-1))
                           (fun u => cell DATA u (-1)))
      in Hrun' by (intros u Hu; apply cell_firstn, Hu).
    same_outcome Hrun Hrun'.
  - unfold MaxPowerAttack.solve_army.
    pose proof (max_power_attack_build_run UNITS DATA RESOURCES) as Hrun.
    pose proof (max_power_attack_build_run UNITS (firstn (length UNITS) DATA) RESOURCES)
      as Hrun'.
    rewrite resource_loop_firstn in Hrun'.
    rewrite (sum_terms_ext (power_coef (firstn (length UNITS) DATA)) (power_coef DATA))
      in Hrun' by (intros u Hu; apply power_coef_firstn, Hu).
    same_outcome Hrun Hrun'.
  - unfold MinResources.solve_army.
    pose proof (min_resources_build_run UNITS DATA RESOURCES) as Hrun.
    pose proof (min_resources_build_run UNITS (firstn (length UNITS) DATA) RESOURCES)
      as Hrun'.
    rewrite (sum_terms_ext (power_coef (firstn (length UNITS) DATA)) (power_coef DATA))
      in Hrun' by (intros u Hu; apply power_coef_firstn, Hu).
    rewrite (sum_terms_ext (cost_coef (firstn (length UNITS) DATA)) (cost_coef DATA))
      in Hrun' by (intros u Hu; apply cost_coef_firstn, Hu).
    repeat match type of Hrun with
           | match ?x with _ => _ end => destruct x
           end;
      first [ rewrite Hrun, Hrun', !bind_run, min_report_firstn; reflexivity
            | rewrite !solve_army_raises_when_build_does by assumption; reflexivity ].
  - unfold Combined.solve_army.
    pose proof (combined_build_run UNITS DATA RESOURCES) as Hrun.
    pose proof (combined_build_run UNITS (firstn (length UNITS) DATA) RESOURCES) as Hrun'.
    rewrite resource_loop_firstn in Hrun'.
    rewrite eval_power_constraint_firstn in Hrun'.
    rewrite (sum_terms_ext (cost_coef (firstn (length UNITS) DATA)) (cost_coef DATA))
      in Hrun' by (intros u Hu; apply cost_coef_firstn, Hu).
    repeat match type of Hrun with
           | match ?x with _ => _ end => destruct x
           end;
      first [ rewrite Hrun, Hrun', !bind_run, min_report_firstn; reflexivity
            | rewrite !solve_army_raises_when_build_does by assumption; reflexivity ].
Qed.

(** ** Armies that are feasible whatever the table *)

Lemma value_of_zeros n x : value_of (repeat 0 n) x = 0.
Proof.
  unfold value_of. revert x. induction n as [|n IH]; intros [|x]; simpl; auto.
Qed.

Lemma eval_zeros e n : eval e (repeat 0 n) = 0.
Proof.
  induction e as [|[c x] e IH]; simpl; [reflexivity|].
  rewrite value_of_zeros, IH. lia.
Qed.

Lemma zeros_in_domain UNITS :
  Forall2 in_domain (map unit_var UNITS) (repeat 0 (length UNITS)).
Proof.
  induction UNITS as [|unit UNITS IH]; simpl; constructor; [|exact IH].
  unfold in_domain; simpl. split; [lia | exact I].
Qed.

Lemma zeros_meet_resources DATA RESOURCES n k :
  Forall (sat (repeat 0 k)) (resource_constraints DATA RESOURCES n)
  <-> Forall (fun cap => 0 <= cap) RESOURCES.
Proof.
  unfold resource_constraints. rewrite Forall_map, Forall_forall. split.
  - intros H. apply (Forall_nth (fun cap => 0 <= cap) RESOURCES). intros r d Hr.
    specialize (H r ltac:(apply in_seq; lia)).
    unfold resource_constraint, sat in H. rewrite eval_zeros in H.
    rewrite (nth_indep RESOURCES d 0 Hr). exact H.
  - intros H r Hr. apply in_seq in Hr.
    unfold resource_constraint, sat. rewrite eval_zeros.
    apply (proj1 (Forall_nth (fun cap => 0 <= cap) RESOURCES) H). lia.
Qed.

(** X5. In the model of the first [solve_army] the empty army (no unit of
    any kind) is feasible exactly when no capacity in [RESOURCES] is
    negative, and its objective value is 0: with non-negative capacities
    the model is never infeasible.  In the model of the third definition
    the empty army is never feasible. *)
Theorem empty_army_feasibility UNITS DATA RESOURCES :
  (forall m units,
      MaxPower.build UNITS DATA RESOURCES empty_model = (m, Py.Ok units) ->
      (feasible m (repeat 0 (length UNITS)) <-> Forall (fun cap => 0 <= cap) RESOURCES) /\
      objective_value m (repeat 0 (length UNITS)) = 0) /\
  (forall m units,
      MinResources.build UNITS DATA RESOURCES empty_model = (m, Py.Ok units) ->
      ~ feasible m (repeat 0 (length UNITS))).
Proof.
  split.
  - intros m units H. apply max_power_build_inv in H. destruct H as [_ [-> _]].
    unfold feasible, objective_value, objective_expr. cbn [variables constraints objective].
    split; [|apply eval_zeros].
    rewrite zeros_meet_resources. split; [tauto|].
    intros H. split; [apply zeros_in_domain | exact H].
  - intros m units H [_ Hc].
    destruct (rows_have_dec (length UNITS) DATA 3) as [Hr|Hn].
    + rewrite (min_resources_build_ok _ _ _ Hr) in H. injection H as <- _.
      cbn [constraints] in Hc. inversion Hc as [|c cs Hp _]; subst.
      unfold power_constraint, sat in Hp. rewrite eval_zeros in Hp. lia.
    + apply (min_resources_build_raises _ _ RESOURCES) in Hn.
      rewrite H in Hn. discriminate Hn.
Qed.

Lemma empty_army_feasibility_witness :
  (feasible (fst (MaxPower.build MaxPower.UNITS MaxPower.DATA MaxPower.RESOURCES empty_model))
            [0; 0; 0]
   <-> Forall (fun cap => 0 <= cap) MaxPower.RESOURCES) /\
  ~ feasible (fst (MinResources.build TenUnits.UNITS TenUnits.DATA TenUnits.RESOURCES
                     empty_model))
             (repeat 0 10).
Proof.
  split.
  - exact (proj1 (proj1 (empty_army_feasibility MaxPower.UNITS MaxPower.DATA
                           MaxPower.RESOURCES) _ [0; 1; 2]%nat eq_refl)).
  - refine (proj2 (empty_army_feasibility TenUnits.UNITS TenUnits.DATA TenUnits.RESOURCES)
              _ (seq 0 10) _).
    vm_compute. reflexivity.
Defined.

(** ** Smaller armies of a feasible army *)

Lemma eval_monotone e a a' :
  (forall c x, In (c, x) e -> 0 <= c) ->
  (forall x, value_of a' x <= value_of a x) ->
  eval e a' <= eval e a.
Proof.
  intros Hc Hv. induction e as [|[c x] e IH]; simpl; [lia|].
  assert (0 <= c) by (apply (Hc c x); left; reflexivity).
  specialize (IH (fun c' x' Hin => Hc c' x' (or_intror Hin))).
  specialize (Hv x). nia.
Qed.

Lemma smaller_values (a a' : assignment) :
  Forall2 (fun x' x => 0 <= x' <= x) a' a ->
  forall x, value_of a' x <= value_of a x.
Proof.
  unfold value_of. induction 1 as [|y' y a' a Hy _ IH]; intros [|x]; simpl; try lia.
  apply IH.
Qed.

Lemma entry_nonneg DATA u r :
  Forall (Forall (fun c => 0 <= c)) DATA -> 0 <= entry DATA u r.
Proof.
  intros H. unfold entry.
  assert (Hrow : Forall (fun c => 0 <= c) (nth u DATA [])).
  { destruct (nth_in_or_default u DATA []) as [Hin | ->]; [|constructor].
    apply (proj1 (Forall_forall _ DATA) H _ Hin). }
  destruct (nth_in_or_default r (nth u DATA []) 0) as [Hin | ->]; [|lia].
  apply (proj1 (Forall_forall _ _) Hrow _ Hin).
Qed.

Lemma trailing_nonneg DATA u :
  Forall (Forall (fun c => 0 <= c)) DATA -> 0 <= trailing DATA u.
Proof.
  intros H. unfold trailing. rewrite last_nth. apply (entry_nonneg DATA u _ H).
Qed.

Lemma terms_nonneg (coef : nat -> Z) n :
  (forall u, 0 <= coef u) -> forall c x, In (c, x) (terms coef n) -> 0 <= c.
Proof.
  intros H c x Hin. unfold terms in Hin. apply in_map_iff in Hin.
  destruct Hin as [u [Heq _]]. injection Heq as <- _. apply H.
Qed.

Lemma smaller_in_domain UNITS :
  forall a a',
    Forall2 in_domain (map unit_var UNITS) a ->
    Forall2 (fun x' x => 0 <= x' <= x) a' a ->
    Forall2 in_domain (map unit_var UNITS) a'.
Proof.
  induction UNITS as [|unit UNITS IH]; simpl; intros a a' Hd Hle.
  - inversion Hd; subst. inversion Hle; constructor.
  - inversion Hd as [|v x vs a0 Hvx Hrest]; subst.
    inversion Hle as [|x' x0 a'' a1 Hx Hrest']; subst.
    constructor; [|eapply IH; eassumption].
    unfold in_domain; simpl. split; [lia | exact I].
Qed.

(** X6. With a table without negative entries, the model of the first
    [solve_army] is closed under shrinking an army: lowering any unit
    counts of a feasible army (not below 0) gives a feasible army, and the
    objective can only go down. *)
Theorem smaller_army_stays_feasible UNITS DATA RESOURCES m units a a' :
  Forall (Forall (fun c => 0 <= c)) DATA ->
  MaxPower.build UNITS DATA RESOURCES empty_model = (m, Py.Ok units) ->
  feasible m a ->
  Forall2 (fun x' x => 0 <= x' <= x) a' a ->
  feasible m a' /\ objective_value m a' <= objective_value m a.
Proof.
  intros Hdata H [Hd Hc] Hle.
  apply max_power_build_inv in H. destruct H as [_ [-> _]].
  pose proof (smaller_values a a' Hle) as Hv.
  unfold feasible, objective_value, objective_expr in *.
  cbn [variables constraints objective] in *. split; [split|].
  - eapply smaller_in_domain; eassumption.
  - apply Forall_forall. intros c Hin.
    pose proof (proj1 (Forall_forall _ _) Hc c Hin) as Hsat.
    unfold resource_constraints in Hin. apply in_map_iff in Hin.
    destruct Hin as [r [<- _]]. unfold resource_constraint, sat in *.
    eapply Z.le_trans; [|exact Hsat].
    apply eval_monotone; [|exact Hv].
    apply terms_nonneg. intros u. apply entry_nonneg, Hdata.
  - apply eval_monotone; [|exact Hv].
    apply terms_nonneg. intros u. apply trailing_nonneg, Hdata.
Qed.

Lemma smaller_army_stays_feasible_witness :
  feasible (fst (MaxPower.build MaxPower.UNITS MaxPower.DATA MaxPower.RESOURCES empty_model))
           [5; 0; 6] /\
  objective_value
    (fst (MaxPower.build MaxPower.UNITS MaxPower.DATA MaxPower.RESOURCES empty_model))
    [5; 0; 6]
  <= objective_value
       (fst (MaxPower.build MaxPower.UNITS MaxPower.DATA MaxPower.RESOURCES empty_model))
       [6; 0; 6].
Proof.
  apply (smaller_army_stays_feasible MaxPower.UNITS MaxPower.DATA MaxPower.RESOURCES
           _ [0; 1; 2]%nat [6; 0; 6] [5; 0; 6]).
  - repeat constructor; lia.
  - reflexivity.
  - apply feasible_iff. reflexivity.
  - repeat constructor; lia.
Defined.

(** ** The minimising definitions compared *)

Lemma constraint_relaxes_refl c : constraint_relaxes c c.
Proof. destruct c; simpl; [split; [reflexivity | lia] | reflexivity | reflexivity]. Qed.

Lemma Forall2_append {A B} (P : A -> B -> Prop) l1 l1' l2 l2' :
  Forall2 P l1 l1' -> Forall2 P l2 l2' -> Forall2 P (l1 ++ l2) (l1' ++ l2').
Proof. induction 1; simpl; intros H2; [exact H2 | constructor; auto]. Qed.

Lemma resource_constraints_relax DATA RESOURCES RESOURCES' n :
  Forall2 Z.le RESOURCES RESOURCES' ->
  Forall2 constraint_relaxes (resource_constraints DATA RESOURCES n)
                             (resource_constraints DATA RESOURCES' n).
Proof.
  intros Hle. unfold resource_constraints. rewrite <- (Forall2_length Hle).
  apply Forall2_map_same. intros r _. simpl. split; [reflexivity|].
  apply Forall2_le_nth, Hle.
Qed.

Lemma unit_vars_relax UNITS : Forall2 var_relaxes (map unit_var UNITS) (map unit_var UNITS).
Proof.
  apply Forall2_refl. intros v. unfold var_relaxes.
  destruct (var_ub v); simpl; repeat split; lia.
Qed.

Lemma combined_relaxes UNITS DATA RESOURCES RESOURCES' m units m' units' :
  Forall2 Z.le RESOURCES RESOURCES' ->
  Combined.build UNITS DATA RESOURCES empty_model = (m, Py.Ok units) ->
  Combined.build UNITS DATA RESOURCES' empty_model = (m', Py.Ok units') ->
  relaxes m m'.
Proof.
  intros Hle H H'.
  apply combined_build_inv in H. destruct H as [-> _].
  apply combined_build_inv in H'. destruct H' as [-> _].
  unfold relaxes. cbn [variables constraints objective].
  split; [apply unit_vars_relax|]. split; [|reflexivity].
  rewrite <- (Forall2_length Hle). apply Forall2_append.
  - apply Forall2_refl, constraint_relaxes_refl.
  - apply resource_constraints_relax, Hle.
Qed.

(** X7. In the combined [solve_army], which minimises, raising the
    capacities in [RESOURCES] componentwise never raises the cheapest cost:
    the inequality of the maximising definitions is reversed. *)
Theorem combined_larger_capacities_never_cost_more
  UNITS DATA RESOURCES RESOURCES' m units m' units' v v' :
  Forall2 Z.le RESOURCES RESOURCES' ->
  Combined.build UNITS DATA RESOURCES empty_model = (m, Py.Ok units) ->
  Combined.build UNITS DATA RESOURCES' empty_model = (m', Py.Ok units') ->
  is_min m v -> is_min m' v' -> v' <= v.
Proof.
  intros Hle H H'. apply relaxes_min. eapply combined_relaxes; eassumption.
Qed.

(** A one-unit table: one unit of food buys power 1000001. *)
Lemma one_unit_feasible cap a :
  feasible (fst (Combined.build ["a"%string] [[1; 0; 0; 0; 1000001]] [cap] empty_model)) a
  <-> exists x, a = [x] /\ 0 <= x /\ 1000001 * x >= 1000001 /\ 1 * x <= cap.
Proof.
  unfold feasible. simpl. split.
  - intros [Hd Hc]. invert_Forall2.
    match goal with H : in_domain _ ?y |- _ => exists y; destruct H as [? _] end.
    simpl in *. unfold value_of in *; simpl in *. split; [reflexivity|]. lia.
  - intros [x [-> H]]. split.
    + repeat constructor; simpl; lia.
    + repeat constructor; simpl; unfold value_of; simpl; lia.
Qed.

Lemma one_unit_min cap :
  1 <= cap ->
  is_min (fst (Combined.build ["a"%string] [[1; 0; 0; 0; 1000001]] [cap] empty_model)) 1.
Proof.
  intros Hcap. split.
  - exists [1]. split; [|reflexivity].
    apply one_unit_feasible. exists 1. split; [reflexivity | lia].
  - intros a Ha. apply one_unit_feasible in Ha. destruct Ha as [x [-> H]].
    change (1 <= 1 * x + 0). lia.
Qed.

Lemma combined_larger_capacities_never_cost_more_witness :
  Forall2 Z.le [1] [2] /\
  is_min (fst (Combined.build ["a"%string] [[1; 0; 0; 0; 1000001]] [1] empty_model)) 1 /\
  is_min (fst (Combined.build ["a"%string] [[1; 0; 0; 0; 1000001]] [2] empty_model)) 1 /\
  1 <= 1.
Proof.
  assert (Hle : Forall2 Z.le [1] [2]) by (repeat constructor; lia).
  assert (H1 : is_min (fst (Combined.build ["a"%string] [[1; 0; 0; 0; 1000001]] [1]
                              empty_model)) 1)
    by (apply one_unit_min; lia).
  assert (H2 : is_min (fst (Combined.build ["a"%string] [[1; 0; 0; 0; 1000001]] [2]
                              empty_model)) 1)
    by (apply one_unit_min; lia).
  split; [exact Hle|]. split; [exact H1|]. split; [exact H2|].
  exact (combined_larger_capacities_never_cost_more
           ["a"%string] [[1; 0; 0; 0; 1000001]] [1] [2] _ [0%nat] _ [0%nat] 1 1
           Hle eq_refl eq_refl H1 H2).
Defined.

(** X8. With at least one resource, every army the combined definition
    accepts is accepted by the third definition (power bound only), both
    give it the same cost, and the cheapest army under limited resources
    costs at least as much as the cheapest army without the limits. *)
Theorem limited_resources_never_cost_less UNITS DATA RESOURCES m3 units3 m4 units4 :
  RESOURCES <> [] ->
  MinResources.build UNITS DATA RESOURCES empty_model = (m3, Py.Ok units3) ->
  Combined.build UNITS DATA RESOURCES empty_model = (m4, Py.Ok units4) ->
  (forall a, feasible m4 a ->
             feasible m3 a /\ objective_value m3 a = objective_value m4 a) /\
  (forall v3 v4, is_min m3 v3 -> is_min m4 v4 -> v3 <= v4).
Proof.
  intros Hne H3 H4.
  apply combined_build_inv in H4. destruct H4 as [-> _].
  assert (Hm3 : m3 = {| variables := map unit_var UNITS;
                        constraints := [power_constraint DATA (length UNITS)];
                        objective := Some (Minimize, terms (cost DATA) (length UNITS)) |}).
  { destruct (rows_have_dec (length UNITS) DATA 3) as [Hr|Hn].
    - rewrite (min_resources_build_ok _ _ _ Hr) in H3. injection H3 as <- _. reflexivity.
    - apply (min_resources_build_raises _ _ RESOURCES) in Hn.
      rewrite H3 in Hn. discriminate Hn. }
  subst m3.
  assert (Hsub : forall a,
             feasible
               {| variables := map unit_var UNITS;
                  constraints :=
                    map (fun _ => power_constraint DATA (length UNITS))
                        (seq 0 (length RESOURCES))
                    ++ resource_constraints DATA RESOURCES (length UNITS);
                  objective := Some (Minimize, terms (cost DATA) (length UNITS)) |} a ->
             feasible
               {| variables := map unit_var UNITS;
                  constraints := [power_constraint DATA (length UNITS)];
                  objective := Some (Minimize, terms (cost DATA) (length UNITS)) |} a).
  { intros a [Hd Hc]. split; [exact Hd|]. cbn [constraints] in *.
    apply Forall_app in Hc. destruct Hc as [Hp _].
    destruct RESOURCES as [|cap rest]; [congruence|].
    simpl in Hp. inversion Hp; subst. constructor; [assumption | constructor]. }
  split.
  - intros a Ha. split; [apply Hsub, Ha | reflexivity].
  - intros v3 v4 [_ Hlb] [[a [Ha Hv]] _]. rewrite <- Hv.
    apply (Hlb a), Hsub, Ha.
Qed.

Lemma limited_resources_never_cost_less_witness :
  feasible (fst (MinResources.build ["a"%string] [[1; 0; 0; 0; 1000001]] [1] empty_model)) [1]
  /\ objective_value
       (fst (MinResources.build ["a"%string] [[1; 0; 0; 0; 1000001]] [1] empty_model)) [1]
     = objective_value
         (fst (Combined.build ["a"%string] [[1; 0; 0; 0; 1000001]] [1] empty_model)) [1].
Proof.
  refine (proj1 (limited_resources_never_cost_less
                   ["a"%string] [[1; 0; 0; 0; 1000001]] [1] _ [0%nat] _ [0%nat]
                   _ eq_refl eq_refl) [1] _).
  - discriminate.
  - apply feasible_iff. reflexivity.
Defined.

(** ** The hand-written three-unit cell and the function that generalises it *)

Lemma army_cell_feasible a :
  feasible (fst (ArmyCell.build empty_model)) a <->
  exists swordsmen bowmen horsemen, a = [swordsmen; bowmen; horsemen] /\
    0 <= swordsmen /\ 0 <= bowmen /\ 0 <= horsemen /\
    60 * swordsmen + 80 * bowmen + 140 * horsemen <= 1200 /\
    20 * swordsmen + 10 * bowmen <= 800 /\
    40 * bowmen + 100 * horsemen <= 600.
Proof.
  unfold feasible; simpl. split.
  - intros [Hd Hc]. invert_Forall2.
    repeat match goal with H : in_domain _ _ |- _ => destruct H as [? _] end.
    simpl in *. unfold value_of in *; simpl in *.
    eexists _, _, _. split; [reflexivity|]. lia.
  - intros [s [b [h [-> H]]]]. split.
    + repeat constructor; simpl; lia.
    + repeat constructor; simpl; unfold value_of; simpl; lia.
Qed.

Lemma three_units_optimum s b h :
  0 <= s -> 0 <= b -> 0 <= h ->
  60 * s + 80 * b + 140 * h <= 1200 ->
  40 * b + 100 * h <= 600 ->
  70 * s + 95 * b + 230 * h <= 1800 /\
  (70 * s + 95 * b + 230 * h = 1800 -> s = 6 /\ b = 0 /\ h = 6).
Proof. intros. split; [lia|]. intros Hv. lia. Qed.

(** X9. The model the hand-written cell builds and the model
    [solve_army(UNITS, DATA, RESOURCES)] builds from the notebook's table
    differ only in the variables' names and in the zero-coefficient terms
    the function spells out: they have the same feasible armies, give
    every army the same objective value and so the same largest value,
    1800, reached by exactly one army, (6, 0, 6). *)
Theorem generalised_function_matches_cell :
  exists by_hand by_function,
    ArmyCell.build empty_model = (by_hand, Py.Ok (0, 1, 2)%nat) /\
    MaxPower.build MaxPower.UNITS MaxPower.DATA MaxPower.RESOURCES empty_model
    = (by_function, Py.Ok [0; 1; 2]%nat) /\
    map var_name (variables by_hand) <> map var_name (variables by_function) /\
    constraints by_hand <> constraints by_function /\
    (forall a, feasible by_hand a <-> feasible by_function a) /\
    (forall a, objective_value by_hand a = objective_value by_function a) /\
    is_max by_hand 1800 /\ is_max by_function 1800 /\
    (forall a, feasible by_function a -> objective_value by_function a = 1800 ->
               a = [6; 0; 6]).
Proof.
  eexists _, _. split; [reflexivity|]. split; [reflexivity|].
  split; [discriminate|]. split; [discriminate|].
  assert (Hsame : forall a,
             feasible (fst (ArmyCell.build empty_model)) a <->
             feasible (fst (MaxPower.build MaxPower.UNITS MaxPower.DATA MaxPower.RESOURCES
                              empty_model)) a).
  { intros a. rewrite army_cell_feasible.
    rewrite (three_units_feasible 800 a).
    split; intros [s [b [h [-> H]]]]; exists s, b, h; (split; [reflexivity | lia]). }
  split; [exact Hsame|]. split; [reflexivity|].
  split; [|split].
  - split.
    + exists [6; 0; 6]. split; [|reflexivity].
      apply army_cell_feasible. exists 6, 0, 6. split; [reflexivity | lia].
    + intros a Ha. apply army_cell_feasible in Ha.
      destruct Ha as [s [b [h [-> H]]]].
      change (70 * s + (95 * b + (230 * h + 0)) <= 1800).
      pose proof (three_units_optimum s b h). lia.
  - apply (three_units_max 800). lia.
  - intros a Ha Hv. apply (three_units_feasible 800 a) in Ha.
    destruct Ha as [s [b [h [-> H]]]].
    change (70 * s + (95 * b + (230 * h + 0)) = 1800) in Hv.
    pose proof (three_units_optimum s b h).
    assert (s = 6 /\ b = 0 /\ h = 6) as [-> [-> ->]] by lia. reflexivity.
Qed.

(** ** What the cells print when the engine answers correctly *)

Lemma three_units_unique a :
  feasible (fst (MaxPower.build MaxPower.UNITS MaxPower.DATA MaxPower.RESOURCES empty_model)) a ->
  objective_value
    (fst (MaxPower.build MaxPower.UNITS MaxPower.DATA MaxPower.RESOURCES empty_model)) a
  = 1800 ->
  a = [6; 0; 6].
Proof.
  intros Ha Hv. apply (three_units_feasible 800 a) in Ha.
  destruct Ha as [s [b [h [-> H]]]].
  change (70 * s + (95 * b + (230 * h + 0)) = 1800) in Hv.
  pose proof (three_units_optimum s b h).
  assert (s = 6 /\ b = 0 /\ h = 6) as [-> [-> ->]] by lia. reflexivity.
Qed.

Lemma army_cell_unique a :
  feasible (fst (ArmyCell.build empty_model)) a ->
  objective_value (fst (ArmyCell.build empty_model)) a = 1800 ->
  a = [6; 0; 6].
Proof.
  intros Ha Hv. apply army_cell_feasible in Ha.
  destruct Ha as [s [b [h [-> H]]]].
  change (70 * s + (95 * b + (230 * h + 0)) = 1800) in Hv.
  pose proof (three_units_optimum s b h).
  assert (s = 6 /\ b = 0 /\ h = 6) as [-> [-> ->]] by lia. reflexivity.
Qed.

Lemma army_cell_max : is_max (fst (ArmyCell.build empty_model)) 1800.
Proof.
  split.
  - exists [6; 0; 6]. split; [|reflexivity].
    apply army_cell_feasible. exists 6, 0, 6. split; [reflexivity | lia].
  - intros a Ha. apply army_cell_feasible in Ha.
    destruct Ha as [s [b [h [-> H]]]].
    change (70 * s + (95 * b + (230 * h + 0)) <= 1800).
    pose proof (three_units_optimum s b h). lia.
Qed.

(** X10. Whatever engine is used, if its answer for the three-unit model is
    a correct optimum, the hand-written cell and
    [solve_army(UNITS, DATA, RESOURCES)] print the lines recorded in the
    notebook: objective 1800 and the army 6, 0, 6 (as the floats of these
    integers); only the timing line depends on the engine. *)
Theorem three_unit_cells_print_the_optimum {num} (of_int : Z -> num)
  (Solve : model -> mp_answer num) out :
  (mp_answers_optimum of_int (fst (ArmyCell.build empty_model))
     (Solve (fst (ArmyCell.build empty_model))) ->
   ArmyCell.run Solve out =
   (out ++ [banner; solved_in (Solve (fst (ArmyCell.build empty_model))); [];
            [Lit "Optimal value = "%string; Num (of_int 1800); Lit " 💪power"%string];
            [Lit "Army:"%string];
            [Lit " - 🗡️Swordsmen = "%string; Num (of_int 6)];
            [Lit " - 🏹Bowmen = "%string; Num (of_int 0)];
            [Lit " - 🐎Horsemen = "%string; Num (of_int 6)]],
    Py.Ok tt)) /\
  (mp_answers_optimum of_int
     (fst (MaxPower.build MaxPower.UNITS MaxPower.DATA MaxPower.RESOURCES empty_model))
     (Solve (fst (MaxPower.build MaxPower.UNITS MaxPower.DATA MaxPower.RESOURCES
                    empty_model))) ->
   MaxPower.solve_army Solve MaxPower.UNITS MaxPower.DATA MaxPower.RESOURCES out =
   (out ++ [banner;
            solved_in (Solve (fst (MaxPower.build MaxPower.UNITS MaxPower.DATA
                                     MaxPower.RESOURCES empty_model)));
            [];
            [Lit "Optimal value = "%string; Num (of_int 1800); Lit " 💪power"%string];
            [Lit "Army:"%string];
            [Lit " - "%string; Lit "🗡️Swordsmen"%string; Lit " = "%string; Num (of_int 6)];
            [Lit " - "%string; Lit "🏹Bowmen"%string; Lit " = "%string; Num (of_int 0)];
            [Lit " - "%string; Lit "🐎Horsemen"%string; Lit " = "%string; Num (of_int 6)]],
    Py.Ok PyNone)).
Proof.
  split.
  - intros [Hst [x [Hx [Hmax [Hval Hobj]]]]].
    pose proof (is_max_unique _ _ _ Hmax army_cell_max) as Hv.
    pose proof (army_cell_unique x Hx Hv) as ->.
    unfold ArmyCell.run.
    change (ArmyCell.build empty_model)
      with (fst (ArmyCell.build empty_model), @Py.Ok (handle * handle * handle) (0, 1, 2)%nat).
    cbv beta iota. unfold ArmyCell.report.
    rewrite (proj2 (mp_status_eqb_eq _ _) Hst).
    unfold bind, print. cbv beta iota.
    rewrite Hobj, Hv, !Hval. rewrite <- !app_assoc. reflexivity.
  - intros [Hst [x [Hx [Hmax [Hval Hobj]]]]].
    pose proof (is_max_unique _ _ _ Hmax (three_units_max 800 ltac:(lia))) as Hv.
    pose proof (three_units_unique x Hx Hv) as ->.
    unfold MaxPower.solve_army.
    change (MaxPower.build MaxPower.UNITS MaxPower.DATA MaxPower.RESOURCES empty_model)
      with (fst (MaxPower.build MaxPower.UNITS MaxPower.DATA MaxPower.RESOURCES empty_model),
            @Py.Ok (list handle) [0; 1; 2]%nat).
    cbv beta iota. rewrite bind_run, max_power_report_run.
    rewrite (proj2 (mp_status_eqb_eq _ _) Hst).
    unfold unit_line. rewrite Hobj, Hv. cbn [map]. rewrite !Hval. reflexivity.
Qed.

Lemma mp_sample_optimum :
  mp_answers_optimum (fun z => z) (fst (ArmyCell.build empty_model))
    (mp_sample MP_OPTIMAL 1800 [6; 0; 6]).
Proof.
  split; [reflexivity|]. exists [6; 0; 6]. split.
  - apply feasible_iff. reflexivity.
  - split; [exact army_cell_max|]. split; [|reflexivity].
    intros [|[|[|[|i]]]]; reflexivity.
Qed.

Lemma three_unit_cells_print_the_optimum_witness :
  ArmyCell.run (fun _ => mp_sample MP_OPTIMAL 1800 [6; 0; 6]) [] =
  ([banner; solved_in (mp_sample MP_OPTIMAL 1800 [6; 0; 6]); [];
    [Lit "Optimal value = "%string; Num 1800; Lit " 💪power"%string];
    [Lit "Army:"%string];
    [Lit " - 🗡️Swordsmen = "%string; Num 6];
    [Lit " - 🏹Bowmen = "%string; Num 0];
    [Lit " - 🐎Horsemen = "%string; Num 6]],
   Py.Ok tt).
Proof.
  exact (proj1 (three_unit_cells_print_the_optimum (fun z => z)
                  (fun _ => mp_sample MP_OPTIMAL 1800 [6; 0; 6]) [])
               mp_sample_optimum).
Defined.

(** *** The CP-SAT cells *)

Lemma army_size_only_9139 army :
  1 <= army <= 10000 -> army mod 13 = 0 -> army mod 19 = 0 -> army mod 37 = 0 ->
  army = 9139.
Proof.
  intros Hb H13 H19 H37.
  pose proof (Z.div_mod army 13 ltac:(lia)).
  pose proof (Z.div_mod army 19 ltac:(lia)).
  pose proof (Z.div_mod army 37 ltac:(lia)).
  lia.
Qed.

(** X11. Whatever engine is used, if the satisfiability cell gets a correct
    answer (status [OPTIMAL] or [FEASIBLE] with a value that satisfies the
    model) it prints an army of 9139 and three check lines whose
    remainders are all 0; only the timing line depends on the engine. *)
Theorem army_size_cell_prints_9139 {num} (Solve : model -> cp_answer num) out :
  cp_answers_solution (fst (ArmySize.build empty_model))
    (Solve (fst (ArmySize.build empty_model))) ->
  ArmySize.run Solve out =
  (out ++ [banner; cp_solved_in (Solve (fst (ArmySize.build empty_model))); [];
           [Lit "🪖 Army = "%string; Int 9139];
           [];
           [Lit "Check solution:"%string];
           [Lit " - Constraint 1: "%string; Int 9139; Lit " % 13 = "%string; Int 0];
           [Lit " - Constraint 2: "%string; Int 9139; Lit " % 19 = "%string; Int 0];
           [Lit " - Constraint 3: "%string; Int 9139; Lit " % 37 = "%string; Int 0]],
   Py.Ok tt).
Proof.
  intros [Hst Hfeas].
  apply army_size_feasible in Hfeas.
  destruct Hfeas as [army [Heq [Hb [H13 [H19 H37]]]]].
  change (cp_values (fst (ArmySize.build empty_model))
            (Solve (fst (ArmySize.build empty_model))))
    with [Value (Solve (fst (ArmySize.build empty_model))) 0%nat] in Heq.
  pose proof (army_size_only_9139 army Hb H13 H19 H37) as ->.
  assert (Hval : Value (Solve (fst (ArmySize.build empty_model))) 0%nat = 9139)
    by (injection Heq as Heq; exact Heq).
  clear Heq.
  unfold ArmySize.run.
  change (ArmySize.build empty_model)
    with (fst (ArmySize.build empty_model), @Py.Ok handle 0%nat).
  cbv beta iota. unfold ArmySize.report.
  assert (Hb' : cp_status_eqb (cp_result (Solve (fst (ArmySize.build empty_model)))) CP_OPTIMAL
                || cp_status_eqb (cp_result (Solve (fst (ArmySize.build empty_model))))
                     CP_FEASIBLE = true).
  { destruct Hst as [-> | ->]; reflexivity. }
  rewrite Hb'. unfold bind, print. cbv beta iota.
  rewrite Hval. rewrite <- !app_assoc. reflexivity.
Qed.

Lemma army_size_cell_prints_9139_witness :
  ArmySize.run (fun _ => cp_sample CP_FEASIBLE [9139]) [] =
  ([banner; cp_solved_in (cp_sample CP_FEASIBLE [9139]); [];
    [Lit "🪖 Army = "%string; Int 9139];
    [];
    [Lit "Check solution:"%string];
    [Lit " - Constraint 1: "%string; Int 9139; Lit " % 13 = "%string; Int 0];
    [Lit " - Constraint 2: "%string; Int 9139; Lit " % 19 = "%string; Int 0];
    [Lit " - Constraint 3: "%string; Int 9139; Lit " % 37 = "%string; Int 0]],
   Py.Ok tt).
Proof.
  apply (army_size_cell_prints_9139 (fun _ => cp_sample CP_FEASIBLE [9139]) []).
  split; [right; reflexivity|]. apply feasible_iff. reflexivity.
Defined.

Lemma rations_best_is_unique bread meat beer :
  0 <= bread -> 0 <= meat -> 0 <= beer ->
  1 * bread + 3 * meat + 7 * beer <= 19 ->
  3 * bread + 10 * meat + 26 * beer = 68 ->
  bread = 2 /\ meat = 1 /\ beer = 2.
Proof. intros. lia. Qed.

(** X12. The ration model has exactly one best selection: 2 bread, 1 meat,
    2 beer.  So whatever engine is used, if its answer is a correct
    optimum the ration cell prints the lines recorded in the notebook
    (popularity 68 and that selection); only the timing line depends on
    the engine. *)
Theorem rations_cell_prints_the_optimum {num} (Solve : model -> cp_answer num) out :
  (forall a, feasible (Rations.rations Rations.capacity) a ->
             objective_value (Rations.rations Rations.capacity) a = 68 ->
             a = [2; 1; 2]) /\
  (cp_answers_optimum (Rations.rations Rations.capacity)
     (Solve (Rations.rations Rations.capacity)) ->
   Rations.run Solve out =
   (out ++ [banner; cp_solved_in (Solve (Rations.rations Rations.capacity)); [];
            [Lit "Optimal value = "%string; Int 68; Lit " popularity"%string];
            [Lit "Food:"%string];
            [Lit " - 🥖Bread = "%string; Int 2];
            [Lit " - 🥩Meat  = "%string; Int 1];
            [Lit " - 🍺Beer  = "%string; Int 2]],
    Py.Ok tt)).
Proof.
  assert (Huniq : forall a, feasible (Rations.rations Rations.capacity) a ->
                            objective_value (Rations.rations Rations.capacity) a = 68 ->
                            a = [2; 1; 2]).
  { intros a Ha Hv. apply rations_feasible in Ha.
    destruct Ha as [bread [meat [beer [-> H]]]].
    rewrite rations_objective in Hv. unfold Rations.capacity in H.
    assert (bread = 2 /\ meat = 1 /\ beer = 2) as [-> [-> ->]]
      by (apply rations_best_is_unique; lia).
    reflexivity. }
  split; [exact Huniq|].
  intros [Hst [Hfeas Hmax]].
  pose proof (is_max_unique _ _ _ Hmax rations_max_19) as Hv.
  pose proof (Huniq _ Hfeas Hv) as Heq.
  change (cp_values (Rations.rations Rations.capacity)
            (Solve (Rations.rations Rations.capacity)))
    with [Value (Solve (Rations.rations Rations.capacity)) 0%nat;
          Value (Solve (Rations.rations Rations.capacity)) 1%nat;
          Value (Solve (Rations.rations Rations.capacity)) 2%nat] in Heq.
  assert (Hbread : Value (Solve (Rations.rations Rations.capacity)) 0%nat = 2)
    by (injection Heq as H0 _ _; exact H0).
  assert (Hmeat : Value (Solve (Rations.rations Rations.capacity)) 1%nat = 1)
    by (injection Heq as _ H1 _; exact H1).
  assert (Hbeer : Value (Solve (Rations.rations Rations.capacity)) 2%nat = 2)
    by (injection Heq as _ _ H2; exact H2).
  clear Heq.
  unfold Rations.run.
  change (Rations.build Rations.capacity empty_model)
    with (Rations.rations Rations.capacity,
          @Py.Ok (handle * handle * handle) (0, 1, 2)%nat).
  cbv beta iota. unfold Rations.report.
  rewrite (proj2 (cp_status_eqb_eq _ _) Hst).
  unfold bind, print. cbv beta iota.
  rewrite Hbread, Hmeat, Hbeer. rewrite <- !app_assoc. reflexivity.
Qed.

Lemma rations_cell_prints_the_optimum_witness :
  Rations.run (fun _ => cp_sample CP_OPTIMAL [2; 1; 2]) [] =
  ([banner; cp_solved_in (cp_sample CP_OPTIMAL [2; 1; 2]); [];
    [Lit "Optimal value = "%string; Int 68; Lit " popularity"%string];
    [Lit "Food:"%string];
    [Lit " - 🥖Bread = "%string; Int 2];
    [Lit " - 🥩Meat  = "%string; Int 1];
    [Lit " - 🍺Beer  = "%string; Int 2]],
   Py.Ok tt).
Proof.
  apply (proj2 (rations_cell_prints_the_optimum (fun _ => cp_sample CP_OPTIMAL [2; 1; 2]) [])).
  split; [reflexivity|]. split.
  - apply feasible_iff. reflexivity.
  - exact rations_max_19.
Defined.

(** ** The cell that prints every army size up to 100000 *)

Lemma three_congruences x :
  x mod 13 = 0 /\ x mod 19 = 0 /\ x mod 37 = 0 <-> x mod 9139 = 0.
Proof.
  rewrite !Z.mod_divide by lia. split.
  - intros [H13 [H19 H37]].
    pose proof (Z.lcm_least 13 19 x H13 H19) as H247.
    change (Z.lcm 13 19) with 247 in H247.
    pose proof (Z.lcm_least 247 37 x H247 H37) as H.
    exact H.
  - intros H. repeat split; (eapply Z.divide_trans; [|exact H]).
    + exists 703. reflexivity.
    + exists 481. reflexivity.
    + exists 247. reflexivity.
Qed.

Lemma print_armies_feasible a :
  feasible (fst (PrintArmies.build empty_model)) a <->
  exists k, a = [9139 * k] /\ 1 <= k <= 10.
Proof.
  unfold feasible; cbn -[Z.mul Z.modulo]. split.
  - intros [Hd Hc]. invert_Forall2.
    match goal with H : in_domain _ ?y |- _ => destruct H as [Hlo Hhi]; rename y into x end.
    cbn -[Z.mul Z.modulo] in *. unfold value_of in *; cbn -[Z.mul Z.modulo] in *.
    assert (Hmod : x mod 9139 = 0) by (apply three_congruences; auto).
    pose proof (Z.div_mod x 9139 ltac:(lia)) as Hx.
    exists (x / 9139). split; [f_equal; lia | lia].
  - intros [k [-> Hk]].
    assert (Hmod : (9139 * k) mod 9139 = 0)
      by (rewrite Z.mul_comm; apply Z.mod_mul; lia).
    apply three_congruences in Hmod. destruct Hmod as [H13 [H19 H37]]. split.
    + repeat constructor; cbn -[Z.mul Z.modulo]; lia.
    + repeat constructor; cbn -[Z.mul Z.modulo]; unfold value_of;
        cbn -[Z.mul Z.modulo]; assumption.
Qed.

Lemma box_bounded vs :
  (forall v, In v vs -> exists hi, var_ub v = Fin hi) -> exists l, box vs = Some l.
Proof.
  induction vs as [|v vs IH]; intros H; simpl.
  - eexists. reflexivity.
  - destruct (H v (or_introl eq_refl)) as [hi ->].
    destruct IH as [rest ->]; [intros v' Hv'; apply H; right; exact Hv'|].
    eexists. reflexivity.
Qed.

Lemma same_elements_same_length {A} (l l' : list A) :
  NoDup l -> NoDup l' -> (forall x, In x l <-> In x l') -> length l = length l'.
Proof.
  intros Hl Hl' H. apply Nat.le_antisymm; apply NoDup_incl_length; try assumption;
    intros x Hx; apply H, Hx.
Qed.

(** X13. The enumeration cell prints exactly the ten multiples of
    9139 = 13 * 19 * 37 that lie between 1 and 100000, one line each, none
    twice, and never raises. *)
Theorem print_armies_prints_the_multiples {num} :
  exists printed : stdout num,
    (exists run, PrintArmies.run = Some run /\
                 forall out, run out = (out ++ printed, Py.Ok tt)) /\
    NoDup printed /\
    length printed = 10%nat /\
    (forall l, In l printed <-> exists k, l = [Int (9139 * k)] /\ 1 <= k <= 10).
Proof.
  destruct (box_bounded (variables (fst (PrintArmies.build empty_model))))
    as [pts Hbox].
  { intros v [<- | []]. eexists. reflexivity. }
  assert (Hsols : all_solutions (fst (PrintArmies.build empty_model))
                  = Some (filter (feasibleb (fst (PrintArmies.build empty_model))) pts))
    by (unfold all_solutions; rewrite Hbox; reflexivity).
  destruct (all_solutions_spec _ _ Hsols) as [Hnd Hin].
  set (sols := filter (feasibleb (fst (PrintArmies.build empty_model))) pts) in *.
  set (f := fun sol : assignment => [@Int num (value_of sol 0%nat)]).
  assert (Hprinted : forall l, In l (map f sols)
                               <-> exists k, l = [Int (9139 * k)] /\ 1 <= k <= 10).
  { intros l. rewrite in_map_iff. split.
    - intros [sol [<- Hsol]]. apply Hin, print_armies_feasible in Hsol.
      destruct Hsol as [k [-> Hk]]. exists k. split; [reflexivity | exact Hk].
    - intros [k [-> Hk]]. exists [9139 * k]. split; [reflexivity|].
      apply Hin, print_armies_feasible. exists k. split; [reflexivity | exact Hk]. }
  assert (Hnd' : NoDup (map f sols)).
  { apply NoDup_map_NoDup_ForallPairs; [|exact Hnd].
    intros s s' Hs Hs' Heq.
    apply Hin, print_armies_feasible in Hs. destruct Hs as [k [-> _]].
    apply Hin, print_armies_feasible in Hs'. destruct Hs' as [k' [-> _]].
    unfold f, value_of in Heq. cbn -[Z.mul] in Heq. congruence. }
  exists (map f sols). split; [|split; [exact Hnd'|split; [|exact Hprinted]]].
  - exists (for_each sols (PrintArmies.on_solution_callback (PrintArmies.init 0%nat))). split.
    + unfold PrintArmies.run.
      change (PrintArmies.build empty_model)
        with (fst (PrintArmies.build empty_model), @Py.Ok handle 0%nat).
      cbv beta iota. unfold PrintArmies.Solve_all. rewrite Hsols. reflexivity.
    + intros out. apply (for_each_print f).
  - transitivity (length (map (fun k => [@Int num (9139 * k)]) (interval 1 10)));
      [|rewrite length_map; reflexivity].
    apply same_elements_same_length.
    + exact Hnd'.
    + apply NoDup_map_NoDup_ForallPairs; [|apply interval_NoDup].
      intros k k' _ _ Heq. assert (9139 * k = 9139 * k') by congruence. lia.
    + intros l. rewrite Hprinted, in_map_iff. split.
      * intros [k [-> Hk]]. exists k. split; [reflexivity | apply In_interval, Hk].
      * intros [k [<- Hk]]. exists k. split; [reflexivity | apply In_interval, Hk].
Qed.

(** ** The ration models at any capacity *)

Lemma finite_max (f : assignment -> Z) (sols : list assignment) :
  sols <> [] -> exists a, In a sols /\ forall a', In a' sols -> f a' <= f a.
Proof.
  induction sols as [|x sols IH]; intros Hne; [congruence|].
  destruct sols as [|y sols].
  - exists x. split; [left; reflexivity|]. intros a' [<- | []]. lia.
  - destruct (IH ltac:(discriminate)) as [a [Ha Hmax]].
    destruct (Z.le_gt_cases (f a) (f x)) as [Hle|Hgt].
    + exists x. split; [left; reflexivity|].
      intros a' [<- | Hin]; [lia|]. specialize (Hmax a' Hin). lia.
    + exists a. split; [right; exact Ha|].
      intros a' [<- | Hin]; [lia | apply Hmax, Hin].
Qed.

(** A satisfiable model whose variables are all bounded has a largest
    objective value. *)
Lemma bounded_model_has_max m :
  (forall v, In v (variables m) -> exists hi, var_ub v = Fin hi) ->
  (exists a, feasible m a) ->
  exists v, is_max m v.
Proof.
  intros Hb [a0 Ha0]. destruct (box_bounded _ Hb) as [pts Hbox].
  assert (Hsols : all_solutions m = Some (filter (feasibleb m) pts))
    by (unfold all_solutions; rewrite Hbox; reflexivity).
  destruct (all_solutions_spec _ _ Hsols) as [_ Hin].
  destruct (finite_max (objective_value m) (filter (feasibleb m) pts)) as [a [Ha Hmax]].
  { intros Hnil. apply Hin in Ha0. rewrite Hnil in Ha0. exact Ha0. }
  exists (objective_value m a). split.
  - exists a. split; [apply Hin, Ha | reflexivity].
  - intros a' Ha'. apply Hmax, Hin, Ha'.
Qed.

(** X14. For every 32-bit capacity the ration cell could be run with: a
    negative capacity leaves no selection at all; a capacity [c >= 0]
    always has a best selection, whose popularity lies between [3 * c]
    (bread only) and [26 * c / 7]; in particular capacity 0 admits only the
    empty wagon, with popularity 0. *)
Theorem rations_at_any_capacity c :
  int32 c ->
  (c < 0 -> forall a, ~ feasible (Rations.rations c) a) /\
  (0 <= c -> exists v, is_max (Rations.rations c) v /\ 3 * c <= v /\ 7 * v <= 26 * c) /\
  (c = 0 -> is_max (Rations.rations c) 0 /\
            forall a, feasible (Rations.rations c) a -> a = [0; 0; 0]).
Proof.
  intros _. split; [|split].
  - intros Hc a Ha. apply rations_feasible in Ha.
    destruct Ha as [bread [meat [beer [_ H]]]]. lia.
  - intros Hc.
    assert (Hbread : feasible (Rations.rations c) [c; 0; 0]).
    { apply rations_feasible. exists c, 0, 0. split; [reflexivity | lia]. }
    destruct (bounded_model_has_max (Rations.rations c)) as [v Hv].
    { intros x Hx. simpl in Hx.
      destruct Hx as [<- | [<- | [<- | []]]]; eexists; reflexivity. }
    { exists [c; 0; 0]. exact Hbread. }
    exists v. split; [exact Hv|].
    destruct Hv as [[a [Ha Hva]] Hub]. split.
    + specialize (Hub _ Hbread). rewrite rations_objective in Hub. lia.
    + apply rations_feasible in Ha. destruct Ha as [bread [meat [beer [-> H]]]].
      rewrite rations_objective in Hva. lia.
  - intros ->. split.
    + split.
      * exists [0; 0; 0]. split; [|reflexivity].
        apply rations_feasible. exists 0, 0, 0. split; [reflexivity | lia].
      * intros a Ha. apply rations_feasible in Ha.
        destruct Ha as [bread [meat [beer [-> H]]]]. rewrite rations_objective. lia.
    + intros a Ha. apply rations_feasible in Ha.
      destruct Ha as [bread [meat [beer [-> H]]]].
      assert (bread = 0 /\ meat = 0 /\ beer = 0) as [-> [-> ->]] by lia. reflexivity.
Qed.

Lemma rations_at_any_capacity_witness :
  (forall a, ~ feasible (Rations.rations (-1)) a) /\
  (exists v, is_max (Rations.rations 19) v /\ 3 * 19 <= v /\ 7 * v <= 26 * 19) /\
  is_max (Rations.rations 0) 0.
Proof.
  split; [|split].
  - exact (proj1 (rations_at_any_capacity (-1) ltac:(unfold int32; lia)) ltac:(lia)).
  - exact (proj1 (proj2 (rations_at_any_capacity 19 ltac:(unfold int32; lia))) ltac:(lia)).
  - exact (proj1 (proj2 (proj2 (rations_at_any_capacity 0 ltac:(unfold int32; lia))) eq_refl)).
Defined.

(** ** Counting solutions *)

Lemma count_rations_feasible_at c a :
  feasible (fst (CountRations.build c empty_model)) a <->
  exists bread meat beer, a = [bread; meat; beer] /\
    0 <= bread <= c /\ 0 <= meat <= c /\ 0 <= beer <= c /\
    1 * bread + 3 * meat + 7 * beer <= c.
Proof.
  unfold feasible; simpl. split.
  - intros [Hd Hc]. invert_Forall2.
    repeat match goal with H : in_domain _ _ |- _ => destruct H as [? ?] end.
    simpl in *. unfold value_of in *; simpl in *.
    eexists _, _, _. split; [reflexivity|]. lia.
  - intros [bread [meat [beer [-> H]]]]. split.
    + repeat constructor; simpl; lia.
    + repeat constructor; simpl. unfold value_of; simpl. lia.
Qed.

Lemma solve_all_counts m callback :
  (forall v, In v (variables m) -> exists hi, var_ub v = Fin hi) ->
  exists after sols,
    CountRations.Solve_all m callback = Some after /\
    NoDup sols /\
    (forall a, In a sols <-> feasible m a) /\
    CountRations.solution_count after
    = CountRations.solution_count callback + Z.of_nat (length sols).
Proof.
  intros Hb. destruct (box_bounded _ Hb) as [pts Hbox].
  assert (Hsols : all_solutions m = Some (filter (feasibleb m) pts))
    by (unfold all_solutions; rewrite Hbox; reflexivity).
  destruct (all_solutions_spec _ _ Hsols) as [Hnd Hin].
  eexists _, (filter (feasibleb m) pts).
  split; [unfold CountRations.Solve_all; rewrite Hsols; reflexivity|].
  split; [exact Hnd|]. split; [exact Hin|]. apply count_callbacks.
Qed.


Lemma count_rations_bounded c v :
  In v (variables (fst (CountRations.build c empty_model))) -> exists hi, var_ub v = Fin hi.
Proof.
  simpl. intros [<- | [<- | [<- | []]]]; eexists; reflexivity.
Qed.


(** X16. In the counting cell, run with 32-bit capacities and an engine
    that calls the callback once per solution, the number of solutions
    counted never decreases when the capacity grows, and no solution is
    counted at a negative capacity. *)
Theorem count_grows_with_capacity c c' :
  int32 c -> int32 c' -> c <= c' ->
  exists after after',
    CountRations.Solve_all (fst (CountRations.build c empty_model)) CountRations.init
    = Some after /\
    CountRations.Solve_all (fst (CountRations.build c' empty_model)) CountRations.init
    = Some after' /\
    CountRations.solution_count after <= CountRations.solution_count after' /\
    (c < 0 -> CountRations.solution_count after = 0).
Proof.
  intros _ _ Hc.
  destruct (solve_all_counts (fst (CountRations.build c empty_model)) CountRations.init
              (count_rations_bounded c)) as [after [sols [Hs [Hnd [Hin Hcount]]]]].
  destruct (solve_all_counts (fst (CountRations.build c' empty_model)) CountRations.init
              (count_rations_bounded c')) as [after' [sols' [Hs' [Hnd' [Hin' Hcount']]]]].
  exists after, after'. split; [exact Hs|]. split; [exact Hs'|]. split.
  - rewrite Hcount, Hcount'.
    assert (Hlen : (length sols <= length sols')%nat).
    { apply NoDup_incl_length; [exact Hnd|]. intros a Ha.
      apply Hin'. apply Hin in Ha.
      apply count_rations_feasible_at in Ha. apply count_rations_feasible_at.
      destruct Ha as [bread [meat [beer [-> H]]]].
      exists bread, meat, beer. split; [reflexivity | lia]. }
    lia.
  - intros Hneg. rewrite Hcount.
    destruct sols as [|a sols]; [reflexivity|].
    exfalso. assert (Ha : In a (a :: sols)) by (left; reflexivity).
    apply Hin, count_rations_feasible_at in Ha.
    destruct Ha as [bread [meat [beer [_ H]]]]. lia.
Qed.

Lemma count_grows_with_capacity_witness :
  exists after after',
    CountRations.Solve_all (fst (CountRations.build 1 empty_model)) CountRations.init
    = Some after /\
    CountRations.Solve_all (fst (CountRations.build 2 empty_model)) CountRations.init
    = Some after' /\
    CountRations.solution_count after <= CountRations.solution_count after' /\
    (1 < 0 -> CountRations.solution_count after = 0).
Proof.
  exact (count_grows_with_capacity 1 2 ltac:(unfold int32; lia) ltac:(unfold int32; lia)
           ltac:(lia)).
Defined.

(** ** Larger capacities in the second definition *)

Lemma max_power_attack_build_inv UNITS DATA RESOURCES m units :
  MaxPowerAttack.build UNITS DATA RESOURCES empty_model = (m, Py.Ok units) ->
  m = {| variables := map unit_var UNITS;
         constraints := resource_constraints DATA RESOURCES (length UNITS);
         objective := Some (Maximize, terms (power DATA) (length UNITS)) |}.
Proof.
  intros H.
  destruct (rows_have_dec (length UNITS) DATA (Nat.max 2 (length RESOURCES))) as [Hr|Hn].
  - rewrite (max_power_attack_build_ok _ _ _ Hr) in H. injection H as <- _. reflexivity.
  - apply max_power_attack_build_raises in Hn. rewrite H in Hn. discriminate Hn.
Qed.

(** X17. In the second [solve_army] too, raising the capacities in
    [RESOURCES] componentwise keeps every feasible army feasible with the
    same power, and so never lowers the largest power. *)
Theorem max_power_attack_larger_capacities
  UNITS DATA RESOURCES RESOURCES' m units m' units' :
  Forall2 Z.le RESOURCES RESOURCES' ->
  MaxPowerAttack.build UNITS DATA RESOURCES empty_model = (m, Py.Ok units) ->
  MaxPowerAttack.build UNITS DATA RESOURCES' empty_model = (m', Py.Ok units') ->
  (forall a, feasible m a -> feasible m' a /\ objective_value m a = objective_value m' a) /\
  (forall v v', is_max m v -> is_max m' v' -> v <= v').
Proof.
  intros Hle H H'.
  apply max_power_attack_build_inv in H. apply max_power_attack_build_inv in H'. subst m m'.
  assert (Hrel : relaxes
                   {| variables := map unit_var UNITS;
                      constraints := resource_constraints DATA RESOURCES (length UNITS);
                      objective := Some (Maximize, terms (power DATA) (length UNITS)) |}
                   {| variables := map unit_var UNITS;
                      constraints := resource_constraints DATA RESOURCES' (length UNITS);
                      objective := Some (Maximize, terms (power DATA) (length UNITS)) |}).
  { unfold relaxes. cbn [variables constraints objective].
    split; [apply unit_vars_relax|]. split; [|reflexivity].
    apply resource_constraints_relax, Hle. }
  split.
  - intros a Ha. split; [eapply relaxes_feasible; eassumption | reflexivity].
  - intros v v'. apply relaxes_max, Hrel.
Qed.

Lemma max_power_attack_larger_capacities_witness :
  feasible (fst (MaxPowerAttack.build TenUnits.UNITS TenUnits.DATA [183000; 90512; 90000]
                   empty_model))
           [2; 1283; 3; 0; 454; 0; 0; 301; 0; 0].
Proof.
  refine (proj1 (proj1 (max_power_attack_larger_capacities
                          TenUnits.UNITS TenUnits.DATA TenUnits.RESOURCES
                          [183000; 90512; 90000]
                          (fst (MaxPowerAttack.build TenUnits.UNITS TenUnits.DATA
                                  TenUnits.RESOURCES empty_model))
                          (seq 0 10)
                          (fst (MaxPowerAttack.build TenUnits.UNITS TenUnits.DATA
                                  [183000; 90512; 90000] empty_model))
                          (seq 0 10) _ _ _)
                   [2; 1283; 3; 0; 454; 0; 0; 301; 0; 0] _)).
  - repeat constructor; lia.
  - vm_compute. reflexivity.
  - vm_compute. reflexivity.
  - apply feasible_iff. vm_compute. reflexivity.
Defined.
